(** * Optimal gathering point: the search engine of [optimal_point.py]

    A shallow embedding of [OptimalPointFinder] and the properties its
    specification states about it.

    Modelling choices.
    - A Python [float] is an IEEE 754 binary64 value, that is a primitive
      [float] of Rocq; [+], [*], [/], [<], [>=] and [==] are the primitive
      operations.  A Python [int] is a [Z].
    - What the interpreter and the numeric libraries provide ([round], [sum],
      [numpy.sum], [numpy.mean], the label assignment of HDBSCAN and K-Means)
      is a field of the class [Runtime]; the routing provider is the class
      [MapAPI].  Reference instances are given for evaluation.
    - A method is a computation in the monad [M]: it yields a result, raises
      an exception or runs out of fuel (the [while] loop only), and it leaves
      a trace of the provider calls it made and of the writes to
      [self.search_radius].
    - Console output is not modelled; the lines of [calculation_logs] are kept
      as structured entries.  [calculate_distance] only feeds such a line (the
      largest distance to the starting point) and is left out: it is taken
      to return.
    - The provider classes of [map_api.py] (the checks of a key, the
      preprocessing of an address, the retries of a request, the factory)
      are in the module [map_api], the calculation thread of [main.py] in
      the module [main].  A Python [str] that is taken apart is the list of
      its code points. *)

From Stdlib Require Import String Ascii DecimalString Floats NArith ZArith Bool Lia
  Permutation List.
Import ListNotations.

Set Warnings "-inexact-float".
Local Open Scope Z_scope.

(** ** Python values *)

(** A coordinate pair [(latitude, longitude)], in decimal degrees. *)
Definition point : Type := (float * float)%type.

(** A coordinate pair is a tuple, or a two-element numpy array (what
    [points.mean(axis=0)] returns). *)
Inductive pypoint : Type :=
| PTuple (p : point)
| PArray (p : point).

Definition coords_of (p : pypoint) : point :=
  match p with PTuple q | PArray q => q end.

Definition is_tuple (p : pypoint) : bool :=
  match p with PTuple _ => true | PArray _ => false end.

(** The arguments of [find_optimal_point] that its callers fill with values
    of more than one type. *)
Inductive pyval : Type :=
| PyNone
| PyInt (z : Z)
| PyStr (s : string).

Definition truthy (v : pyval) : bool :=
  match v with
  | PyNone => false
  | PyInt z => negb (z =? 0)
  | PyStr s => negb (String.eqb s "")
  end.

Definition is_none (v : pyval) : bool :=
  match v with PyNone => true | _ => false end.

Inductive exn : Type :=
| ValueError (msg : string)
| TypeError
| AttributeError
| IndexError
| KeyError
| OverflowError
| ZeroDivisionError.

(** What a piece of straight-line code yields: a value or an exception. *)
Inductive result (A : Type) : Type :=
| Value (a : A)
| Error (e : exn).
Arguments Value {A} a.
Arguments Error {A} e.

Definition rbind {A B} (r : result A) (k : A -> result B) : result B :=
  match r with
  | Value a => k a
  | Error e => Error e
  end.

Notation "x <-? r ;; k" := (rbind r (fun x => k))
  (at level 61, r at next level, right associativity).
Notation "' pat <-? r ;; k" := (rbind r (fun x => match x with pat => k end))
  (at level 61, pat pattern, r at next level, right associativity).

(** What a method yields: a value, an exception, or nothing yet when the fuel
    given to its [while] loop is used up. *)
Inductive res (A : Type) : Type :=
| Ok (a : A)
| Raise (e : exn)
| OutOfFuel.
Arguments Ok {A} a.
Arguments Raise {A} e.
Arguments OutOfFuel {A}.

(** ** Numbers *)

(** [float(n)] for an [int]: the nearest binary64 value, [OverflowError] when
    there is none. *)
Definition to_float (z : Z) : float :=
  SF2Prim (binary_normalize prec emax z 0 false).

Definition float_of_int (z : Z) : option float :=
  if is_infinity (to_float z) then None else Some (to_float z).

(** [int(x)] for a [float]: truncation toward zero. *)
Definition int_of_float (x : float) : result Z :=
  match Prim2SF x with
  | S754_zero _ => Value 0
  | S754_finite s m e =>
      let v := Z.shiftl (Zpos m) e in
      Value (if s then - v else v)
  | S754_infinity _ => Error OverflowError
  | S754_nan => Error (ValueError "cannot convert float NaN to integer")
  end.


Definition string_of_Z (z : Z) : string := NilEmpty.string_of_int (Z.to_int z).

(** [str.lower()], on ASCII text. *)
Definition lower_ascii (c : Ascii.ascii) : Ascii.ascii :=
  let n := Ascii.nat_of_ascii c in
  if ((65 <=? n) && (n <=? 90))%nat then Ascii.ascii_of_nat (n + 32) else c.

Fixpoint lower (s : string) : string :=
  match s with
  | EmptyString => EmptyString
  | String c s' => String (lower_ascii c) (lower s')
  end.

(** ** Effects *)

Inductive event : Type :=
| RouteCall (origin destination : point)
| RouteTimeCall (origin destination : point)
| SetSearchRadius (radius : float).

Definition M (A : Type) : Type := (list event * res A)%type.

Definition ret {A} (a : A) : M A := ([], Ok a).

Definition raise {A} (e : exn) : M A := ([], Raise e).

Definition tell (e : event) : M unit := ([e], Ok tt).

Definition lift {A} (r : result A) : M A :=
  match r with
  | Value a => ([], Ok a)
  | Error e => ([], Raise e)
  end.

Definition bind {A B} (m : M A) (k : A -> M B) : M B :=
  match m with
  | (t1, Ok a) => let '(t2, r) := k a in (t1 ++ t2, r)
  | (t1, Raise e) => (t1, Raise e)
  | (t1, OutOfFuel) => (t1, OutOfFuel)
  end.

Notation "x <- m ;; k" := (bind m (fun x => k))
  (at level 61, m at next level, right associativity).
Notation "' pat <- m ;; k" := (bind m (fun x => match x with pat => k end))
  (at level 61, pat pattern, m at next level, right associativity).
Notation "m ;;; k" := (bind m (fun _ => k))
  (at level 61, right associativity).

Definition trace {A} (m : M A) : list event := fst m.
Definition outcome {A} (m : M A) : res A := snd m.

Definition is_route_event (e : event) : bool :=
  match e with
  | RouteCall _ _ | RouteTimeCall _ _ => true
  | SetSearchRadius _ => false
  end.

(** The provider calls of a trace. *)
Definition oracle_calls (t : list event) : list event := filter is_route_event t.


Definition route_only (e : event) : Prop := is_route_event e = true.

(** An event of a search with step [step]: a provider call, or the write of
    the radius [step * 0.000009]. *)
Definition search_event (step : Z) (e : event) : Prop :=
  route_only e \/
  exists f, float_of_int step = Some f /\ e = SetSearchRadius (f * 0.000009)%float.

(** The radii a trace stores in [self.search_radius]. *)
Definition radius_writes (t : list event) : list float :=
  flat_map (fun e => match e with
                     | SetSearchRadius r => [r]
                     | _ => []
                     end) t.

(** A call that stops with an exception before it asks the provider
    anything. *)
Definition fails_fast {A} (m : M A) : Prop :=
  (exists e, outcome m = Raise e) /\ oracle_calls (trace m) = [].

(** ** The collaborators *)

(** [map_api.MapAPI]: [calculate_route] answers with a time in seconds or
    [None]; the subclasses catch every failure of the provider and answer
    [None].  [calculate_route_time] is an optional method: no class of
    [map_api.py] defines it. *)
Class MapAPI : Type := {
  calculate_route : point -> point -> option Z;
  calculate_route_time : option (point -> point -> option Z)
}.

Class Runtime : Type := {
  (** [round(x, 6)] *)
  round6 : float -> float;
  (** [sum(xs)] *)
  py_sum : list float -> float;
  (** [np.sum(xs)] on a list of numbers *)
  np_sum : list float -> float;
  (** [np.sum(a, axis=0)] on an array of pairs *)
  np_sum_axis0 : list point -> point;
  (** [a.mean(axis=0)] on an array of pairs *)
  np_mean_axis0 : list point -> point;
  (** [hdbscan.HDBSCAN(min_cluster_size=m, ...).fit_predict(points)] *)
  hdbscan_fit_predict : Z -> list point -> list Z;
  (** [KMeans(n_clusters=k, random_state=42).fit_predict(points)] *)
  kmeans_fit_predict : Z -> list point -> list Z
}.

(** ** OptimalPointFinder *)

Module OptimalPointFinder.

Definition min_radius : float := 0.0001%float.
Definition directions : list (Z * Z) := [(1, 0); (0, 1); (-1, 0); (0, -1)].
Definition cluster_threshold : nat := 20.

Inductive direction : Type := East | North | West | South.

(** The dictionary that names a direction in the probing loop.  The names
    are those of the source: [(1, 0)], which it calls East, adds the radius
    to the first coordinate of the point, its latitude. *)
Definition direction_name (d : Z * Z) : option direction :=
  match d with
  | (1, 0) => Some East
  | (0, 1) => Some North
  | (-1, 0) => Some West
  | (0, -1) => Some South
  | _ => None
  end.

(** Where a direction points on the map.  A point is a pair (latitude,
    longitude): [calculate_distance] and the providers read [point[0]] as
    the latitude.  The loop adds [dx * radius] to [current_point[0]] and
    [dy * radius] to [current_point[1]]; north is towards the greater
    latitudes and east towards the greater longitudes. *)
Definition compass (d : Z * Z) : option direction :=
  let '(dlat, dlng) := d in
  match dlat ?= 0, dlng ?= 0 with
  | Gt, Eq => Some North
  | Lt, Eq => Some South
  | Eq, Gt => Some East
  | Eq, Lt => Some West
  | _, _ => None
  end.

Inductive centroid : Type :=
| NoCentroid
| Centroid (p : pypoint).

(** The [clustering_info] dictionary of a result. *)
Inductive clustering_info : Type :=
| HDBSCANInfo (min_cluster_size : pyval) (original_points clusters : nat)
| KMeansInfo (max_cluster_size : Z) (original_points clusters : nat).

(** The lines of [calculation_logs], by what they report. *)
Inductive log_line : Type :=
| LogSearchStep (search_step : Z) (radius : float)
| LogMaxDistance
| LogFinished
| LogOptimalPoint (p : point)
| LogTotalTime (t : Z)
| LogIterations (n : Z)
| LogIndividualTimes.

(** An entry of [individual_times]. *)
Record individual_time : Type := {
  point_index : nat;
  coordinates : point;
  time_seconds : option Z;
  time_formatted : string;
  weight : float
}.

(** The dictionary a search returns; the last four keys are the ones
    [find_optimal_point_with_clustering] adds. *)
Record search_result : Type := {
  optimal_point : pypoint;
  total_time : Z;
  pure_total_time : Z;
  clustering_info_of : option clustering_info;
  calculation_logs : list log_line;
  individual_times : list individual_time;
  clusters : option (list (list point * list float));
  cluster_count : option nat;
  clustering_method : option string;
  clustering_param : option Z
}.

(** The variables of the [while] loop. *)
Record search_state : Type := {
  current_point : pypoint;
  current_time : Z;
  radius : float;
  iteration_count : Z
}.

Section Finder.
Context {rt : Runtime} {api : MapAPI}.

Definition round_point (p : point) : point := (round6 (fst p), round6 (snd p)).

(** [weights[:len(coordinates)] + [1.0] * (len(coordinates) - len(weights))] *)
Definition pad_weights (n : nat) (weights : list float) : list float :=
  firstn n weights ++ repeat 1%float (n - length weights).

(** The two steps that open [calculate_centroid] and [calculate_total_time]:
    a missing weight list is all ones, and a list of another length than the
    coordinates is cut or padded with ones. *)
Definition effective_weights (n : nat) (weights : option (list float)) : list float :=
  let ws := match weights with
            | None => repeat 1%float n
            | Some ws => ws
            end in
  if (length ws =? n)%nat then ws else pad_weights n ws.

Definition scale (pw : point * float) : point :=
  let '((x, y), w) := pw in ((x * w)%float, (y * w)%float).

Definition calculate_centroid (coordinates : list point)
    (weights : option (list float)) : centroid :=
  match coordinates with
  | [] => NoCentroid
  | _ =>
      let weights := effective_weights (length coordinates) weights in
      let weighted_sum := np_sum_axis0 (map scale (combine coordinates weights)) in
      let total_weight := np_sum weights in
      if (total_weight =? 0)%float
      then Centroid (PArray (np_mean_axis0 coordinates))
      else
        let cx := (fst weighted_sum / total_weight)%float in
        let cy := (snd weighted_sum / total_weight)%float in
        Centroid (PTuple (round6 cx, round6 cy))
  end.

(** The lookup every loop over the locations performs: [calculate_route],
    and [calculate_route_time] when the answer is [None] and the provider has
    that method. *)
Definition route_lookup (origin destination : point) : M (option Z) :=
  tell (RouteCall origin destination) ;;;
  match calculate_route origin destination with
  | Some t => ret (Some t)
  | None =>
      match calculate_route_time with
      | Some f =>
          tell (RouteTimeCall origin destination) ;;;
          ret (f origin destination)
      | None => ret None
      end
  end.

Fixpoint total_time_loop (rounded_point : point)
    (cws : list (point * float)) (total_time : float) : M float :=
  match cws with
  | [] => ret total_time
  | (coord, w) :: rest =>
      time <- route_lookup rounded_point (round_point coord) ;;
      match time with
      | None => total_time_loop rounded_point rest total_time
      | Some t =>
          match float_of_int t with
          | Some ft => total_time_loop rounded_point rest (total_time + ft * w)%float
          | None => total_time_loop rounded_point rest total_time
          end
      end
  end.

(** [int(total_time) if total_time > 0 else 0] *)
Definition non_negative_int (total_time : float) : M Z :=
  if (0 <? total_time)%float then lift (int_of_float total_time) else ret 0.

Definition calculate_total_time (p : point) (coordinates : list point)
    (weights : option (list float)) : M Z :=
  match coordinates with
  | [] => ret 0
  | _ =>
      let weights := effective_weights (length coordinates) weights in
      let rounded_point := round_point p in
      total_time <- total_time_loop rounded_point (combine coordinates weights) 0%float ;;
      non_negative_int total_time
  end.

Fixpoint pure_time_loop (rounded_point : point)
    (coordinates : list point) (total_time : Z) : M Z :=
  match coordinates with
  | [] => ret total_time
  | coord :: rest =>
      time <- route_lookup rounded_point (round_point coord) ;;
      match time with
      | None => pure_time_loop rounded_point rest total_time
      | Some t => pure_time_loop rounded_point rest (total_time + t)
      end
  end.

Definition calculate_pure_total_time (p : point) (coordinates : list point) : M Z :=
  match coordinates with
  | [] => ret 0
  | _ =>
      total_time <- pure_time_loop (round_point p) coordinates 0 ;;
      ret (if 0 <? total_time then total_time else 0)
  end.

Fixpoint max_time_loop (rounded_point : point)
    (coordinates : list point) (max_time : Z) : M Z :=
  match coordinates with
  | [] => ret max_time
  | coord :: rest =>
      time <- route_lookup rounded_point (round_point coord) ;;
      match time with
      | None => max_time_loop rounded_point rest max_time
      | Some t =>
          max_time_loop rounded_point rest (if max_time <? t then t else max_time)
      end
  end.

Definition calculate_max_time (p : point) (coordinates : list point) : M Z :=
  match coordinates with
  | [] => ret 0
  | _ =>
      max_time <- max_time_loop (round_point p) coordinates 0 ;;
      ret (if 0 <? max_time then max_time else 0)
  end.


(** *** Clustering *)

(** [weights[i]] *)
Definition subscript (weights : option (list float)) (i : nat) : result float :=
  match weights with
  | None => Error TypeError
  | Some ws =>
      match nth_error ws i with
      | Some w => Value w
      | None => Error IndexError
      end
  end.

(** [zip(coordinates, weights)] as a list of pairs *)
Definition zip_weights (coordinates : list point)
    (weights : option (list float)) : result (list (pypoint * float)) :=
  match weights with
  | None => Error TypeError
  | Some ws => Value (map (fun cw => (PTuple (fst cw), snd cw)) (combine coordinates ws))
  end.

(** The two [defaultdict(list)] of a clustering pass, keyed by label, as one
    association list in the order in which the labels were first met. *)
Definition groups : Type := list (Z * (list point * list float)).

Fixpoint group_append (label : Z) (c : point) (w : float) (g : groups) : groups :=
  match g with
  | [] => [(label, ([c], [w]))]
  | (l, (cs, ws)) :: g' =>
      if l =? label then (l, (cs ++ [c], ws ++ [w])) :: g'
      else (l, (cs, ws)) :: group_append label c w g'
  end.

(** [for i, label in enumerate(cluster_labels)]: append [coordinates[i]] and
    [weights[i]] to the lists of [label]. *)
Fixpoint group_by_label (labels : list Z) (i : nat) (coordinates : list point)
    (weights : option (list float)) (g : groups) : result groups :=
  match labels with
  | [] => Value g
  | label :: rest =>
      match nth_error coordinates i with
      | None => Error IndexError
      | Some c =>
          w <-? subscript weights i ;;
          group_by_label rest (S i) coordinates weights (group_append label c w g)
      end
  end.

(** The centre of one group: its weighted centroid and its total weight.  A
    group is never empty, so the centroid exists. *)
Definition cluster_center (members : list point * list float)
    : result (pypoint * float) :=
  match calculate_centroid (fst members) (Some (snd members)) with
  | Centroid c => Value (c, py_sum (snd members))
  | NoCentroid => Error TypeError
  end.

(** [for label in clusters]: the members of the noise label [-1] stay on
    their own, every other label gives one centre. *)
Fixpoint hdbscan_centers (g : groups) : result (list (pypoint * float)) :=
  match g with
  | [] => Value []
  | (label, members) :: g' =>
      here <-? (if label =? -1
                then Value (map (fun cw => (PTuple (fst cw), snd cw))
                              (combine (fst members) (snd members)))
                else c <-? cluster_center members ;; Value [c]) ;;
      there <-? hdbscan_centers g' ;;
      Value (here ++ there)
  end.

Fixpoint kmeans_centers (g : groups) : result (list (pypoint * float)) :=
  match g with
  | [] => Value []
  | (label, members) :: g' =>
      c <-? cluster_center members ;;
      there <-? kmeans_centers g' ;;
      Value (c :: there)
  end.

Definition apply_hdbscan (coordinates : list point) (weights : option (list float))
    (min_cluster_size : pyval) : result (list (pypoint * float)) :=
  match min_cluster_size with
  | PyInt m =>
      if Z.of_nat (length coordinates) <? m
      then zip_weights coordinates weights
      else
        let cluster_labels := hdbscan_fit_predict m coordinates in
        clusters <-? group_by_label cluster_labels 0 coordinates weights [] ;;
        hdbscan_centers clusters
  | _ => Error TypeError
  end.

Definition apply_capacity_kmeans (coordinates : list point)
    (weights : option (list float)) (max_cluster_size : Z)
    : result (list (pypoint * float)) :=
  if Z.of_nat (length coordinates) <=? max_cluster_size
  then zip_weights coordinates weights
  else if max_cluster_size =? 0 then Error ZeroDivisionError
  else
    let k := Z.max 2 (Z.of_nat (length coordinates) / max_cluster_size) in
    let cluster_labels := kmeans_fit_predict k coordinates in
    clusters <-? group_by_label cluster_labels 0 coordinates weights [] ;;
    kmeans_centers clusters.

Definition _perform_clustering (coordinates : list point) (weights : list float)
    (method : string) (param : Z) : result (list (list point * list float)) :=
  match coordinates with
  | [] => Value []
  | _ =>
      if String.eqb (lower method) "hdbscan" then
        let min_cluster_size := if 0 <? param then param else 5 in
        if Z.of_nat (length coordinates) <? min_cluster_size
        then Value [(coordinates, weights)]
        else
          let cluster_labels := hdbscan_fit_predict min_cluster_size coordinates in
          cluster_dict <-? group_by_label cluster_labels 0 coordinates (Some weights) [] ;;
          Value (map snd cluster_dict)
      else if String.eqb (lower method) "kmeans" then
        let max_cluster_size := if 0 <? param then param else 10 in
        if Z.of_nat (length coordinates) <=? max_cluster_size
        then Value [(coordinates, weights)]
        else
          let k := Z.max 2 (Z.of_nat (length coordinates) / max_cluster_size) in
          let cluster_labels := kmeans_fit_predict k coordinates in
          cluster_dict <-? group_by_label cluster_labels 0 coordinates (Some weights) [] ;;
          Value (map snd cluster_dict)
      else Value [(coordinates, weights)]
  end.


(** *** The search *)

(** The test [algorithm_type == 'min_max_time'] that selects the objective,
    as the source repeats it at every evaluation. *)
Definition objective (algorithm_type : string) (p : pypoint)
    (coordinates : list point) (weights : option (list float)) : M Z :=
  if String.eqb algorithm_type "min_max_time"
  then calculate_max_time (coords_of p) coordinates
  else calculate_total_time (coords_of p) coordinates weights.

(** [n * x] for an [int] and a [float] *)
Definition int_times_float (n : Z) (x : float) : M float :=
  match float_of_int n with
  | Some f => ret (f * x)%float
  | None => raise OverflowError
  end.

(** [(round(current_point[0] + dx * radius, 6),
      round(current_point[1] + dy * radius, 6))] *)
Definition new_point (p : pypoint) (d : Z * Z) (radius : float) : M point :=
  ox <- int_times_float (fst d) radius ;;
  oy <- int_times_float (snd d) radius ;;
  ret (round6 (fst (coords_of p) + ox), round6 (snd (coords_of p) + oy))%float.

(** [for dx, dy in self.directions]: [Some] is the [break] on a better
    point, [None] the end of the list. *)
Fixpoint probe (dirs : list (Z * Z)) (coordinates : list point)
    (weights : option (list float)) (algorithm_type : string)
    (s : search_state) : M (option (point * Z)) :=
  match dirs with
  | [] => ret None
  | d :: rest =>
      match direction_name d with
      | None => raise KeyError
      | Some _ =>
          np <- new_point (current_point s) d (radius s) ;;
          new_metric <- objective algorithm_type (PTuple np) coordinates weights ;;
          if new_metric <? current_time s
          then ret (Some (np, new_metric))
          else probe rest coordinates weights algorithm_type s
      end
  end.

(** One pass through the body of [while radius >= self.min_radius]. *)
Definition iteration (coordinates : list point) (weights : option (list float))
    (algorithm_type : string) (s : search_state) : M search_state :=
  found <- probe directions coordinates weights algorithm_type s ;;
  match found with
  | Some (np, new_metric) =>
      ret {| current_point := PTuple np;
             current_time := new_metric;
             radius := radius s;
             iteration_count := iteration_count s + 1 |}
  | None =>
      ret {| current_point := current_point s;
             current_time := current_time s;
             radius := (radius s / 2)%float;
             iteration_count := iteration_count s + 1 |}
  end.

Fixpoint search_loop (fuel : nat) (coordinates : list point)
    (weights : option (list float)) (algorithm_type : string)
    (s : search_state) : M search_state :=
  if (min_radius <=? radius s)%float then
    match fuel with
    | O => ([], OutOfFuel)
    | S fuel' =>
        s' <- iteration coordinates weights algorithm_type s ;;
        search_loop fuel' coordinates weights algorithm_type s'
    end
  else ret s.

Definition format_hms (t : Z) : string :=
  (string_of_Z (t / 3600) ++ "小时" ++ string_of_Z ((t mod 3600) / 60) ++ "分钟"
   ++ string_of_Z (t mod 60) ++ "秒")%string.

Definition individual_entry (i : nat) (coord : point) (time_to_point : option Z)
    (w : float) : individual_time :=
  {| point_index := i;
     coordinates := coord;
     time_seconds := time_to_point;
     time_formatted := match time_to_point with
                       | Some t => format_hms t
                       | None => "无法计算"
                       end;
     weight := w |}.

(** The pass over the locations that fills [individual_times].  Both
    branches read [weights[i]]; when that fails the handler reads it again
    and the exception leaves the method. *)
Fixpoint individual_times_loop (origin : point) (coords : list point) (i : nat)
    (weights : option (list float)) : M (list individual_time) :=
  match coords with
  | [] => ret []
  | coord :: rest =>
      time_to_point <- route_lookup origin coord ;;
      w <- lift (subscript weights i) ;;
      entries <- individual_times_loop origin rest (S i) weights ;;
      ret (individual_entry i coord time_to_point w :: entries)
  end.

Definition py_lower (v : pyval) : result string :=
  match v with
  | PyStr s => Value (lower s)
  | _ => Error AttributeError
  end.

(** The centres the search starts from when clustering applies, and the
    [clustering_info] that goes with them. *)
Definition cluster_for_search (coordinates : list point)
    (weights : option (list float)) (method : pyval) (min_cluster_size : pyval)
    (max_cluster_size : Z) : M (list (pypoint * float) * option clustering_info) :=
  name <- lift (py_lower method) ;;
  if String.eqb name "hdbscan" then
    cluster_centers <- lift (apply_hdbscan coordinates weights min_cluster_size) ;;
    ret (cluster_centers,
         Some (HDBSCANInfo min_cluster_size (length coordinates)
                 (length (filter (fun c => is_tuple (fst c)) cluster_centers))))
  else if String.eqb name "kmeans" then
    cluster_centers <- lift (apply_capacity_kmeans coordinates weights max_cluster_size) ;;
    ret (cluster_centers,
         Some (KMeansInfo max_cluster_size (length coordinates) (length cluster_centers)))
  else
    cluster_centers <- lift (zip_weights coordinates weights) ;;
    ret (cluster_centers, None).

(** [current_point[0]] of a centroid that may be [None] *)
Definition centroid_point (c : centroid) : M pypoint :=
  match c with
  | Centroid p => ret p
  | NoCentroid => raise TypeError
  end.

(** The method up to its [while] loop: the starting point (the centroid of
    the cluster centres when clustering applies, of the locations otherwise),
    its cost, and the radius [search_step * 0.000009], which is also stored
    in [self.search_radius]. *)
Definition start_of_search (coordinates : list point)
    (weights : option (list float)) (clustering_method : pyval)
    (min_cluster_size : pyval) (max_cluster_size : Z) (search_step : Z)
    (algorithm_type : string) : M (option clustering_info * search_state) :=
  let n := length coordinates in
  let clustering_method :=
    if (cluster_threshold <? n)%nat && is_none clustering_method
    then PyStr "hdbscan" else clustering_method in
  '(info, start) <-
    (if truthy clustering_method && (cluster_threshold <? n)%nat then
       '(cluster_centers, info) <-
         cluster_for_search coordinates weights clustering_method
           min_cluster_size max_cluster_size ;;
       let cluster_coordinates := map (fun c => coords_of (fst c)) cluster_centers in
       let cluster_weights := map snd cluster_centers in
       start <- centroid_point
                  (calculate_centroid cluster_coordinates (Some cluster_weights)) ;;
       ret (info, start)
     else
       start <- centroid_point (calculate_centroid coordinates weights) ;;
       ret (None, start)) ;;
  start_time <- objective algorithm_type start coordinates weights ;;
  radius <- int_times_float search_step 0.000009%float ;;
  tell (SetSearchRadius radius) ;;;
  ret (info, {| current_point := start;
                current_time := start_time;
                radius := radius;
                iteration_count := 0 |}).

Definition find_optimal_point (fuel : nat) (coordinates : list point)
    (weights : option (list float)) (clustering_method : pyval)
    (min_cluster_size : pyval) (max_cluster_size : Z) (search_step : Z)
    (algorithm_type : string) : M (option search_result) :=
  match coordinates with
  | [] => ret None
  | _ =>
      '(info, start) <- start_of_search coordinates weights clustering_method
                          min_cluster_size max_cluster_size search_step algorithm_type ;;
      final <- search_loop fuel coordinates weights algorithm_type start ;;
      individual_times <- individual_times_loop (coords_of (current_point final))
                            coordinates 0 weights ;;
      pure_total_time <- calculate_pure_total_time (coords_of (current_point final))
                           coordinates ;;
      ret (Some {| optimal_point := current_point final;
                   total_time := current_time final;
                   pure_total_time := pure_total_time;
                   clustering_info_of := info;
                   calculation_logs :=
                     [LogSearchStep search_step (radius start); LogMaxDistance;
                      LogFinished;
                      LogOptimalPoint (coords_of (current_point final));
                      LogTotalTime (current_time final);
                      LogIterations (iteration_count final);
                      LogIndividualTimes];
                   individual_times := individual_times;
                   clusters := None;
                   cluster_count := None;
                   clustering_method := None;
                   clustering_param := None |})
  end.

(** [for cluster_coords, cluster_weights_list in clusters]: the centroid and
    the total weight of every cluster that has members.  [if centroid:] is
    true of a tuple and raises on a numpy array. *)
Fixpoint cluster_centroids_loop (clusters : list (list point * list float))
    : result (list point * list float) :=
  match clusters with
  | [] => Value ([], [])
  | ([], _) :: rest => cluster_centroids_loop rest
  | (cluster_coords, cluster_weights_list) :: rest =>
      match calculate_centroid cluster_coords (Some cluster_weights_list) with
      | NoCentroid => cluster_centroids_loop rest
      | Centroid (PArray _) =>
          Error (ValueError "The truth value of an array with more than one element is ambiguous. Use a.any() or a.all()")
      | Centroid (PTuple c) =>
          '(cs, ws) <-? cluster_centroids_loop rest ;;
          Value (c :: cs, py_sum cluster_weights_list :: ws)
      end
  end.

Definition find_optimal_point_with_clustering (fuel : nat)
    (coordinates : list point) (weights : option (list float))
    (method : string) (param : Z) (search_step : Z) (algorithm_type : string)
    : M search_result :=
  match coordinates with
  | [] => raise (ValueError "坐标列表不能为空")
  | _ =>
      let weights := match weights with
                     | None => repeat 1%float (length coordinates)
                     | Some ws => ws
                     end in
      if negb (length coordinates =? length weights)%nat
      then raise (ValueError "坐标列表和权重列表长度必须一致")
      else
        clusters <- lift (_perform_clustering coordinates weights method param) ;;
        match clusters with
        | [] => raise (ValueError "聚类失败，请尝试其他聚类方法或参数")
        | _ =>
            '(cluster_centroids, cluster_weights) <- lift (cluster_centroids_loop clusters) ;;
            match cluster_centroids with
            | [] => raise (ValueError "无法计算簇重心，请检查聚类结果")
            | _ =>
                found <- find_optimal_point fuel cluster_centroids (Some cluster_weights)
                           (PyInt search_step) (PyStr algorithm_type) 10 100 "total_cost" ;;
                match found with
                | None => raise TypeError
                | Some result =>
                    let optimal_point := optimal_point result in
                    total_time <- objective algorithm_type optimal_point coordinates
                                    (Some weights) ;;
                    individual_times <- individual_times_loop (coords_of optimal_point)
                                          coordinates 0 (Some weights) ;;
                    pure_total_time <- calculate_pure_total_time (coords_of optimal_point)
                                         coordinates ;;
                    ret {| optimal_point := optimal_point;
                           total_time := total_time;
                           pure_total_time := pure_total_time;
                           clustering_info_of := clustering_info_of result;
                           calculation_logs := calculation_logs result;
                           individual_times := individual_times;
                           clusters := Some clusters;
                           cluster_count := Some (length clusters);
                           clustering_method := Some method;
                           clustering_param := Some param |}
                end
            end
        end
  end.


(** *** What the properties are stated with *)

(** The answer of a lookup and the calls it makes. *)
Definition route_time (origin destination : point) : option Z :=
  match calculate_route origin destination with
  | Some t => Some t
  | None =>
      match calculate_route_time with
      | Some f => f origin destination
      | None => None
      end
  end.

Definition route_trace (origin destination : point) : list event :=
  RouteCall origin destination ::
  match calculate_route origin destination, calculate_route_time with
  | None, Some _ => [RouteTimeCall origin destination]
  | _, _ => []
  end.

(** One step of the sum in [calculate_total_time] and of the maximum in
    [calculate_max_time]. *)
Definition add_weighted (rounded_point : point) (total_time : float)
    (cw : point * float) : float :=
  match route_time rounded_point (round_point (fst cw)) with
  | Some t =>
      match float_of_int t with
      | Some ft => (total_time + ft * snd cw)%float
      | None => total_time
      end
  | None => total_time
  end.

Definition take_max (rounded_point : point) (max_time : Z) (coord : point) : Z :=
  match route_time rounded_point (round_point coord) with
  | Some t => if max_time <? t then t else max_time
  | None => max_time
  end.

(** The weighted sum and the maximum as the specification words them: over
    the locations whose lookup succeeds, in the order of the list. *)
Definition successful_lookups (rounded_point : point)
    (cws : list (point * float)) : list (Z * float) :=
  flat_map (fun cw => match route_time rounded_point (round_point (fst cw)) with
                      | Some t => [(t, snd cw)]
                      | None => []
                      end) cws.

Definition weighted_sum (p : point) (coordinates : list point)
    (weights : list float) : float :=
  fold_left (fun acc tw => (acc + to_float (fst tw) * snd tw)%float)
    (successful_lookups (round_point p) (combine coordinates weights)) 0%float.

Definition successful_times (rounded_point : point) (coordinates : list point) : list Z :=
  flat_map (fun c => match route_time rounded_point (round_point c) with
                     | Some t => [t]
                     | None => []
                     end) coordinates.

Definition maximum (times : list Z) : Z := fold_right Z.max 0 times.

(** The statement that the weighted-sum cost of [p] is the weighted sum
    itself. *)
Definition cost_is_weighted_sum (p : point) (coordinates : list point)
    (weights : list float) : Prop :=
  exists c, outcome (calculate_total_time p coordinates (Some weights)) = Ok c /\
            to_float c = weighted_sum p coordinates weights.

(** A provider call whose two points went through [round(., 6)]. *)
Definition rounded_call (e : event) : Prop :=
  match e with
  | RouteCall o d | RouteTimeCall o d =>
      exists o' d', o = round_point o' /\ d = round_point d'
  | SetSearchRadius _ => True
  end.

(** A provider call whose destination is not what [round(., 6)] makes of
    it. *)
Definition unrounded_destination (e : event) : bool :=
  match e with
  | RouteCall _ d | RouteTimeCall _ d =>
      negb (PrimFloat.Leibniz.eqb (round6 (fst d)) (fst d) &&
            PrimFloat.Leibniz.eqb (round6 (snd d)) (snd d))
  | SetSearchRadius _ => false
  end.

(** An event of a cost evaluation: a provider call on rounded points. *)
Definition evaluation_event (e : event) : Prop := route_only e /\ rounded_call e.

(** A probed point that does not improve on the cost of [s]. *)
Definition no_better (cs : list point) (ws : option (list float)) (alg : string)
    (s : search_state) (q : point) : Prop :=
  exists v, outcome (objective alg (PTuple q) cs ws) = Ok v /\ current_time s <= v.

(** The calls of one evaluation of a cost at [p]. *)
Definition evaluation_trace (p : point) (coordinates : list point) : list event :=
  flat_map (fun c => route_trace (round_point p) (round_point c)) coordinates.

(** The four points probed around [s], in the order of [directions]. *)
Definition candidate (s : search_state) (ox oy : float) : point :=
  (round6 (fst (coords_of (current_point s)) + ox * radius s),
   round6 (snd (coords_of (current_point s)) + oy * radius s))%float.

Definition candidates (s : search_state) : list point :=
  [candidate s 1 0; candidate s 0 1; candidate s (-1) 0; candidate s 0 (-1)]%float.

End Finder.

(** A cost is an integer that is not negative, unless the evaluation raised. *)
Definition non_negative (r : res Z) : Prop :=
  match r with
  | Ok v => 0 <= v
  | Raise _ => True
  | OutOfFuel => False
  end.


(** The corners of the square of side 2 whose south-west corner is [(a, b)]. *)
Definition square_corners (a b : float) : list point :=
  [(a, b); (a, b + 2); (a + 2, b); (a + 2, b + 2)]%float.




End OptimalPointFinder.

(** ** Reference collaborators

    Instances of [Runtime] and [MapAPI] on which the methods evaluate. *)

Module Reference.

Definition round_half_even (num den : Z) : Z :=
  let q := num / den in
  let r := num mod den in
  match 2 * r ?= den with
  | Lt => q
  | Gt => q + 1
  | Eq => if Z.even q then q else q + 1
  end.

(** [round(x, 6)] of CPython: the decimal with six digits nearest to the
    exact value of [x], ties to even, then the binary64 value nearest to that
    decimal. *)
Definition py_round6 (x : float) : float :=
  match Prim2SF x with
  | S754_finite s m e =>
      let n := if 0 <=? e then Zpos m * 2 ^ e * 1000000
               else round_half_even (Zpos m * 1000000) (2 ^ (- e)) in
      match n with
      | Zpos p => SF2Prim (SFdiv prec emax (S754_finite s p 0) (S754_finite false 1000000 0))
      | _ => SF2Prim (S754_zero s)
      end
  | _ => x
  end.

(** Summation from left to right. *)
Definition seq_sum (xs : list float) : float :=
  fold_left (fun acc x => (acc + x)%float) xs 0%float.

Definition seq_sum_axis0 (ps : list point) : point :=
  (seq_sum (map fst ps), seq_sum (map snd ps)).

Definition count (ps : list point) : float :=
  match float_of_int (Z.of_nat (length ps)) with
  | Some n => n
  | None => infinity
  end.

Definition seq_mean_axis0 (ps : list point) : point :=
  let '(sx, sy) := seq_sum_axis0 ps in
  (sx / count ps, sy / count ps)%float.

(** A density labelling: the points south of the equator form cluster 0,
    the others are noise. *)
Definition south_or_noise (min_cluster_size : Z) (ps : list point) : list Z :=
  map (fun p => if (fst p <? 0)%float then 0 else -1) ps.

(** A partition into [k] clusters by position in the list. *)
Definition round_robin (k : Z) (ps : list point) : list Z :=
  map (fun i => Z.of_nat i mod k) (seq 0 (length ps)).

#[export] Instance runtime : Runtime := {|
  round6 := py_round6;
  py_sum := seq_sum;
  np_sum := seq_sum;
  np_sum_axis0 := seq_sum_axis0;
  np_mean_axis0 := seq_mean_axis0;
  hdbscan_fit_predict := south_or_noise;
  kmeans_fit_predict := round_robin
|}.

(** A provider that answers every request with the same time. *)
Definition constant_api (t : Z) : MapAPI := {|
  calculate_route := fun _ _ => Some t;
  calculate_route_time := None
|}.

(** A provider that cannot route anything. *)
Definition silent_api : MapAPI := {|
  calculate_route := fun _ _ => None;
  calculate_route_time := None
|}.

(** A provider on a street grid: one second per 1e-5 degree of latitude or
    longitude between the two points. *)
Definition grid_seconds (o d : point) : option Z :=
  match int_of_float (100000 * (abs (fst o - fst d) + abs (snd o - snd d)))%float with
  | Value t => Some t
  | Error _ => None
  end.

Definition grid_api : MapAPI := {|
  calculate_route := grid_seconds;
  calculate_route_time := None
|}.

(** A provider whose [calculate_route] fails north of the equator and that
    offers [calculate_route_time] there. *)
Definition fallback_api : MapAPI := {|
  calculate_route := fun o d => if (fst d <? 0)%float then grid_seconds o d else None;
  calculate_route_time :=
    Some (fun o d => if (fst d <? 50)%float then grid_seconds o d else None)
|}.

End Reference.

(** ** Sample data *)

Import OptimalPointFinder.

(** On the reference runtime the two axes of a square are averaged apart:
    the latitudes in the order [a, a, a + 2, a + 2], the longitudes in the
    order [b, b + 2, b, b + 2]. *)
Definition latitude_centre (a : float) : float :=
  Reference.py_round6
    (Reference.seq_sum [a * 1; a * 1; (a + 2) * 1; (a + 2) * 1] /
     Reference.seq_sum [1; 1; 1; 1])%float.

Definition longitude_centre (b : float) : float :=
  Reference.py_round6
    (Reference.seq_sum [b * 1; (b + 2) * 1; b * 1; (b + 2) * 1] /
     Reference.seq_sum [1; 1; 1; 1])%float.

(** The [n] whole numbers from [lo] on. *)
Definition whole_degrees (lo : Z) (n : nat) : list Z :=
  map (fun i => lo + Z.of_nat i) (seq 0 n).

(** Two towns on the parallel of 40 degrees and a search that stands between
    them. *)
Definition two_towns : list point := [(40, -73); (40, -71)]%float.

Definition between_towns : search_state :=
  {| current_point := PTuple (40, -72.5)%float;
     current_time := 500000;
     radius := 0.0009%float;
     iteration_count := 0 |}.

(** Three towns in two clusters. *)
Definition three_towns : list point :=
  [(40, -73); (40.001, -73); (40.002, -73.001)]%float.

(** A clustered search over them, for the lowest maximum. *)
Abbreviation sample_clustered_search :=
  (@find_optimal_point_with_clustering Reference.runtime Reference.grid_api 400
     three_towns (Some [1; 1; 3]%float) "kmeans" 2 100 "min_max_time").

(** ** What the further properties are stated with *)

(** The sum of a list of times. *)
Definition total (times : list Z) : Z := fold_right Z.add 0 times.

(** The locations of a cluster, each with its weight. *)
Definition members (cl : list point * list float) : list (point * float) :=
  combine (fst cl) (snd cl).

(** A cluster that holds a location at least, and a weight for each. *)
Definition proper_cluster (cl : list point * list float) : Prop :=
  fst cl <> [] /\ length (snd cl) = length (fst cl).

(** The calls of [calculate_route] in a trace. *)
Definition is_lookup (e : event) : bool :=
  match e with RouteCall _ _ => true | _ => false end.

Definition lookups (t : list event) : Z := Z.of_nat (length (filter is_lookup t)).

(** What [if centroid:] raises on a numpy array. *)
Definition ambiguous_truth_value : exn :=
  ValueError "The truth value of an array with more than one element is ambiguous. Use a.any() or a.all()".

(** The cost in the state is the cost of the point in the state. *)
Definition cost_of_point {rt : Runtime} {api : MapAPI} (cs : list point)
    (ws : option (list float)) (alg : string) (s : search_state) : Prop :=
  outcome (objective alg (current_point s) cs ws) = Ok (current_time s).

(** A provider that has no answer to any lookup. *)
Definition silent {api : MapAPI} : Prop :=
  forall o d, route_time o d = None.

(** * The providers: [map_api.py]

    The base class [MapAPI] and the factory.  The requests themselves go to
    a web service: what [request_func] and [geocode] do is an answer of the
    world they run in, a value or an exception, and the methods are
    modelled for every such answer.

    A [str] the code takes apart (an address, a key) is the list of its code
    points; a [str] it only compares with a literal or puts into a message
    is a string, as in the search engine. *)

Module map_api.

Definition text : Type := list N.

(** [ord(c)] of an ASCII character *)
Definition ord (c : ascii) : N := N_of_ascii c.
Arguments ord c%_char.

(** *** Regular expressions

    A character class is a list of ranges of code points.  The patterns of
    the module are sequences of classes with a count, of single characters
    and of one [[...]+] at the end of its pattern, between [^] and [$]: none
    of them needs backtracking. *)

Definition class : Type := list (N * N).

Definition in_class (cls : class) (c : N) : bool :=
  existsb (fun r => (fst r <=? c)%N && (c <=? snd r)%N) cls.

Inductive atom : Type :=
| Repeat (cls : class) (n : nat)
| Plus (cls : class)
| Literal (c : N).

(** [[cls]{n}] at the head of [s]: what follows it *)
Fixpoint repeat_class (cls : class) (n : nat) (s : text) : option text :=
  match n with
  | O => Some s
  | S n' =>
      match s with
      | c :: s' => if in_class cls c then repeat_class cls n' s' else None
      | [] => None
      end
  end.

(** what follows the longest run of [cls] at the head of [s] *)
Fixpoint skip_class (cls : class) (s : text) : text :=
  match s with
  | c :: s' => if in_class cls c then skip_class cls s' else s
  | [] => []
  end.

Definition match_atom (a : atom) (s : text) : option text :=
  match a with
  | Repeat cls n => repeat_class cls n s
  | Plus cls =>
      match s with
      | c :: s' => if in_class cls c then Some (skip_class cls s') else None
      | [] => None
      end
  | Literal c =>
      match s with
      | d :: s' => if (c =? d)%N then Some s' else None
      | [] => None
      end
  end.

Fixpoint match_atoms (p : list atom) (s : text) : option text :=
  match p with
  | [] => Some s
  | a :: p' =>
      match match_atom a s with
      | Some s' => match_atoms p' s'
      | None => None
      end
  end.

(** [$]: the end of the string, or the newline that ends it *)
Definition end_of_string (s : text) : bool :=
  match s with
  | [] => true
  | [c] => (c =? 10)%N
  | _ => false
  end.

(** [re.match('^' + p + '$', s)] as a truth value *)
Definition re_match (p : list atom) (s : text) : bool :=
  match match_atoms p s with
  | Some rest => end_of_string rest
  | None => false
  end.

(** [re.sub('[cls]', repl, s)] *)
Definition sub_class (cls : class) (repl : N) (s : text) : text :=
  map (fun c => if in_class cls c then repl else c) s.

(** [re.sub('[cls]+', repl, s)]: [in_run] says that the character before
    was of the class, and replaced already. *)
Fixpoint sub_runs (cls : class) (repl : N) (in_run : bool) (s : text) : text :=
  match s with
  | [] => []
  | c :: s' =>
      if in_class cls c
      then if in_run then sub_runs cls repl true s'
           else repl :: sub_runs cls repl true s'
      else c :: sub_runs cls repl false s'
  end.

(** [\s] for a [str] pattern, which is also what [str.strip()] removes:
    the characters for which [str.isspace()] holds. *)
Definition whitespace : class :=
  [(9, 13); (28, 32); (133, 133); (160, 160); (5760, 5760); (8192, 8202);
   (8232, 8233); (8239, 8239); (8287, 8287); (12288, 12288)]%N.

(** [[\(\)（）]]: the ASCII parentheses and the full-width ones *)
Definition parentheses : class := [(ord "(", ord ")"); (65288, 65289)]%N.

Definition space : N := ord " ".

(** [s.strip()] *)
Definition lstrip (s : text) : text := skip_class whitespace s.
Definition rstrip (s : text) : text := rev (lstrip (rev s)).
Definition strip (s : text) : text := rstrip (lstrip s).

(** [[a-z0-9]], [[a-zA-Z0-9]] and [[A-Z0-9]] *)
Definition lower_or_digit : class := [(ord "a", ord "z"); (ord "0", ord "9")].
Definition letter_or_digit : class :=
  [(ord "a", ord "z"); (ord "A", ord "Z"); (ord "0", ord "9")].
Definition upper_or_digit : class := [(ord "A", ord "Z"); (ord "0", ord "9")].

(** [needle in s] *)
Fixpoint contains (needle s : string) : bool :=
  String.prefix needle s ||
  match s with
  | EmptyString => false
  | String _ s' => contains needle s'
  end.

(** [str(len(s))] *)
Definition str_len (s : text) : string := string_of_Z (Z.of_nat (length s)).

(** *** The objects *)

Inductive provider : Type := AmapAPI | BaiduMapAPI | TencentMapAPI.

(** An instance: its class and the attributes that [__init__] sets. *)
Record api_object : Type := {
  class_of : provider;
  api_key : text;
  base_url : string;
  max_retries : Z;
  retry_delay : Z;
  api_call_count : Z
}.

(** *** AmapAPI *)

Module AmapAPI.

Definition __init__ (api_key : text) : api_object :=
  {| class_of := AmapAPI;
     api_key := api_key;
     base_url := "https://restapi.amap.com/v3";
     max_retries := 3;
     retry_delay := 1;
     api_call_count := 0 |}.

Definition validate_api_key (api_key : text) : bool * string :=
  match api_key with
  | [] => (false, "API密钥不能为空"%string)
  | _ =>
      if negb (length api_key =? 32)%nat
      then (false, ("高德地图API密钥长度应为32位，当前长度为" ++ str_len api_key ++ "位")%string)
      else if negb (re_match [Repeat lower_or_digit 32] api_key)
      then (false, "高德地图API密钥只能包含数字和小写字母"%string)
      else (true, ""%string)
  end.

End AmapAPI.

(** *** BaiduMapAPI *)

Module BaiduMapAPI.

Definition __init__ (api_key : text) : api_object :=
  {| class_of := BaiduMapAPI;
     api_key := api_key;
     base_url := "http://api.map.baidu.com";
     max_retries := 3;
     retry_delay := 1;
     api_call_count := 0 |}.

Definition validate_api_key (api_key : text) : bool * string :=
  match api_key with
  | [] => (false, "API密钥不能为空"%string)
  | _ =>
      if negb (length api_key =? 32)%nat
      then (false, ("百度地图API密钥长度应为32位，当前长度为" ++ str_len api_key ++ "位")%string)
      else if negb (re_match [Repeat letter_or_digit 32] api_key)
      then (false, "百度地图API密钥只能包含数字和英文字母（区分大小写）"%string)
      else (true, ""%string)
  end.

End BaiduMapAPI.

(** *** TencentMapAPI *)

Module TencentMapAPI.

Definition __init__ (api_key : text) : api_object :=
  {| class_of := TencentMapAPI;
     api_key := api_key;
     base_url := "https://apis.map.qq.com";
     max_retries := 3;
     retry_delay := 1;
     api_call_count := 0 |}.

(** [[A-Z0-9]{5}-[A-Z0-9]{5}-[A-Z0-9]{5}-[A-Z0-9]{5}-[A-Z0-9]{5}-[A-Z0-9]{5}] *)
Definition key_pattern : list atom :=
  [Repeat upper_or_digit 5; Literal (ord "-");
   Repeat upper_or_digit 5; Literal (ord "-");
   Repeat upper_or_digit 5; Literal (ord "-");
   Repeat upper_or_digit 5; Literal (ord "-");
   Repeat upper_or_digit 5; Literal (ord "-");
   Repeat upper_or_digit 5].

Definition validate_api_key (api_key : text) : bool * string :=
  match api_key with
  | [] => (false, "API密钥不能为空"%string)
  | _ =>
      (* api_key.replace('-', '') *)
      let key_without_dash := filter (fun c => negb (c =? ord "-")%N) api_key in
      if negb (length key_without_dash =? 30)%nat
      then (false, ("腾讯地图API密钥格式错误，移除连字符后应为30个字符，当前为"
                    ++ str_len key_without_dash ++ "个字符")%string)
      else if negb (re_match [Plus upper_or_digit] key_without_dash)
      then (false, "腾讯地图API密钥只能包含大写字母和数字"%string)
      else if negb (re_match key_pattern api_key)
      then (false, "腾讯地图API密钥格式错误，应为每5个字符一组，用连字符分隔"%string)
      else (true, ""%string)
  end.

End TencentMapAPI.

(** *** MapAPI *)

Module MapAPI.

Definition _preprocess_address (address : text) : text :=
  let processed := sub_class parentheses space address in
  strip (sub_runs whitespace space false processed).

(** [any(limit_err in error_str for limit_err in [...])], for the text of
    an exception in lower case.  The words are ASCII and none of them can be
    completed by a letter that [str.lower()] makes of a character outside
    ASCII, so [lower] decides the test as [str.lower()] does. *)
Definition rate_limit_words : list string :=
  ["qps"; "exceeded"; "limit"; "cuqps_has_exceeded_the_limit"]%string.

Definition is_rate_limit (error_str : string) : bool :=
  existsb (fun limit_err => contains limit_err error_str) rate_limit_words.

Definition validate_api_key (api_key : text) (api_type : string) : bool * string :=
  if String.eqb (lower api_type) "amap" then AmapAPI.validate_api_key api_key
  else if String.eqb (lower api_type) "baidu" then BaiduMapAPI.validate_api_key api_key
  else if String.eqb (lower api_type) "tencent" then TencentMapAPI.validate_api_key api_key
  else (false, ("不支持的地图API类型: " ++ api_type)%string).

Section Requests.
(** [W] is the state of the world a request runs in, [A] what
    [request_func] returns and [E] what it raises; [str] is [str(e)]. *)
Context {W A E : Type}.
Variable str : E -> string.

(** What the handler does besides calling: it calls [request_func] and it
    sleeps. *)
Inductive effect : Type :=
| Requested
| Slept (seconds : Z).

(** How the [while] loop is left: by the [return] in its body, or at its
    end, by [break] or by its test. *)
Inductive loop_end : Type :=
| Returns (a : A)
| Leaves (last_error : option E)
| Unfinished.

Fixpoint retry_loop (fuel : nat) (self : api_object)
    (request_func : W -> W * (A + E)) (retries : Z) (last_error : option E)
    (w : W) : list effect * W * loop_end :=
  if retries <=? max_retries self then
    match fuel with
    | O => ([], w, Unfinished)
    | S fuel' =>
        let '(w, answer) := request_func w in
        match answer with
        | inl a => ([Requested], w, Returns a)
        | inr e =>
            let error_str := lower (str e) in
            if is_rate_limit error_str then
              let retries := retries + 1 in
              let sleep := if retries <=? max_retries self
                           then [Slept (retry_delay self)] else [] in
              let '(t, w, r) := retry_loop fuel' self request_func retries (Some e) w in
              (Requested :: sleep ++ t, w, r)
            else ([Requested], w, Leaves (Some e))
        end
    end
  else ([], w, Leaves last_error).

(** What a call of the handler comes to. *)
Inductive handled : Type :=
| Return (v : option A)
| Raise (e : E)
| OutOfFuel.

(** [self._handle_api_request(request_func, error_msg_prefix)]: the
    effects, the world and the object after the call, and what the call
    comes to.  The loop is given the [max_retries + 1] turns that it can
    take. *)
Definition _handle_api_request (self : api_object)
    (request_func : W -> W * (A + E)) (w : W)
    : list effect * W * api_object * handled :=
  let self := {| class_of := class_of self;
                 api_key := api_key self;
                 base_url := base_url self;
                 max_retries := max_retries self;
                 retry_delay := retry_delay self;
                 api_call_count := api_call_count self + 1 |} in
  let '(t, w, r) := retry_loop (S (Z.to_nat (max_retries self))) self
                      request_func 0 None w in
  (t, w, self,
   match r with
   | Returns a => Return (Some a)
   | Leaves (Some e) => Raise e
   | Leaves None => Return None
   | Unfinished => OutOfFuel
   end).

(** The object after a call has been counted. *)
Definition counted (self : api_object) : api_object :=
  {| class_of := class_of self;
     api_key := api_key self;
     base_url := base_url self;
     max_retries := max_retries self;
     retry_delay := retry_delay self;
     api_call_count := api_call_count self + 1 |}.

(** The answer to the attempt number [n], counted from 0, with the world
    after it. *)
Fixpoint attempt (request_func : W -> W * (A + E)) (n : nat) (w : W) : W * (A + E) :=
  match n with
  | O => request_func w
  | S n' => attempt request_func n' (fst (request_func w))
  end.

(** An exception that the handler takes for a rate limit. *)
Definition rate_limited (e : E) : bool := is_rate_limit (lower (str e)).

(** The effects of a call that retries [k] times. *)
Fixpoint retried (delay : Z) (k : nat) : list effect :=
  match k with
  | O => [Requested]
  | S k' => Requested :: Slept delay :: retried delay k'
  end.

(** What [batch_geocode] does besides: it asks for an address and it
    sleeps. *)
Inductive batch_effect : Type :=
| Geocoded (address : text)
| Paused (seconds : float).

(** [self.batch_geocode(addresses, city)], where [geocode] is the method of
    the subclass. *)
Fixpoint batch_geocode (geocode : text -> string -> W -> W * (option point + E))
    (addresses : list text) (city : string) (w : W)
    : list batch_effect * W * list (option point) :=
  match addresses with
  | [] => ([], w, [])
  | address :: rest =>
      let '(w, answer) := geocode address city w in
      let '(result, pause) := match answer with
                              | inl result => (result, 0.2%float)
                              | inr _ => (None, 1.0%float)
                              end in
      let '(t, w, results) := batch_geocode geocode rest city w in
      (Geocoded address :: Paused pause :: t, w, result :: results)
  end.

(** What [geocode] answers to the addresses of a list, each asked in the
    world that the one before it left, with the world after the last. *)
Fixpoint answers (geocode : text -> string -> W -> W * (option point + E))
    (addresses : list text) (city : string) (w : W)
    : W * list (option point + E) :=
  match addresses with
  | [] => (w, [])
  | address :: rest =>
      let '(w, answer) := geocode address city w in
      let '(w, given) := answers geocode rest city w in
      (w, answer :: given)
  end.

End Requests.

End MapAPI.

(** *** The factory *)

Definition create_map_api (api_type : string) (api_key : text) : result api_object :=
  let '(is_valid, error_msg) := MapAPI.validate_api_key api_key api_type in
  if negb is_valid then Error (ValueError error_msg)
  else if String.eqb (lower api_type) "amap" then Value (AmapAPI.__init__ api_key)
  else if String.eqb (lower api_type) "baidu" then Value (BaiduMapAPI.__init__ api_key)
  else if String.eqb (lower api_type) "tencent" then Value (TencentMapAPI.__init__ api_key)
  else Error (ValueError ("不支持的地图API类型: " ++ api_type)%string).

(** *** What the properties are stated with *)

(** ['-'.join(groups)] *)
Fixpoint join (sep : N) (groups : list text) : text :=
  match groups with
  | [] => []
  | [g] => g
  | g :: groups' => g ++ sep :: join sep groups'
  end.

(** A text of [n] characters, all of the class. *)
Definition of_class (cls : class) (n : nat) (s : text) : Prop :=
  length s = n /\ forallb (in_class cls) s = true.

(** The name a provider is created under. *)
Definition name_of (p : provider) : string :=
  match p with
  | AmapAPI => "amap"
  | BaiduMapAPI => "baidu"
  | TencentMapAPI => "tencent"
  end.

(** The key has the form that the class of the provider asks for. *)
Definition well_formed (p : provider) (key : text) : Prop :=
  match p with
  | AmapAPI => of_class lower_or_digit 32 key
  | BaiduMapAPI => of_class letter_or_digit 32 key
  | TencentMapAPI =>
      exists groups, length groups = 6%nat /\
                     Forall (of_class upper_or_digit 5) groups /\
                     key = join (ord "-") groups
  end.

(** An address as [_preprocess_address] leaves it: no parenthesis, no
    white space but the single space, no two spaces in a row, no space at
    either end. *)
Definition tidy (s : text) : Prop :=
  Forall (fun c => in_class parentheses c = false /\
                   (in_class whitespace c = true -> c = space)) s /\
  (forall l1 l2, s <> l1 ++ space :: space :: l2) /\
  (forall l, s <> space :: l) /\
  (forall l, s <> l ++ [space]).

(** The characters of an address that are neither white space nor
    parentheses. *)
Definition letters (s : text) : text :=
  filter (fun c => negb (in_class whitespace c || in_class parentheses c)) s.

(** The addresses asked for and the pauses made, in their order. *)
Definition asked (t : list (MapAPI.batch_effect)) : list text :=
  flat_map (fun e => match e with MapAPI.Geocoded a => [a] | _ => [] end) t.

Definition pauses (t : list (MapAPI.batch_effect)) : list float :=
  flat_map (fun e => match e with MapAPI.Paused s => [s] | _ => [] end) t.

(** The head of a text is a white space. *)
Definition starts_ws (s : text) : bool :=
  match s with
  | c :: _ => in_class whitespace c
  | [] => false
  end.

(** Every white space of the text is a space that no white space follows. *)
Fixpoint collapsed (s : text) : Prop :=
  match s with
  | [] => True
  | c :: s' => (in_class whitespace c = true -> c = space /\ starts_ws s' = false) /\ collapsed s'
  end.

(** The instance of a class for a key. *)
Definition new (p : provider) (key : text) : api_object :=
  match p with
  | AmapAPI => AmapAPI.__init__ key
  | BaiduMapAPI => BaiduMapAPI.__init__ key
  | TencentMapAPI => TencentMapAPI.__init__ key
  end.

(** The check of a key for a class. *)
Definition validate (p : provider) (key : text) : bool * string :=
  match p with
  | AmapAPI => AmapAPI.validate_api_key key
  | BaiduMapAPI => BaiduMapAPI.validate_api_key key
  | TencentMapAPI => TencentMapAPI.validate_api_key key
  end.

End map_api.

(** * The calculation thread of [main.py]

    [CalculationThread] runs a search for the window and reports through
    three signals.  Its attributes are what [calculate_optimal_point] gives
    it: a list of coordinates, a weight list, the clustering method ([None]
    or a name) with its parameter, an integer step and the tag of the
    objective.  The clock, the counter of the provider and its
    [reverse_geocode] are read from the world. *)

Module main.
Module CalculationThread.

Record thread : Type := {
  coordinates : list point;
  weights : option (list float);
  clustering_method : option string;
  clustering_param : Z;
  search_step : Z;
  algorithm_type : string
}.

Section Thread.
Context {rt : Runtime} {api : MapAPI}.
(** What [reverse_geocode] answers: a dictionary or [None]. *)
Context {address_info : Type}.
Variable reverse_geocode : point -> result address_info.
(** What [time.time()] reads at both ends, and [self.api.api_call_count]. *)
Variables (start_time end_time : float) (api_call_count : Z).

(** The dictionary of the search with the three keys that [run] adds. *)
Record thread_result : Type := {
  search : search_result;
  address : address_info;
  calculation_time : float;
  api_calls : Z
}.

Inductive thread_event : Type :=
| progress_update (value : Z)
| calculation_complete (result : thread_result)
| calculation_error (error : exn)
| sleep (seconds : float)
| searching (e : event)
| reverse_geocoding (location : point).

(** [if self.clustering_method:] *)
Definition chosen (clustering_method : option string) : bool :=
  match clustering_method with
  | None => false
  | Some name => negb (String.eqb name "")
  end.

(** [self.finder.find_optimal_point(self.coordinates, self.weights,
    self.search_step, self.algorithm_type)] *)
Definition direct_search (fuel : nat) (self : thread) : M (option search_result) :=
  find_optimal_point fuel (coordinates self) (weights self)
    (PyInt (search_step self)) (PyStr (algorithm_type self)) 10 100 "total_cost".

(** [self.finder.find_optimal_point_with_clustering(self.coordinates,
    self.weights, method=..., param=..., search_step=..., algorithm_type=...)] *)
Definition clustered_search (fuel : nat) (self : thread) (method : string)
    : M (option search_result) :=
  result <- find_optimal_point_with_clustering fuel (coordinates self)
              (weights self) method (clustering_param self)
              (search_step self) (algorithm_type self) ;;
  ret (Some result).

(** The search that [run] starts, with the progress it announces first. *)
Definition started (fuel : nat) (self : thread) : Z * M (option search_result) :=
  match clustering_method self with
  | Some method =>
      if chosen (Some method)
      then (30, clustered_search fuel self method)
      else (40, direct_search fuel self)
  | None => (40, direct_search fuel self)
  end.

(** [run]: every exception of its body ends in [calculation_error], which
    carries the exception whose text is sent. *)
Definition run (fuel : nat) (self : thread) : list thread_event * res unit :=
  let '(progress, search) := started fuel self in
  let before := [progress_update 10; sleep 0.3; progress_update progress]
                ++ map searching (trace search) in
  match outcome search with
  | OutOfFuel => (before, OutOfFuel)
  | Raise e => (before ++ [calculation_error e], Ok tt)
  | Ok None =>
      (* 'optimal_point' in None *)
      (before ++ [progress_update 70; sleep 0.3; calculation_error TypeError], Ok tt)
  | Ok (Some result) =>
      let location := coords_of (optimal_point result) in
      match reverse_geocode location with
      | Error e =>
          (before ++ [progress_update 70; sleep 0.3; reverse_geocoding location;
                      calculation_error e], Ok tt)
      | Value address =>
          (before ++ [progress_update 70; sleep 0.3; reverse_geocoding location;
                      progress_update 100;
                      calculation_complete
                        {| search := result;
                           address := address;
                           calculation_time := (end_time - start_time)%float;
                           api_calls := api_call_count |}], Ok tt)
      end
  end.

(** The two signals that end a calculation. *)
Definition is_report (e : thread_event) : bool :=
  match e with
  | calculation_complete _ | calculation_error _ => true
  | _ => false
  end.

Definition reports (t : list thread_event) : list thread_event := filter is_report t.

(** The values of [progress_update] in a trace. *)
Definition progress (t : list thread_event) : list Z :=
  flat_map (fun e => match e with progress_update v => [v] | _ => [] end) t.

(** The provider calls of the search in a trace. *)
Definition searched (t : list thread_event) : list event :=
  flat_map (fun e => match e with searching e => [e] | _ => [] end) t.

End Thread.

End CalculationThread.
End main.

(** ** More sample data *)

Abbreviation sample_search :=
  (@find_optimal_point Reference.runtime Reference.grid_api 100 two_towns
     (Some [1; 1]%float) PyNone (PyInt 5) 10 100 "total_cost").

(** Five towns along a road. *)
Definition five_towns : list point :=
  [(40, -73); (40.001, -73); (40.002, -73); (40.003, -73); (40.004, -73)]%float.

(** A search between the two towns with a provider that cannot route, and
    one with a step of ten metres. *)
Abbreviation silent_search :=
  (@find_optimal_point Reference.runtime Reference.silent_api 100 two_towns
     (Some [1; 1]%float) PyNone (PyInt 5) 10 100 "total_cost").

Abbreviation short_search :=
  (@find_optimal_point Reference.runtime Reference.grid_api 100 two_towns
     (Some [1; 1]%float) PyNone (PyInt 5) 10 10 "total_cost").

(** The code points of an ASCII string. *)
Fixpoint codes (s : string) : map_api.text :=
  match s with
  | EmptyString => []
  | String c s' => N_of_ascii c :: codes s'
  end.

(** A service that is over its quota for the first two requests and then
    answers with half an hour; the world counts the requests served. *)
Definition busy_twice (served : nat) : nat * (Z + string) :=
  (S served,
   if (served <? 2)%nat then inr "CUQPS_HAS_EXCEEDED_THE_LIMIT"%string
   else inl 1800).

(** A service that cannot be reached. *)
Definition unreachable (served : nat) : nat * (Z + string) :=
  (S served, inr "Max retries exceeded with url: /v3/direction/driving"%string).

Definition amap_key : map_api.text := codes "0123456789abcdef0123456789abcdef".

(** A geocoder that knows one address, has no coordinates for another and
    fails on every other; the world counts the lookups. *)
Definition one_address (address : map_api.text) (city : string) (n : nat)
    : nat * (option point + string) :=
  (S n,
   if list_eq_dec N.eq_dec address (codes "Main St 5")
   then inl (Some (40, -73)%float)
   else if list_eq_dec N.eq_dec address (codes "Nowhere") then inl None
   else inr "timeout"%string).

(** A thread without clustering over some locations of weight one. *)
Definition plain_thread (cs : list point) (step : Z) (alg : string)
    : main.CalculationThread.thread :=
  {| main.CalculationThread.coordinates := cs;
     main.CalculationThread.weights := Some (repeat 1%float (length cs));
     main.CalculationThread.clustering_method := None;
     main.CalculationThread.clustering_param := 5;
     main.CalculationThread.search_step := step;
     main.CalculationThread.algorithm_type := alg |}.

(** A provider that knows no address. *)
Definition no_address (location : point) : result (option string) := Value None.

(** The thread on the reference collaborators, with a clock that reads 0 and
    1.5 and a counter that reads 12. *)
Abbreviation sample_run :=
  (@main.CalculationThread.run Reference.runtime Reference.grid_api (option string)
     no_address 0%float 1.5%float 12 100).

(** * Properties *)

(** ** The monad *)

Section MonadFacts.
Context {A B : Type}.

Lemma outcome_bind (m : M A) (k : A -> M B) :
  outcome (bind m k) =
  match outcome m with
  | Ok a => outcome (k a)
  | Raise e => Raise e
  | OutOfFuel => OutOfFuel
  end.
Proof.
  destruct m as [t [a|e|]]; cbn; [destruct (k a)|..]; reflexivity.
Qed.

Lemma trace_bind (m : M A) (k : A -> M B) :
  trace (bind m k) =
  trace m ++ match outcome m with
             | Ok a => trace (k a)
             | _ => []
             end.
Proof.
  destruct m as [t [a|e|]]; cbn; [destruct (k a)|..]; cbn;
    rewrite ?app_nil_r; reflexivity.
Qed.

Lemma bind_ok (m : M A) (k : A -> M B) (t : list event) (a : A) :
  m = (t, Ok a) -> bind m k = (t ++ trace (k a), outcome (k a)).
Proof. intros ->. cbn. destruct (k a); reflexivity. Qed.

Lemma bind_inv_ok (m : M A) (k : A -> M B) (t : list event) (b : B) :
  bind m k = (t, Ok b) ->
  exists t1 a t2, m = (t1, Ok a) /\ k a = (t2, Ok b) /\ t = t1 ++ t2.
Proof.
  destruct m as [t1 [a|e|]]; cbn; try discriminate.
  destruct (k a) as [t2 r] eqn:E. intros [= <- ->].
  exists t1, a, t2. auto.
Qed.

End MonadFacts.

Lemma M_eta {A} (m : M A) : m = (trace m, outcome m).
Proof. destruct m; reflexivity. Qed.

Lemma bind_outcome_ok {A B} (m : M A) (k : A -> M B) (a : A) :
  outcome m = Ok a -> bind m k = (trace m ++ trace (k a), outcome (k a)).
Proof. intros H. apply bind_ok. rewrite (M_eta m) at 1. rewrite H. reflexivity. Qed.

Lemma lift_outcome {A} (r : result A) :
  outcome (lift r) = match r with Value a => Ok a | Error e => Raise e end.
Proof. destruct r; reflexivity. Qed.

Lemma lift_trace {A} (r : result A) : trace (lift r) = [].
Proof. destruct r; reflexivity. Qed.

(** ** Binary64 arithmetic *)

Section FloatFacts.





















(** [int(x)] of a positive number is not negative. *)
Lemma int_of_float_positive (x : float) (v : Z) :
  (0 <? x)%float = true -> int_of_float x = Value v -> 0 <= v.
Proof.
  rewrite ltb_spec. change (Prim2SF 0) with (S754_zero false).
  unfold int_of_float. intros H1 H2.
  destruct (Prim2SF x) as [s|s| |s m e].
  - injection H2 as <-. lia.
  - discriminate H2.
  - discriminate H2.
  - destruct s; [discriminate H1|]. injection H2 as <-.
    apply Z.shiftl_nonneg. lia.
Qed.

End FloatFacts.

(** ** The cost evaluators *)







Section Evaluators.
Context {rt : Runtime} {api : MapAPI}.

Lemma route_lookup_eq (o d : point) :
  route_lookup o d = (route_trace o d, Ok (route_time o d)).
Proof.
  unfold route_lookup, route_trace, route_time, tell, ret.
  destruct (calculate_route o d); [reflexivity|].
  destruct calculate_route_time; reflexivity.
Qed.

Lemma total_time_loop_eq (rp : point) (cws : list (point * float)) :
  forall acc,
    total_time_loop rp cws acc =
    (flat_map (fun cw => route_trace rp (round_point (fst cw))) cws,
     Ok (fold_left (add_weighted rp) cws acc)).
Proof.
  induction cws as [|[c w] cws IH]; intros acc; [reflexivity|].
  cbn [total_time_loop flat_map fold_left fst].
  rewrite (bind_ok _ _ _ _ (route_lookup_eq rp (round_point c))).
  unfold add_weighted at 2. cbn [fst snd].
  destruct (route_time rp (round_point c)) as [t|];
    [destruct (float_of_int t)|]; rewrite IH; reflexivity.
Qed.

Lemma max_time_loop_eq (rp : point) (cs : list point) :
  forall acc,
    max_time_loop rp cs acc =
    (flat_map (fun c => route_trace rp (round_point c)) cs,
     Ok (fold_left (take_max rp) cs acc)).
Proof.
  induction cs as [|c cs IH]; intros acc; [reflexivity|].
  cbn [max_time_loop flat_map fold_left].
  rewrite (bind_ok _ _ _ _ (route_lookup_eq rp (round_point c))).
  unfold take_max at 2.
  destruct (route_time rp (round_point c)) as [t|]; rewrite IH; reflexivity.
Qed.

Lemma pure_time_loop_eq (rp : point) (cs : list point) :
  forall acc,
    pure_time_loop rp cs acc =
    (flat_map (fun c => route_trace rp (round_point c)) cs,
     Ok (fold_left (fun acc c => match route_time rp (round_point c) with
                                 | Some t => acc + t
                                 | None => acc
                                 end) cs acc)).
Proof.
  induction cs as [|c cs IH]; intros acc; [reflexivity|].
  cbn [pure_time_loop flat_map fold_left].
  rewrite (bind_ok _ _ _ _ (route_lookup_eq rp (round_point c))).
  destruct (route_time rp (round_point c)) as [t|]; rewrite IH; reflexivity.
Qed.

Lemma non_negative_int_nonneg (x : float) : non_negative (outcome (non_negative_int x)).
Proof.
  unfold non_negative_int.
  destruct (0 <? x)%float eqn:E; [|simpl; lia].
  rewrite lift_outcome.
  destruct (int_of_float x) as [v|e] eqn:I; simpl; [|exact Logic.I].
  eapply int_of_float_positive; eassumption.
Qed.

Lemma calculate_total_time_nonneg (p : point) (cs : list point)
    (ws : option (list float)) :
  non_negative (outcome (calculate_total_time p cs ws)).
Proof.
  unfold calculate_total_time. destruct cs as [|c cs]; [simpl; lia|].
  rewrite outcome_bind, total_time_loop_eq. cbn [outcome snd].
  apply non_negative_int_nonneg.
Qed.

Lemma calculate_max_time_nonneg (p : point) (cs : list point) :
  non_negative (outcome (calculate_max_time p cs)).
Proof.
  unfold calculate_max_time. destruct cs as [|c cs]; [simpl; lia|].
  rewrite outcome_bind, max_time_loop_eq. unfold ret, outcome, non_negative. cbn [snd].
  destruct (0 <? _) eqn:E; [apply Z.ltb_lt in E|]; lia.
Qed.


Lemma objective_nonneg (alg : string) (p : pypoint) (cs : list point)
    (ws : option (list float)) :
  non_negative (outcome (objective alg p cs ws)).
Proof.
  unfold objective. destruct (String.eqb alg "min_max_time").
  - apply calculate_max_time_nonneg.
  - apply calculate_total_time_nonneg.
Qed.



End Evaluators.

(** ** The search loop *)

Section Search.
Context {rt : Runtime} {api : MapAPI}.
Variables (cs : list point) (ws : option (list float)) (alg : string).



Lemma search_loop_unfold (fuel : nat) (s : search_state) :
  search_loop fuel cs ws alg s =
  if (min_radius <=? radius s)%float then
    match fuel with
    | O => ([], OutOfFuel)
    | S fuel' =>
        s' <- iteration cs ws alg s ;;
        search_loop fuel' cs ws alg s'
    end
  else ret s.
Proof. destruct fuel; reflexivity. Qed.





End Search.

Section Entry.
Context {rt : Runtime} {api : MapAPI}.





End Entry.

Lemma bind_ret_l {A B} (a : A) (k : A -> M B) : bind (ret a) k = k a.
Proof. cbn. destruct (k a); reflexivity. Qed.

Lemma bind_ext {A B} (m : M A) (k1 k2 : A -> M B) :
  (forall a, k1 a = k2 a) -> bind m k1 = bind m k2.
Proof. intros H. destruct m as [t [a|e|]]; cbn; [rewrite H|..]; reflexivity. Qed.

Lemma float_of_int_directions :
  float_of_int 1 = Some 1%float /\ float_of_int 0 = Some 0%float /\
  float_of_int (-1) = Some (-1)%float.
Proof. repeat split; vm_compute; reflexivity. Qed.

Section Claims.
Context {rt : Runtime} {api : MapAPI}.

Lemma new_point_candidates (s : search_state) :
  map (fun d => new_point (current_point s) d (radius s)) directions =
  map ret (candidates s).
Proof.
  destruct float_of_int_directions as (F1 & F0 & Fm).
  unfold directions, candidates, candidate, new_point, int_times_float.
  cbn [map fst snd]. rewrite F1, F0, Fm.
  rewrite !bind_ret_l. reflexivity.
Qed.

Lemma probe_cons (cs : list point) (ws : option (list float)) (alg : string)
    (s : search_state) (d : Z * Z) (ds : list (Z * Z)) (q : point) :
  direction_name d <> None ->
  new_point (current_point s) d (radius s) = ret q ->
  probe (d :: ds) cs ws alg s =
  (v <- objective alg (PTuple q) cs ws ;;
   if v <? current_time s then ret (Some (q, v)) else probe ds cs ws alg s).
Proof.
  intros Hn Hq. cbn [probe].
  destruct (direction_name d); [|congruence].
  rewrite Hq, bind_ret_l. reflexivity.
Qed.

Lemma probe_first (cs : list point) (ws : option (list float)) (alg : string)
    (s : search_state) (tried : list point) :
  forall ds c rest v,
    Forall (fun d => direction_name d <> None) ds ->
    map (fun d => new_point (current_point s) d (radius s)) ds =
      map ret (tried ++ c :: rest) ->
    Forall (no_better cs ws alg s) tried ->
    outcome (objective alg (PTuple c) cs ws) = Ok v ->
    v < current_time s ->
    probe ds cs ws alg s =
    (flat_map (fun q => trace (objective alg (PTuple q) cs ws)) (tried ++ [c]),
     Ok (Some (c, v))).
Proof.
  induction tried as [|q tried IH]; intros ds c rest v Hn Hm Hw Hv Hlt;
    destruct ds as [|d ds]; try discriminate;
    injection Hm as Hd Hm; inversion Hn as [|? ? Hn1 Hn2]; subst.
  - rewrite (probe_cons _ _ _ _ _ _ _ Hn1 Hd).
    rewrite (bind_outcome_ok _ _ _ Hv).
    apply Z.ltb_lt in Hlt. rewrite Hlt. cbn. rewrite !app_nil_r. reflexivity.
  - inversion Hw as [|? ? (v' & Hq & Hle) Hw']; subst.
    rewrite (probe_cons _ _ _ _ _ _ _ Hn1 Hd).
    rewrite (bind_outcome_ok _ _ _ Hq).
    replace (v' <? current_time s) with false by (symmetry; apply Z.ltb_ge; lia).
    rewrite (IH ds c rest v Hn2 Hm Hw' Hv Hlt). reflexivity.
Qed.

Lemma probe_none (cs : list point) (ws : option (list float)) (alg : string)
    (s : search_state) (qs : list point) :
  forall ds,
    Forall (fun d => direction_name d <> None) ds ->
    map (fun d => new_point (current_point s) d (radius s)) ds = map ret qs ->
    Forall (no_better cs ws alg s) qs ->
    probe ds cs ws alg s =
    (flat_map (fun q => trace (objective alg (PTuple q) cs ws)) qs, Ok None).
Proof.
  induction qs as [|q qs IH]; intros ds Hn Hm Hw;
    destruct ds as [|d ds]; try discriminate; [reflexivity|].
  injection Hm as Hd Hm. inversion Hn as [|? ? Hn1 Hn2]; subst.
  inversion Hw as [|? ? (v' & Hq & Hle) Hw']; subst.
  rewrite (probe_cons _ _ _ _ _ _ _ Hn1 Hd).
  rewrite (bind_outcome_ok _ _ _ Hq).
  replace (v' <? current_time s) with false by (symmetry; apply Z.ltb_ge; lia).
  rewrite (IH ds Hn2 Hm Hw'). reflexivity.
Qed.

Lemma directions_named : Forall (fun d => direction_name d <> None) directions.
Proof. repeat constructor; discriminate. Qed.

(** C1.  One iteration of the search probes four points at distance [radius]
    from the current point, one after the other; it moves to the first of
    them whose cost is strictly lower than the current cost, without
    evaluating the ones after it, and keeps the radius; when none is
    strictly lower it keeps the point and the cost and halves the radius.
    The order of the four is not the one their names give.  The dictionary
    of the loop names the directions East, North, West, South; but a point
    is (latitude, longitude) and the first direction, [(1, 0)], adds the
    radius to the latitude: the four points lie to the north, the east, the
    south and the west of the current point, in that order. *)
Theorem probing_iteration (cs : list point) (ws : option (list float))
    (alg : string) (s : search_state) :
  let latitude := fst (coords_of (current_point s)) in
  let longitude := snd (coords_of (current_point s)) in
  map direction_name directions = [Some East; Some North; Some West; Some South] /\
  map compass directions = [Some North; Some East; Some South; Some West] /\
  map (fun d => new_point (current_point s) d (radius s)) directions =
  map ret [(round6 (latitude + 1 * radius s), round6 (longitude + 0 * radius s));
           (round6 (latitude + 0 * radius s), round6 (longitude + 1 * radius s));
           (round6 (latitude + -1 * radius s), round6 (longitude + 0 * radius s));
           (round6 (latitude + 0 * radius s), round6 (longitude + -1 * radius s))]%float /\
  (forall tried c rest v,
      candidates s = tried ++ c :: rest ->
      Forall (no_better cs ws alg s) tried ->
      outcome (objective alg (PTuple c) cs ws) = Ok v ->
      v < current_time s ->
      iteration cs ws alg s =
      (flat_map (fun q => trace (objective alg (PTuple q) cs ws)) (tried ++ [c]),
       Ok {| current_point := PTuple c;
             current_time := v;
             radius := radius s;
             iteration_count := iteration_count s + 1 |})) /\
  (Forall (no_better cs ws alg s) (candidates s) ->
   iteration cs ws alg s =
   (flat_map (fun q => trace (objective alg (PTuple q) cs ws)) (candidates s),
    Ok {| current_point := current_point s;
          current_time := current_time s;
          radius := (radius s / 2)%float;
          iteration_count := iteration_count s + 1 |})).
Proof.
  intros latitude longitude.
  split; [reflexivity|]. split; [reflexivity|].
  split; [exact (new_point_candidates s)|]. split.
  - intros tried c rest v Hc Hw Hv Hlt. unfold iteration.
    pose proof (new_point_candidates s) as Hm. rewrite Hc in Hm.
    rewrite (probe_first cs ws alg s tried directions c rest v
               directions_named Hm Hw Hv Hlt).
    cbn. rewrite app_nil_r. reflexivity.
  - intros Hw. unfold iteration.
    rewrite (probe_none cs ws alg s (candidates s) directions
               directions_named (new_point_candidates s) Hw).
    cbn. rewrite app_nil_r. reflexivity.
Qed.





(** *** The cost of the current point *)

Lemma probe_found (cs : list point) (ws : option (list float)) (alg : string)
    (s : search_state) (dirs : list (Z * Z)) (np : point) (v : Z) :
  outcome (probe dirs cs ws alg s) = Ok (Some (np, v)) ->
  outcome (objective alg (PTuple np) cs ws) = Ok v /\ v < current_time s.
Proof.
  induction dirs as [|d dirs IH]; [discriminate|].
  cbn [probe]. destruct (direction_name d); [|discriminate].
  rewrite outcome_bind.
  destruct (outcome (new_point (current_point s) d (radius s))) as [q| |];
    try discriminate.
  rewrite outcome_bind.
  destruct (outcome (objective alg (PTuple q) cs ws)) as [m| |] eqn:O;
    try discriminate.
  destruct (m <? current_time s) eqn:L; [|exact IH].
  intros [= <- <-]. split; [exact O|apply Z.ltb_lt, L].
Qed.

Lemma iteration_cost_of_point (cs : list point) (ws : option (list float))
    (alg : string) (s s' : search_state) :
  cost_of_point cs ws alg s ->
  outcome (iteration cs ws alg s) = Ok s' ->
  cost_of_point cs ws alg s' /\ current_time s' <= current_time s.
Proof.
  intros I. unfold iteration. rewrite outcome_bind.
  destruct (outcome (probe directions cs ws alg s)) as [[[np v]|]| |] eqn:P;
    try discriminate; intros [= <-]; unfold cost_of_point; cbn.
  - destruct (probe_found _ _ _ _ _ _ _ P) as [O L]. split; [exact O|lia].
  - split; [exact I|lia].
Qed.

Lemma search_loop_cost_of_point (cs : list point) (ws : option (list float))
    (alg : string) (fuel : nat) :
  forall s s',
    cost_of_point cs ws alg s ->
    outcome (search_loop fuel cs ws alg s) = Ok s' ->
    cost_of_point cs ws alg s' /\ current_time s' <= current_time s.
Proof.
  induction fuel as [|fuel IH]; intros s s' I; rewrite search_loop_unfold;
    destruct (min_radius <=? radius s)%float; try discriminate;
    try (intros [= <-]; split; [exact I|lia]).
  rewrite outcome_bind.
  destruct (outcome (iteration cs ws alg s)) as [s1| |] eqn:It; try discriminate.
  intros H.
  destruct (iteration_cost_of_point _ _ _ _ _ I It) as [I1 L1].
  destruct (IH _ _ I1 H) as [I2 L2]. split; [exact I2|lia].
Qed.

Lemma start_of_search_cost_of_point (cs : list point) (ws : option (list float))
    (cm mcs : pyval) (xcs step : Z) (alg : string)
    (t : list event) (info : option clustering_info) (s : search_state) :
  start_of_search cs ws cm mcs xcs step alg = (t, Ok (info, s)) ->
  cost_of_point cs ws alg s.
Proof.
  unfold start_of_search. intros H.
  apply bind_inv_ok in H. destruct H as (t1 & [info' start] & t2 & _ & H & _).
  apply bind_inv_ok in H. destruct H as (t3 & t0 & t4 & Ht & H & _).
  apply bind_inv_ok in H. destruct H as (t5 & r & t6 & _ & H & _).
  apply bind_inv_ok in H. destruct H as (t7 & [] & t8 & _ & H & _).
  injection H as _ _ <-. unfold cost_of_point. cbn. rewrite Ht. reflexivity.
Qed.

(** *** The objective tag *)

Lemma objective_other (alg : string) :
  alg <> "min_max_time"%string ->
  forall p cs ws, objective alg p cs ws = calculate_total_time (coords_of p) cs ws.
Proof.
  intros H p cs ws. unfold objective.
  apply String.eqb_neq in H. rewrite H. reflexivity.
Qed.

Lemma objective_default (alg : string) :
  alg <> "min_max_time"%string ->
  forall p cs ws, objective alg p cs ws = objective "total_cost" p cs ws.
Proof.
  intros H p cs ws. rewrite (objective_other alg H).
  symmetry. apply objective_other. discriminate.
Qed.

Lemma probe_default (alg : string) (cs : list point) (ws : option (list float))
    (s : search_state) (dirs : list (Z * Z)) :
  alg <> "min_max_time"%string ->
  probe dirs cs ws alg s = probe dirs cs ws "total_cost" s.
Proof.
  intros H. induction dirs as [|d dirs IH]; [reflexivity|].
  cbn [probe]. destruct (direction_name d); [|reflexivity].
  apply bind_ext. intros np. rewrite (objective_default alg H).
  apply bind_ext. intros v. rewrite IH. reflexivity.
Qed.

Lemma search_loop_default (alg : string) (cs : list point) (ws : option (list float))
    (fuel : nat) :
  alg <> "min_max_time"%string ->
  forall s, search_loop fuel cs ws alg s = search_loop fuel cs ws "total_cost" s.
Proof.
  intros H. induction fuel as [|fuel IH]; intros s; [reflexivity|].
  rewrite !(search_loop_unfold _ _ _ (S fuel)).
  destruct (min_radius <=? radius s)%float; [|reflexivity].
  unfold iteration. rewrite (probe_default alg cs ws s directions H).
  apply bind_ext. intros s'. apply IH.
Qed.

Lemma find_optimal_point_default (alg : string) :
  alg <> "min_max_time"%string ->
  forall fuel cs ws cm mcs xcs step,
    find_optimal_point fuel cs ws cm mcs xcs step alg =
    find_optimal_point fuel cs ws cm mcs xcs step "total_cost".
Proof.
  intros H fuel cs ws cm mcs xcs step.
  destruct cs as [|c cs]; [reflexivity|].
  unfold find_optimal_point.
  replace (start_of_search (c :: cs) ws cm mcs xcs step alg)
    with (start_of_search (c :: cs) ws cm mcs xcs step "total_cost").
  - apply bind_ext. intros [info start].
    rewrite (search_loop_default alg _ _ _ H). reflexivity.
  - unfold start_of_search. apply bind_ext. intros [info start].
    rewrite (objective_default alg H). reflexivity.
Qed.

(** A call that passes an [int] for [clustering_method] does not look at
    [min_cluster_size]. *)
Lemma find_optimal_point_int_method (fuel : nat) (cs : list point)
    (ws : option (list float)) (z : Z) (mcs mcs' : pyval) (xcs step : Z)
    (alg : string) :
  find_optimal_point fuel cs ws (PyInt z) mcs xcs step alg =
  find_optimal_point fuel cs ws (PyInt z) mcs' xcs step alg.
Proof.
  destruct cs as [|c cs]; [reflexivity|].
  unfold find_optimal_point, start_of_search.
  cbn [is_none]. rewrite andb_false_r.
  destruct (truthy (PyInt z) && (cluster_threshold <? length (c :: cs))%nat);
    reflexivity.
Qed.

Lemma clustered_total_time (fuel : nat) (cs : list point)
    (weights : option (list float)) (method : string) (param step : Z)
    (alg : string) (t : list event) (r : search_result) :
  find_optimal_point_with_clustering fuel cs weights method param step alg = (t, Ok r) ->
  outcome (objective alg (optimal_point r) cs
             (Some (match weights with
                    | None => repeat 1%float (length cs)
                    | Some ws => ws
                    end))) = Ok (total_time r).
Proof.
  intros H. unfold find_optimal_point_with_clustering in H.
  destruct cs as [|c cs]; [discriminate|].
  destruct (negb _); [discriminate|].
  apply bind_inv_ok in H. destruct H as (t1 & clusters & t2 & _ & H & _).
  destruct clusters as [|cl clusters]; [discriminate|].
  apply bind_inv_ok in H. destruct H as (t3 & [cc cw] & t4 & _ & H & _).
  destruct cc as [|c0 cc]; [discriminate|].
  apply bind_inv_ok in H. destruct H as (t5 & found & t6 & _ & H & _).
  destruct found as [result|]; [|discriminate].
  apply bind_inv_ok in H. destruct H as (t7 & total & t8 & Ht & H & _).
  apply bind_inv_ok in H. destruct H as (t9 & it & t10 & _ & H & _).
  apply bind_inv_ok in H. destruct H as (t11 & pt & t12 & _ & H & _).
  injection H as _ <-. cbn [optimal_point total_time]. rewrite Ht. reflexivity.
Qed.

Lemma search_result_cost (fuel : nat) (cs : list point) (ws : option (list float))
    (cm mcs : pyval) (xcs step : Z) (alg : string)
    (t : list event) (r : search_result) :
  find_optimal_point fuel cs ws cm mcs xcs step alg = (t, Ok (Some r)) ->
  outcome (objective alg (optimal_point r) cs ws) = Ok (total_time r).
Proof.
  intros H. unfold find_optimal_point in H.
  destruct cs as [|c cs]; [discriminate|].
  apply bind_inv_ok in H. destruct H as (t1 & [info start] & t2 & Hs & H & _).
  apply bind_inv_ok in H. destruct H as (t3 & final & t4 & Hl & H & _).
  apply bind_inv_ok in H. destruct H as (t5 & it & t6 & _ & H & _).
  apply bind_inv_ok in H. destruct H as (t7 & pt & t8 & _ & H & _).
  injection H as _ <-. cbn [optimal_point total_time].
  pose proof (start_of_search_cost_of_point _ _ _ _ _ _ _ _ _ _ Hs) as I0.
  assert (Hl' : outcome (search_loop fuel (c :: cs) ws alg start) = Ok final)
    by (rewrite Hl; reflexivity).
  exact (proj1 (search_loop_cost_of_point _ _ _ _ _ _ I0 Hl')).
Qed.

(** What one iteration does with a cost [cost] in the place of the
    objective: it moves to the first candidate that [cost] makes strictly
    cheaper, and halves the radius when there is none. *)
Lemma iteration_with_cost (cs : list point) (ws : option (list float))
    (alg : string) (cost : point -> M Z) (s : search_state) :
  (forall q, objective alg (PTuple q) cs ws = cost q) ->
  (forall tried c rest v,
      candidates s = tried ++ c :: rest ->
      Forall (fun q => exists v', outcome (cost q) = Ok v' /\ current_time s <= v') tried ->
      outcome (cost c) = Ok v ->
      v < current_time s ->
      iteration cs ws alg s =
      (flat_map (fun q => trace (cost q)) (tried ++ [c]),
       Ok {| current_point := PTuple c;
             current_time := v;
             radius := radius s;
             iteration_count := iteration_count s + 1 |})) /\
  (Forall (fun q => exists v', outcome (cost q) = Ok v' /\ current_time s <= v')
     (candidates s) ->
   iteration cs ws alg s =
   (flat_map (fun q => trace (cost q)) (candidates s),
    Ok {| current_point := current_point s;
          current_time := current_time s;
          radius := (radius s / 2)%float;
          iteration_count := iteration_count s + 1 |})).
Proof.
  intros Hc.
  assert (Hw : forall l,
             Forall (fun q => exists v', outcome (cost q) = Ok v' /\ current_time s <= v') l ->
             Forall (no_better cs ws alg s) l).
  { intros l. apply Forall_impl. intros q (v' & Hq & Hle).
    exists v'. rewrite Hc. auto. }
  assert (Ht : forall l,
             flat_map (fun q => trace (objective alg (PTuple q) cs ws)) l =
             flat_map (fun q => trace (cost q)) l).
  { intros l. apply flat_map_ext. intros q. rewrite Hc. reflexivity. }
  split.
  - intros tried c rest v Hcs Htried Hv Hlt. unfold iteration.
    pose proof (new_point_candidates s) as Hm. rewrite Hcs in Hm.
    rewrite <- Hc in Hv.
    rewrite (probe_first cs ws alg s tried directions c rest v
               directions_named Hm (Hw _ Htried) Hv Hlt).
    rewrite Ht. cbn. rewrite app_nil_r. reflexivity.
  - intros Hall. unfold iteration.
    rewrite (probe_none cs ws alg s (candidates s) directions
               directions_named (new_point_candidates s) (Hw _ Hall)).
    rewrite Ht. cbn. rewrite app_nil_r. reflexivity.
Qed.

(** C10.  The tag ['min_max_time'], and no other, selects the maximum of the
    route times: with it the cost of the starting point, the cost of every
    probed point and the cost that a clustered search computes at the end
    are [calculate_max_time].  With every other tag, whatever it says, they
    are [calculate_total_time], the weighted sum: the starting cost, the
    probing of an iteration (which moves to the first candidate whose
    weighted sum is strictly lower and halves the radius when there is
    none), the [total_time] of a search and the one a clustered search
    computes at the end.  No tag is rejected: the evaluation of a point, an
    iteration, a search and a clustered search do for such a tag exactly
    what they do for ['total_cost']. *)
Theorem objective_tag :
  (forall p cs ws,
      objective "min_max_time" p cs ws = calculate_max_time (coords_of p) cs) /\
  (forall alg, alg <> "min_max_time"%string ->
      (forall p cs ws,
          objective alg p cs ws = calculate_total_time (coords_of p) cs ws) /\
      (forall cs ws s, iteration cs ws alg s = iteration cs ws "total_cost" s) /\
      (forall fuel cs ws cm mcs xcs step,
          find_optimal_point fuel cs ws cm mcs xcs step alg =
          find_optimal_point fuel cs ws cm mcs xcs step "total_cost") /\
      (forall fuel cs ws method param step,
          find_optimal_point_with_clustering fuel cs ws method param step alg =
          find_optimal_point_with_clustering fuel cs ws method param step "total_cost")) /\
  (forall alg, alg <> "min_max_time"%string ->
      (forall cs ws cm mcs xcs step t info s,
          start_of_search cs ws cm mcs xcs step alg = (t, Ok (info, s)) ->
          outcome (calculate_total_time (coords_of (current_point s)) cs ws)
          = Ok (current_time s)) /\
      (forall cs ws s tried c rest v,
          candidates s = tried ++ c :: rest ->
          Forall (fun q => exists v', outcome (calculate_total_time q cs ws) = Ok v' /\
                                      current_time s <= v') tried ->
          outcome (calculate_total_time c cs ws) = Ok v ->
          v < current_time s ->
          iteration cs ws alg s =
          (flat_map (fun q => trace (calculate_total_time q cs ws)) (tried ++ [c]),
           Ok {| current_point := PTuple c;
                 current_time := v;
                 radius := radius s;
                 iteration_count := iteration_count s + 1 |})) /\
      (forall cs ws s,
          Forall (fun q => exists v', outcome (calculate_total_time q cs ws) = Ok v' /\
                                      current_time s <= v') (candidates s) ->
          iteration cs ws alg s =
          (flat_map (fun q => trace (calculate_total_time q cs ws)) (candidates s),
           Ok {| current_point := current_point s;
                 current_time := current_time s;
                 radius := (radius s / 2)%float;
                 iteration_count := iteration_count s + 1 |})) /\
      (forall fuel cs ws cm mcs xcs step t r,
          find_optimal_point fuel cs ws cm mcs xcs step alg = (t, Ok (Some r)) ->
          outcome (calculate_total_time (coords_of (optimal_point r)) cs ws)
          = Ok (total_time r)) /\
      (forall fuel cs ws method param step t r,
          find_optimal_point_with_clustering fuel cs ws method param step alg
          = (t, Ok r) ->
          outcome (calculate_total_time (coords_of (optimal_point r)) cs
                     (Some (match ws with
                            | None => repeat 1%float (length cs)
                            | Some l => l
                            end)))
          = Ok (total_time r))) /\
  (forall cs ws cm mcs xcs step t info s,
      start_of_search cs ws cm mcs xcs step "min_max_time" = (t, Ok (info, s)) ->
      outcome (calculate_max_time (coords_of (current_point s)) cs)
      = Ok (current_time s)) /\
  (forall cs ws s tried c rest v,
      candidates s = tried ++ c :: rest ->
      Forall (fun q => exists v', outcome (calculate_max_time q cs) = Ok v' /\
                                  current_time s <= v') tried ->
      outcome (calculate_max_time c cs) = Ok v ->
      v < current_time s ->
      iteration cs ws "min_max_time" s =
      (flat_map (fun q => trace (calculate_max_time q cs)) (tried ++ [c]),
       Ok {| current_point := PTuple c;
             current_time := v;
             radius := radius s;
             iteration_count := iteration_count s + 1 |})) /\
  (forall cs ws s,
      Forall (fun q => exists v', outcome (calculate_max_time q cs) = Ok v' /\
                                  current_time s <= v') (candidates s) ->
      iteration cs ws "min_max_time" s =
      (flat_map (fun q => trace (calculate_max_time q cs)) (candidates s),
       Ok {| current_point := current_point s;
             current_time := current_time s;
             radius := (radius s / 2)%float;
             iteration_count := iteration_count s + 1 |})) /\
  (forall fuel cs ws cm mcs xcs step t r,
      find_optimal_point fuel cs ws cm mcs xcs step "min_max_time" = (t, Ok (Some r)) ->
      outcome (calculate_max_time (coords_of (optimal_point r)) cs) = Ok (total_time r)) /\
  (forall fuel cs ws method param step t r,
      find_optimal_point_with_clustering fuel cs ws method param step "min_max_time"
      = (t, Ok r) ->
      outcome (calculate_max_time (coords_of (optimal_point r)) cs) = Ok (total_time r)).
Proof.
  split; [reflexivity|].
  split.
  { intros alg H.
    split; [apply objective_other; assumption|].
    split; [intros; unfold iteration; rewrite (probe_default alg); auto|].
    split; [apply find_optimal_point_default; assumption|].
    intros fuel cs ws method param step.
    unfold find_optimal_point_with_clustering.
    destruct cs as [|c cs]; [reflexivity|].
    destruct (negb _); [reflexivity|].
    apply bind_ext. intros clusters. destruct clusters; [reflexivity|].
    apply bind_ext. intros [cc cw]. destruct cc; [reflexivity|].
    rewrite (find_optimal_point_int_method _ _ _ _ (PyStr alg) (PyStr "total_cost")).
    apply bind_ext. intros [result|]; [|reflexivity].
    rewrite (objective_default alg H). reflexivity. }
  split.
  { intros alg H. pose proof (objective_other alg H) as O.
    split.
    { intros cs ws cm mcs xcs step t info s Hs.
      rewrite <- O. exact (start_of_search_cost_of_point _ _ _ _ _ _ _ _ _ _ Hs). }
    split.
    { intros cs ws s.
      apply (iteration_with_cost cs ws alg (fun q => calculate_total_time q cs ws) s).
      intros q. apply O. }
    split.
    { intros cs ws s.
      apply (iteration_with_cost cs ws alg (fun q => calculate_total_time q cs ws) s).
      intros q. apply O. }
    split.
    { intros fuel cs ws cm mcs xcs step t r Hr.
      rewrite <- O. exact (search_result_cost _ _ _ _ _ _ _ _ _ _ Hr). }
    intros fuel cs ws method param step t r Hr.
    rewrite <- O. exact (clustered_total_time _ _ _ _ _ _ _ _ _ Hr). }
  split.
  { intros cs ws cm mcs xcs step t info s Hs.
    exact (start_of_search_cost_of_point _ _ _ _ _ _ _ _ _ _ Hs). }
  split.
  { intros cs ws s.
    apply (iteration_with_cost cs ws "min_max_time" (fun q => calculate_max_time q cs) s).
    reflexivity. }
  split.
  { intros cs ws s.
    apply (iteration_with_cost cs ws "min_max_time" (fun q => calculate_max_time q cs) s).
    reflexivity. }
  split.
  { intros fuel cs ws cm mcs xcs step t r Hr.
    exact (search_result_cost _ _ _ _ _ _ _ _ _ _ Hr). }
  intros fuel cs ws method param step t r Hr.
  exact (clustered_total_time _ _ _ _ _ _ _ _ _ Hr).
Qed.

(** *** The report of a clustered search *)

Lemma nth_error_seq {A} (l : list A) :
  map (nth_error l) (seq 0 (length l)) = map Some l.
Proof.
  induction l as [|a l IH]; [reflexivity|].
  cbn [length seq map nth_error]. f_equal.
  rewrite <- seq_shift, map_map. exact IH.
Qed.

Lemma map_Some_inj {A} (l1 l2 : list A) : map Some l1 = map Some l2 -> l1 = l2.
Proof.
  revert l2. induction l1 as [|a l1 IH]; intros [|b l2] H; try discriminate.
  - reflexivity.
  - injection H as -> H. f_equal. apply IH, H.
Qed.

Lemma individual_times_loop_spec (o : point) (ws : list float) (cs : list point) :
  forall i t l,
    individual_times_loop o cs i (Some ws) = (t, Ok l) ->
    map coordinates l = cs /\
    map point_index l = seq i (length cs) /\
    map time_seconds l = map (route_time o) cs /\
    map (fun e => Some (weight e)) l = map (nth_error ws) (seq i (length cs)) /\
    Forall (fun e => time_seconds e = None -> time_formatted e = "无法计算"%string) l.
Proof.
  induction cs as [|c cs IH]; intros i t l H.
  - injection H as _ <-. repeat split; constructor.
  - cbn [individual_times_loop] in H.
    rewrite (bind_ok _ _ _ _ (route_lookup_eq o c)) in H.
    injection H as _ H. rewrite !outcome_bind in H.
    unfold subscript in H. rewrite lift_outcome in H.
    destruct (nth_error ws i) as [w|] eqn:W; [|discriminate].
    rewrite outcome_bind in H.
    destruct (individual_times_loop o cs (S i) (Some ws)) as [t' [l'|e|]] eqn:L;
      cbn in H; try discriminate.
    injection H as <-.
    destruct (IH _ _ _ L) as (H1 & H2 & H3 & H4 & H5).
    cbn [map length seq coordinates point_index time_seconds weight individual_entry].
    rewrite H1, H2, H3, H4, W. repeat split.
    constructor; [|assumption].
    cbn. intros ->. reflexivity.
Qed.

(** C3.  What a clustered search reports is computed from the locations it
    was given, not from the clusters: [individual_times] has one entry for
    each location, in the order of the input, with the index, the
    coordinates and the weight of that location and the time the provider
    gives from the final point to it, [None] (shown as unavailable) where
    the provider gives none; [total_time] and [pure_total_time] are the
    costs of the final point over the given locations and weights. *)
Theorem clustered_report (fuel : nat) (cs : list point)
    (weights : option (list float)) (method : string) (param step : Z)
    (alg : string) (t : list event) (r : search_result) :
  find_optimal_point_with_clustering fuel cs weights method param step alg = (t, Ok r) ->
  let ws := match weights with
            | None => repeat 1%float (length cs)
            | Some ws => ws
            end in
  let o := coords_of (optimal_point r) in
  length (individual_times r) = length cs /\
  map coordinates (individual_times r) = cs /\
  map point_index (individual_times r) = seq 0 (length cs) /\
  map weight (individual_times r) = ws /\
  map time_seconds (individual_times r) = map (route_time o) cs /\
  Forall (fun e => time_seconds e = None -> time_formatted e = "无法计算"%string)
    (individual_times r) /\
  outcome (objective alg (optimal_point r) cs (Some ws)) = Ok (total_time r) /\
  outcome (calculate_pure_total_time o cs) = Ok (pure_total_time r).
Proof.
  intros H ws o. unfold find_optimal_point_with_clustering in H.
  destruct cs as [|c cs]; [discriminate|].
  fold ws in H.
  destruct (negb (length (c :: cs) =? length ws)%nat) eqn:Hlen; [discriminate|].
  apply negb_false_iff, Nat.eqb_eq in Hlen.
  apply bind_inv_ok in H. destruct H as (t1 & clusters & t2 & _ & H & _).
  destruct clusters as [|cl clusters]; [discriminate|].
  apply bind_inv_ok in H. destruct H as (t3 & [cc cw] & t4 & _ & H & _).
  destruct cc as [|c0 cc]; [discriminate|].
  apply bind_inv_ok in H. destruct H as (t5 & found & t6 & _ & H & _).
  destruct found as [result|]; [|discriminate].
  apply bind_inv_ok in H. destruct H as (t7 & total & t8 & Ht & H & _).
  apply bind_inv_ok in H. destruct H as (t9 & it & t10 & Hi & H & _).
  apply bind_inv_ok in H. destruct H as (t11 & pt & t12 & Hp & H & _).
  injection H as _ <-.
  unfold o. cbn [optimal_point individual_times total_time pure_total_time].
  destruct (individual_times_loop_spec _ _ _ _ _ _ Hi) as (H1 & H2 & H3 & H4 & H5).
  assert (Hw : map weight it = ws).
  { apply map_Some_inj. rewrite map_map, H4.
    change (length (c :: cs)) with (length (c :: cs)). rewrite Hlen.
    apply nth_error_seq. }
  repeat split; try assumption.
  - rewrite <- H1, length_map. reflexivity.
  - rewrite Ht. reflexivity.
  - rewrite Hp. reflexivity.
Qed.

(** *** The centroid *)

Lemma effective_weights_same (ws : list float) (n : nat) :
  length ws = n -> effective_weights n (Some ws) = ws.
Proof. intros H. unfold effective_weights. rewrite H, Nat.eqb_refl. reflexivity. Qed.

Lemma effective_weights_length (n : nat) (ws : option (list float)) :
  length (effective_weights n ws) = n.
Proof.
  unfold effective_weights.
  set (l := match ws with None => repeat 1%float n | Some ws => ws end).
  destruct (length l =? n)%nat eqn:E; [apply Nat.eqb_eq, E|].
  unfold pad_weights. rewrite length_app, length_firstn, repeat_length. lia.
Qed.

Lemma square_centroid (a b : float) :
  @calculate_centroid Reference.runtime (square_corners a b) (Some [1; 1; 1; 1]%float) =
  Centroid (PTuple (latitude_centre a, longitude_centre b)).
Proof. reflexivity. Qed.

Lemma whole_degrees_In (lo : Z) (n : nat) (z : Z) :
  lo <= z < lo + Z.of_nat n -> In z (whole_degrees lo n).
Proof.
  intros H. unfold whole_degrees. apply in_map_iff.
  exists (Z.to_nat (z - lo)). split; [lia|]. apply in_seq. lia.
Qed.

Lemma centres_on_the_globe :
  forallb (fun x => PrimFloat.Leibniz.eqb (latitude_centre (to_float x))
                      (to_float x + 1)%float)
    (whole_degrees (-90) 179) = true /\
  forallb (fun y => PrimFloat.Leibniz.eqb (longitude_centre (to_float y))
                      (to_float y + 1)%float)
    (whole_degrees (-180) 359) = true.
Proof. split; vm_compute; reflexivity. Qed.

(** C5, as the code has it.  For points with as many weights, the centroid
    is, on each axis, the sum of the weighted coordinates over the sum of
    the weights, rounded to six decimals, unless the weights sum to zero:
    then it is the plain mean of the points, not rounded.  With weights 1 at
    the four corners of a square of side 2 it is so the mean of the corners
    rounded to six decimals; that is the centre of the square exactly when
    the corners are at whole degrees of latitude and longitude, and need
    not be when they are not. *)
Theorem weighted_centroid :
  (forall cs ws, cs <> [] -> length ws = length cs ->
     let total_weight := np_sum ws in
     let weighted := np_sum_axis0 (map scale (combine cs ws)) in
     ((total_weight =? 0)%float = false ->
      calculate_centroid cs (Some ws) =
      Centroid (PTuple (round6 (fst weighted / total_weight),
                        round6 (snd weighted / total_weight))%float)) /\
     ((total_weight =? 0)%float = true ->
      calculate_centroid cs (Some ws) = Centroid (PArray (np_mean_axis0 cs)))) /\
  (forall x y, -90 <= x <= 88 -> -180 <= y <= 178 ->
     @calculate_centroid Reference.runtime
       (square_corners (to_float x) (to_float y)) (Some [1; 1; 1; 1]%float) =
     Centroid (PTuple (to_float x + 1, to_float y + 1)%float)) /\
  (forall a b,
     @calculate_centroid Reference.runtime (square_corners a b) (Some [1; 1; 1; 1]%float) =
     Centroid (PTuple (latitude_centre a, longitude_centre b))).
Proof.
  split; [|split].
  - intros cs ws Hne Hlen total_weight weighted.
    unfold calculate_centroid. destruct cs as [|c cs]; [congruence|].
    rewrite (effective_weights_same ws _ Hlen).
    fold total_weight weighted.
    split; intros ->; reflexivity.
  - intros x y Hx Hy. rewrite square_centroid.
    destruct centres_on_the_globe as [Gx Gy].
    rewrite forallb_forall in Gx, Gy.
    assert (Ix : In x (whole_degrees (-90) 179)) by (apply whole_degrees_In; lia).
    assert (Iy : In y (whole_degrees (-180) 359)) by (apply whole_degrees_In; lia).
    pose proof (Gx x Ix) as Ex. pose proof (Gy y Iy) as Ey. cbv beta in Ex, Ey.
    apply FloatAxioms.Leibniz.eqb_spec in Ex, Ey.
    rewrite Ex, Ey. reflexivity.
  - apply square_centroid.
Qed.

(** *** The two costs *)

Lemma float_of_int_to_float (t : Z) :
  float_of_int t <> None -> float_of_int t = Some (to_float t).
Proof. unfold float_of_int. destruct (is_infinity (to_float t)); congruence. Qed.

Lemma fold_add_weighted (rp : point) (cws : list (point * float)) :
  (forall cw t, In cw cws -> route_time rp (round_point (fst cw)) = Some t ->
                float_of_int t <> None) ->
  forall acc,
    fold_left (add_weighted rp) cws acc =
    fold_left (fun acc tw => (acc + to_float (fst tw) * snd tw)%float)
      (successful_lookups rp cws) acc.
Proof.
  induction cws as [|cw cws IH]; intros Hfit acc; [reflexivity|].
  cbn [fold_left successful_lookups flat_map]. unfold add_weighted at 2.
  destruct (route_time rp (round_point (fst cw))) as [t|] eqn:R.
  - rewrite (float_of_int_to_float t (Hfit cw t (or_introl eq_refl) R)).
    cbn [app fold_left fst snd]. apply IH.
    intros cw' t' Hin. apply Hfit. right. exact Hin.
  - cbn [app]. apply IH. intros cw' t' Hin. apply Hfit. right. exact Hin.
Qed.

Lemma fold_take_max (rp : point) (cs : list point) :
  forall acc, 0 <= acc ->
    fold_left (take_max rp) cs acc = Z.max acc (maximum (successful_times rp cs)).
Proof.
  unfold maximum.
  induction cs as [|c cs IH]; intros acc Hacc; cbn [fold_left successful_times flat_map].
  - cbn. lia.
  - unfold take_max at 2.
    destruct (route_time rp (round_point c)) as [t|]; cbn [app fold_right].
    + destruct (acc <? t) eqn:E; [apply Z.ltb_lt in E|apply Z.ltb_ge in E];
        rewrite IH by lia; fold (successful_times rp cs); lia.
    + apply IH. exact Hacc.
Qed.

Lemma maximum_nonneg (l : list Z) : 0 <= maximum l.
Proof. unfold maximum. induction l; cbn; lia. Qed.

Lemma flat_map_combine_fst {A B C} (f : A -> list C) (l1 : list A) :
  forall l2 : list B, length l2 = length l1 ->
    flat_map (fun x => f (fst x)) (combine l1 l2) = flat_map f l1.
Proof.
  induction l1 as [|a l1 IH]; intros [|b l2] H; try discriminate; [reflexivity|].
  cbn. f_equal. apply IH. injection H as H. exact H.
Qed.

Lemma combine_fst_In {A B} (l1 : list A) (l2 : list B) (x : A * B) :
  In x (combine l1 l2) -> In (fst x) l1.
Proof. destruct x. apply in_combine_l. Qed.

(** C4.  The weighted-sum cost of a point is the sum, over the locations
    whose lookup succeeds and in their order, of the route time times the
    weight, cut to an integer: [0] when that sum is not positive, its integer
    part otherwise (an exception when it is infinite).  The min-max cost is
    the largest of the route times of the successful lookups, [0] when there
    is none.  A failed lookup is passed over, it stands neither for an
    infinite nor for a zero time; every location is looked up once.  Both
    costs are integers that are not negative, and both are [0] when every
    lookup fails.  (The route times are assumed to fit a [float].) *)
Theorem cost_evaluation (p : point) (cs : list point) (ws : option (list float)) :
  (forall c t, In c cs -> route_time (round_point p) (round_point c) = Some t ->
               float_of_int t <> None) ->
  let weights := effective_weights (length cs) ws in
  (forall l, ws = Some l -> length l = length cs -> weights = l) /\
  calculate_total_time p cs ws =
    (evaluation_trace p cs,
     outcome (non_negative_int (weighted_sum p cs weights))) /\
  calculate_max_time p cs =
    (evaluation_trace p cs, Ok (maximum (successful_times (round_point p) cs))) /\
  non_negative (outcome (calculate_total_time p cs ws)) /\
  non_negative (outcome (calculate_max_time p cs)) /\
  ((forall c, In c cs -> route_time (round_point p) (round_point c) = None) ->
   outcome (calculate_total_time p cs ws) = Ok 0 /\
   outcome (calculate_max_time p cs) = Ok 0).
Proof.
  intros Hfit weights.
  assert (Htotal : calculate_total_time p cs ws =
                   (evaluation_trace p cs,
                    outcome (non_negative_int (weighted_sum p cs weights)))).
  { unfold calculate_total_time, weighted_sum. fold weights.
    destruct cs as [|c cs]; [reflexivity|].
    rewrite (bind_ok _ _ _ _ (total_time_loop_eq _ _ _)).
    rewrite fold_add_weighted.
    - f_equal. unfold non_negative_int.
      destruct (0 <? _)%float; [rewrite lift_trace|cbn [trace fst ret]];
        rewrite app_nil_r; unfold evaluation_trace;
        apply (flat_map_combine_fst
                 (fun c => route_trace (round_point p) (round_point c)));
        apply effective_weights_length.
    - intros cw t Hin. apply Hfit. eapply combine_fst_In, Hin. }
  assert (Hmax : calculate_max_time p cs =
                 (evaluation_trace p cs,
                  Ok (maximum (successful_times (round_point p) cs)))).
  { unfold calculate_max_time. destruct cs as [|c cs]; [reflexivity|].
    rewrite (bind_ok _ _ _ _ (max_time_loop_eq _ _ _)).
    rewrite fold_take_max by lia.
    pose proof (maximum_nonneg (successful_times (round_point p) (c :: cs))) as N.
    cbn [trace outcome fst snd ret]. rewrite app_nil_r. unfold evaluation_trace.
    f_equal. f_equal.
    destruct (0 <? _) eqn:E; [apply Z.ltb_lt in E|apply Z.ltb_ge in E]; lia. }
  split; [intros l -> Hl; apply effective_weights_same, Hl|].
  split; [exact Htotal|]. split; [exact Hmax|].
  split; [apply calculate_total_time_nonneg|].
  split; [apply calculate_max_time_nonneg|].
  intros Hnone. rewrite Htotal, Hmax. cbn [outcome snd].
  assert (Hs : successful_times (round_point p) cs = []).
  { clear - Hnone. induction cs as [|c cs IH]; [reflexivity|].
    cbn [successful_times flat_map]. rewrite (Hnone c (or_introl eq_refl)).
    apply IH. intros c' Hin. apply Hnone. right. exact Hin. }
  assert (Hl : successful_lookups (round_point p) (combine cs weights) = []).
  { clear - Hnone. generalize weights.
    induction cs as [|c cs IH]; intros [|w l]; try reflexivity.
    cbn [combine successful_lookups flat_map fst].
    rewrite (Hnone c (or_introl eq_refl)).
    apply IH. intros c' Hin. apply Hnone. right. exact Hin. }
  unfold weighted_sum. rewrite Hs, Hl. split; reflexivity.
Qed.

(** *** What the traces hold *)

Lemma Forall_trace_bind {A B} (P : event -> Prop) (m : M A) (k : A -> M B) :
  Forall P (trace m) ->
  (forall a, outcome m = Ok a -> Forall P (trace (k a))) ->
  Forall P (trace (bind m k)).
Proof.
  intros Hm Hk. rewrite trace_bind. apply Forall_app. split; [exact Hm|].
  destruct (outcome m); [apply Hk; reflexivity|constructor..].
Qed.

Lemma Forall_trace_lift {A} (P : event -> Prop) (r : result A) :
  Forall P (trace (lift r)).
Proof. rewrite lift_trace. constructor. Qed.

Lemma route_trace_events (o d : point) :
  Forall evaluation_event (route_trace (round_point o) (round_point d)).
Proof.
  unfold route_trace.
  destruct (calculate_route _ _); [|destruct calculate_route_time];
    repeat constructor; cbn; eauto.
Qed.

Lemma route_trace_route_only (o d : point) : Forall route_only (route_trace o d).
Proof.
  unfold route_trace.
  destruct (calculate_route _ _); [|destruct calculate_route_time];
    repeat constructor.
Qed.

Lemma evaluation_trace_events (p : point) (cs : list point) :
  Forall evaluation_event (evaluation_trace p cs).
Proof.
  unfold evaluation_trace. induction cs as [|c cs IH]; [constructor|].
  cbn [flat_map]. apply Forall_app. split; [apply route_trace_events|exact IH].
Qed.

Lemma non_negative_int_trace (x : float) : trace (non_negative_int x) = [].
Proof. unfold non_negative_int. destruct (0 <? x)%float; [apply lift_trace|reflexivity]. Qed.

Lemma calculate_total_time_trace (p : point) (cs : list point)
    (ws : option (list float)) :
  trace (calculate_total_time p cs ws) = evaluation_trace p cs.
Proof.
  unfold calculate_total_time. destruct cs as [|c cs]; [reflexivity|].
  rewrite (bind_ok _ _ _ _ (total_time_loop_eq _ _ _)).
  cbn [trace fst]. rewrite non_negative_int_trace, app_nil_r.
  apply (flat_map_combine_fst (fun c => route_trace (round_point p) (round_point c))).
  apply effective_weights_length.
Qed.

Lemma calculate_max_time_trace (p : point) (cs : list point) :
  trace (calculate_max_time p cs) = evaluation_trace p cs.
Proof.
  unfold calculate_max_time. destruct cs as [|c cs]; [reflexivity|].
  rewrite (bind_ok _ _ _ _ (max_time_loop_eq _ _ _)).
  cbn [trace fst ret]. apply app_nil_r.
Qed.

Lemma calculate_pure_total_time_trace (p : point) (cs : list point) :
  trace (calculate_pure_total_time p cs) = evaluation_trace p cs.
Proof.
  unfold calculate_pure_total_time. destruct cs as [|c cs]; [reflexivity|].
  rewrite (bind_ok _ _ _ _ (pure_time_loop_eq _ _ _)).
  cbn [trace fst ret]. apply app_nil_r.
Qed.

Lemma objective_trace (alg : string) (p : pypoint) (cs : list point)
    (ws : option (list float)) :
  trace (objective alg p cs ws) = evaluation_trace (coords_of p) cs.
Proof.
  unfold objective. destruct (String.eqb alg "min_max_time").
  - apply calculate_max_time_trace.
  - apply calculate_total_time_trace.
Qed.

Lemma new_point_trace (p : pypoint) (d : Z * Z) (r : float) :
  trace (new_point p d r) = [].
Proof.
  unfold new_point, int_times_float.
  destruct (float_of_int (fst d)); [|reflexivity].
  destruct (float_of_int (snd d)); reflexivity.
Qed.

Lemma probe_events (cs : list point) (ws : option (list float)) (alg : string)
    (s : search_state) (dirs : list (Z * Z)) :
  Forall evaluation_event (trace (probe dirs cs ws alg s)).
Proof.
  induction dirs as [|d dirs IH]; [constructor|].
  cbn [probe]. destruct (direction_name d); [|constructor].
  apply Forall_trace_bind; [rewrite new_point_trace; constructor|]. intros np _.
  apply Forall_trace_bind; [rewrite objective_trace; apply evaluation_trace_events|].
  intros v _. destruct (v <? current_time s); [constructor|exact IH].
Qed.

Lemma iteration_events (cs : list point) (ws : option (list float)) (alg : string)
    (s : search_state) :
  Forall evaluation_event (trace (iteration cs ws alg s)).
Proof.
  unfold iteration. apply Forall_trace_bind; [apply probe_events|].
  intros [[np v]|] _; constructor.
Qed.

Lemma search_loop_events (cs : list point) (ws : option (list float)) (alg : string)
    (fuel : nat) :
  forall s, Forall evaluation_event (trace (search_loop fuel cs ws alg s)).
Proof.
  induction fuel as [|fuel IH]; intros s; rewrite search_loop_unfold;
    destruct (min_radius <=? radius s)%float; try constructor.
  apply Forall_trace_bind; [apply iteration_events|]. intros s' _. apply IH.
Qed.

Lemma individual_times_loop_trace (o : point) (ws : option (list float))
    (cs : list point) :
  forall i t l,
    individual_times_loop o cs i ws = (t, Ok l) -> t = flat_map (route_trace o) cs.
Proof.
  induction cs as [|c cs IH]; intros i t l H.
  - injection H as <- _. reflexivity.
  - cbn [individual_times_loop] in H.
    rewrite (bind_ok _ _ _ _ (route_lookup_eq o c)) in H.
    injection H as Ht H. rewrite outcome_bind in H.
    rewrite trace_bind in Ht. rewrite lift_trace in Ht.
    destruct (outcome (lift (subscript ws i))) as [w|e|]; try discriminate.
    rewrite outcome_bind in H. rewrite trace_bind in Ht.
    destruct (individual_times_loop o cs (S i) ws) as [t' [l'|e|]] eqn:L;
      try discriminate.
    cbn [trace outcome fst snd ret app] in Ht. rewrite app_nil_r in Ht. subst t.
    cbn [flat_map]. unfold route_trace at 1. cbn [app]. do 2 f_equal.
    eapply IH. exact L.
Qed.

Lemma individual_times_loop_events (o : point) (ws : option (list float))
    (cs : list point) :
  forall i, Forall route_only (trace (individual_times_loop o cs i ws)).
Proof.
  induction cs as [|c cs IH]; intros i; [constructor|].
  cbn [individual_times_loop].
  apply Forall_trace_bind;
    [rewrite route_lookup_eq; apply route_trace_route_only|]. intros tm _.
  apply Forall_trace_bind; [apply Forall_trace_lift|]. intros w _.
  apply Forall_trace_bind; [apply IH|]. intros l _. constructor.
Qed.

Lemma evaluation_event_route_only (t : list event) :
  Forall evaluation_event t -> Forall route_only t.
Proof. apply Forall_impl. intros e [H _]. exact H. Qed.

Lemma route_only_search_event (step : Z) (t : list event) :
  Forall route_only t -> Forall (search_event step) t.
Proof. apply Forall_impl. intros e H. left. exact H. Qed.

Lemma start_of_search_events (cs : list point) (ws : option (list float))
    (cm mcs : pyval) (xcs step : Z) (alg : string) :
  Forall (search_event step) (trace (start_of_search cs ws cm mcs xcs step alg)).
Proof.
  unfold start_of_search.
  apply Forall_trace_bind.
  - match goal with |- context [if ?b then _ else _] => destruct b end.
    + apply Forall_trace_bind.
      * unfold cluster_for_search.
        apply Forall_trace_bind; [apply Forall_trace_lift|]. intros name _.
        destruct (String.eqb name "hdbscan"); [|destruct (String.eqb name "kmeans")];
          (apply Forall_trace_bind; [apply Forall_trace_lift|]);
          intros; constructor.
      * intros [cc info] _.
        apply Forall_trace_bind; [destruct (calculate_centroid _ _); constructor|].
        intros; constructor.
    + apply Forall_trace_bind; [destruct (calculate_centroid _ _); constructor|].
      intros; constructor.
  - intros [info start] _.
    apply Forall_trace_bind.
    { rewrite objective_trace.
      apply route_only_search_event, evaluation_event_route_only,
        evaluation_trace_events. }
    intros t0 _. unfold int_times_float.
    destruct (float_of_int step) as [f|] eqn:F; [|constructor].
    rewrite bind_ret_l.
    apply Forall_trace_bind; [|intros; constructor].
    constructor; [|constructor]. right. exists f. auto.
Qed.

Lemma find_optimal_point_events (fuel : nat) (cs : list point)
    (ws : option (list float)) (cm mcs : pyval) (xcs step : Z) (alg : string) :
  Forall (search_event step) (trace (find_optimal_point fuel cs ws cm mcs xcs step alg)).
Proof.
  unfold find_optimal_point. destruct cs as [|c cs]; [constructor|].
  apply Forall_trace_bind; [apply start_of_search_events|]. intros [info start] _.
  apply Forall_trace_bind.
  { apply route_only_search_event, evaluation_event_route_only, search_loop_events. }
  intros final _.
  apply Forall_trace_bind.
  { apply route_only_search_event, individual_times_loop_events. }
  intros it _.
  apply Forall_trace_bind.
  { rewrite calculate_pure_total_time_trace.
    apply route_only_search_event, evaluation_event_route_only,
      evaluation_trace_events. }
  intros; constructor.
Qed.

Lemma clustered_search_events (fuel : nat) (cs : list point)
    (ws : option (list float)) (method : string) (param step : Z) (alg : string) :
  Forall (search_event 100)
    (trace (find_optimal_point_with_clustering fuel cs ws method param step alg)).
Proof.
  unfold find_optimal_point_with_clustering. destruct cs as [|c cs]; [constructor|].
  destruct (negb _); [constructor|].
  apply Forall_trace_bind; [apply Forall_trace_lift|]. intros cl _.
  destruct cl as [|cl0 cl]; [constructor|].
  apply Forall_trace_bind; [apply Forall_trace_lift|]. intros [cc cw] _.
  destruct cc as [|c0 cc]; [constructor|].
  apply Forall_trace_bind; [apply find_optimal_point_events|]. intros [result|] _;
    [|constructor].
  apply Forall_trace_bind.
  { rewrite objective_trace.
    apply route_only_search_event, evaluation_event_route_only,
      evaluation_trace_events. }
  intros total _.
  apply Forall_trace_bind.
  { apply route_only_search_event, individual_times_loop_events. }
  intros it _.
  apply Forall_trace_bind.
  { rewrite calculate_pure_total_time_trace.
    apply route_only_search_event, evaluation_event_route_only,
      evaluation_trace_events. }
  intros; constructor.
Qed.

Lemma radius_writes_In (t : list event) (r : float) :
  In r (radius_writes t) <-> In (SetSearchRadius r) t.
Proof.
  unfold radius_writes. rewrite in_flat_map. split.
  - intros ([o d|o d|r'] & Hin & Hr); cbn in Hr; try tauto.
    destruct Hr as [->|[]]. exact Hin.
  - intros H. exists (SetSearchRadius r). split; [exact H|left; reflexivity].
Qed.

Lemma search_event_radius (step : Z) (t : list event) (r : float) :
  Forall (search_event step) t -> In r (radius_writes t) ->
  exists f, float_of_int step = Some f /\ r = (f * 0.000009)%float.
Proof.
  intros H Hin. apply radius_writes_In in Hin.
  rewrite Forall_forall in H. destruct (H _ Hin) as [Hr|(f & Hf & E)].
  - discriminate Hr.
  - exists f. split; [exact Hf|congruence].
Qed.

Lemma start_of_search_state (cs : list point) (ws : option (list float))
    (cm mcs : pyval) (xcs step : Z) (alg : string)
    (t : list event) (info : option clustering_info) (s : search_state) :
  start_of_search cs ws cm mcs xcs step alg = (t, Ok (info, s)) ->
  exists f, float_of_int step = Some f /\ radius s = (f * 0.000009)%float /\
            In (SetSearchRadius (radius s)) t.
Proof.
  unfold start_of_search. intros H.
  apply bind_inv_ok in H. destruct H as (t1 & [info' start] & t2 & _ & H & ->).
  apply bind_inv_ok in H. destruct H as (t3 & t0 & t4 & _ & H & ->).
  apply bind_inv_ok in H. destruct H as (t5 & r & t6 & Hr & H & ->).
  apply bind_inv_ok in H. destruct H as (t7 & [] & t8 & Ht & H & ->).
  injection H as _ _ <-. injection Ht as <-. cbn [radius].
  unfold int_times_float in Hr.
  destruct (float_of_int step) as [f|] eqn:F; [|discriminate].
  injection Hr as _ <-. exists f. repeat split.
  rewrite !in_app_iff. do 3 right. left. left. reflexivity.
Qed.

(** C6.  A search called with the step [search_step] starts from the radius
    [search_step * 0.000009] and stores it in [self.search_radius]; the loop
    goes on as long as the radius is at least [min_radius].  The clustered
    search does not: whatever step it is called with, the only radius it
    stores and starts from is [100 * 0.000009], since it hands its step to
    [find_optimal_point] in the place of [clustering_method].  Called with a
    step of 200 metres it starts from 0.0009 degrees, where the search itself
    starts from 0.0018. *)
Theorem initial_radius :
  (forall cs ws cm mcs xcs step alg t info s,
      start_of_search cs ws cm mcs xcs step alg = (t, Ok (info, s)) ->
      exists f, float_of_int step = Some f /\ radius s = (f * 0.000009)%float /\
                In (SetSearchRadius (radius s)) t) /\
  (forall fuel cs ws cm mcs xcs step alg r,
      In r (radius_writes (trace (find_optimal_point fuel cs ws cm mcs xcs step alg))) ->
      exists f, float_of_int step = Some f /\ r = (f * 0.000009)%float) /\
  (forall fuel cs ws alg s,
      search_loop fuel cs ws alg s =
      if (min_radius <=? radius s)%float then
        match fuel with
        | O => ([], OutOfFuel)
        | S fuel' =>
            s' <- iteration cs ws alg s ;;
            search_loop fuel' cs ws alg s'
        end
      else ret s) /\
  (forall fuel cs ws method param step alg r,
      In r (radius_writes
              (trace (find_optimal_point_with_clustering fuel cs ws method param
                        step alg))) ->
      r = (100 * 0.000009)%float) /\
  radius_writes
    (trace (@find_optimal_point_with_clustering Reference.runtime
              (Reference.constant_api 60) 20 [(0, 0)%float] (Some [1%float])
              "hdbscan" 5 200 "total_cost")) = [(100 * 0.000009)%float] /\
  radius_writes
    (trace (@find_optimal_point Reference.runtime (Reference.constant_api 60) 20
              [(0, 0)%float] (Some [1%float]) PyNone (PyInt 5) 10 200 "total_cost"))
    = [(200 * 0.000009)%float] /\
  (100 * 0.000009 =? 200 * 0.000009)%float = false.
Proof.
  split; [apply start_of_search_state|].
  split; [intros; eapply search_event_radius;
          [apply find_optimal_point_events|eassumption]|].
  split; [intros; apply search_loop_unfold|].
  split.
  - intros fuel cs ws method param step alg r H.
    destruct (search_event_radius 100 _ r (clustered_search_events _ _ _ _ _ _ _) H)
      as (f & Hf & ->).
    vm_compute in Hf. injection Hf as <-. reflexivity.
  - repeat split; vm_compute; reflexivity.
Qed.

Lemma route_trace_head (o d : point) : In (RouteCall o d) (route_trace o d).
Proof. left. reflexivity. Qed.

(** C9.  A cost evaluation, and so the whole probing loop, calls the provider
    on rounded points only.  The pass that fills [individual_times] does not
    round: it hands every location to the provider as the caller gave it, in
    a search as in a clustered search.  For the location
    [(0.1234567, 0)] the call of that pass is the one call of the search
    whose destination is not rounded. *)
Theorem oracle_arguments :
  (forall alg p cs ws, Forall evaluation_event (trace (objective alg p cs ws))) /\
  (forall fuel cs ws alg s,
      Forall evaluation_event (trace (search_loop fuel cs ws alg s))) /\
  (forall fuel cs ws cm mcs xcs step alg t r,
      find_optimal_point fuel cs ws cm mcs xcs step alg = (t, Ok (Some r)) ->
      forall c, In c cs -> In (RouteCall (coords_of (optimal_point r)) c) t) /\
  (forall fuel cs ws method param step alg t r,
      find_optimal_point_with_clustering fuel cs ws method param step alg = (t, Ok r) ->
      forall c, In c cs -> In (RouteCall (coords_of (optimal_point r)) c) t) /\
  filter (@unrounded_destination Reference.runtime)
    (trace (@find_optimal_point Reference.runtime (Reference.constant_api 60) 20
              [(0.1234567, 0)%float] (Some [1%float]) PyNone (PyInt 5) 10 100
              "total_cost")) =
  [RouteCall (0.123457, 0)%float (0.1234567, 0)%float].
Proof.
  split; [intros; rewrite objective_trace; apply evaluation_trace_events|].
  split; [intros; apply search_loop_events|].
  split; [|split].
  - intros fuel cs ws cm mcs xcs step alg t r H c Hc.
    unfold find_optimal_point in H. destruct cs as [|c0 cs]; [destruct Hc|].
    apply bind_inv_ok in H. destruct H as (t1 & [info start] & t2 & _ & H & ->).
    apply bind_inv_ok in H. destruct H as (t3 & final & t4 & _ & H & ->).
    apply bind_inv_ok in H. destruct H as (t5 & it & t6 & Hi & H & ->).
    apply bind_inv_ok in H. destruct H as (t7 & pt & t8 & _ & H & ->).
    injection H as _ <-. cbn [optimal_point].
    apply individual_times_loop_trace in Hi. subst t5.
    rewrite !in_app_iff. right. right. left.
    apply in_flat_map. exists c. split; [exact Hc|apply route_trace_head].
  - intros fuel cs ws method param step alg t r H c Hc.
    unfold find_optimal_point_with_clustering in H.
    destruct cs as [|c0 cs]; [destruct Hc|].
    destruct (negb _); [discriminate|].
    apply bind_inv_ok in H. destruct H as (t1 & cl & t2 & _ & H & ->).
    destruct cl as [|cl0 cl]; [discriminate|].
    apply bind_inv_ok in H. destruct H as (t3 & [cc cw] & t4 & _ & H & ->).
    destruct cc as [|cc0 cc]; [discriminate|].
    apply bind_inv_ok in H. destruct H as (t5 & found & t6 & _ & H & ->).
    destruct found as [result|]; [|discriminate].
    apply bind_inv_ok in H. destruct H as (t7 & total & t8 & _ & H & ->).
    apply bind_inv_ok in H. destruct H as (t9 & it & t10 & Hi & H & ->).
    apply bind_inv_ok in H. destruct H as (t11 & pt & t12 & _ & H & ->).
    injection H as _ <-. cbn [optimal_point].
    apply individual_times_loop_trace in Hi. subst t9.
    rewrite !in_app_iff. do 4 right. left.
    apply in_flat_map. exists c. split; [exact Hc|apply route_trace_head].
  - vm_compute. reflexivity.
Qed.

(** *** The checks on the input *)

Lemma weightless_centroid (cl : list point * list float) :
  proper_cluster cl -> (np_sum (snd cl) =? 0)%float = true ->
  exists p, calculate_centroid (fst cl) (Some (snd cl)) = Centroid (PArray p).
Proof.
  intros [Hne Hlen] Hz. unfold calculate_centroid.
  destruct (fst cl) as [|c l] eqn:E; [congruence|].
  rewrite (effective_weights_same _ _ Hlen), Hz. eexists. reflexivity.
Qed.

Lemma cluster_centroids_loop_weightless (clusters : list (list point * list float)) :
  Exists (fun cl => proper_cluster cl /\ (np_sum (snd cl) =? 0)%float = true) clusters ->
  cluster_centroids_loop clusters = Error ambiguous_truth_value.
Proof.
  induction clusters as [|[coords wl] clusters IH]; intros H;
    [inversion H|].
  assert (Step : Exists (fun cl => proper_cluster cl /\
                                   (np_sum (snd cl) =? 0)%float = true) clusters ->
                 cluster_centroids_loop ((coords, wl) :: clusters)
                 = Error ambiguous_truth_value).
  { intros H'. cbn [cluster_centroids_loop].
    destruct coords as [|c coords]; [exact (IH H')|].
    destruct (calculate_centroid (c :: coords) (Some wl)) as [|[q|q]];
      [exact (IH H')| |reflexivity].
    rewrite (IH H'). reflexivity. }
  inversion H as [cl l [Hp Hz]|cl l H']; subst; [|exact (Step H')].
  destruct (weightless_centroid _ Hp Hz) as [q Hq]. cbn [fst snd] in Hq.
  cbn [cluster_centroids_loop].
  destruct coords as [|c coords]; [destruct Hp as [Hp _]; cbn in Hp; congruence|].
  rewrite Hq. reflexivity.
Qed.

Lemma combine_append {A B} (l1 l1' : list A) (l2 l2' : list B) :
  length l2 = length l1 ->
  combine (l1 ++ l1') (l2 ++ l2') = combine l1 l2 ++ combine l1' l2'.
Proof.
  revert l2. induction l1 as [|a l1 IH]; intros [|b l2] H; try discriminate.
  - reflexivity.
  - cbn. f_equal. apply IH. injection H as H. exact H.
Qed.

Lemma group_append_proper (label : Z) (c : point) (w : float) (g : groups) :
  Forall (fun e => proper_cluster (snd e)) g ->
  Forall (fun e => proper_cluster (snd e)) (group_append label c w g) /\
  Permutation (flat_map (fun e => members (snd e)) (group_append label c w g))
    (flat_map (fun e => members (snd e)) g ++ [(c, w)]) /\
  group_append label c w g <> [].
Proof.
  induction g as [|[l [cs ws]] g IH]; intros F.
  - cbn. repeat split; try discriminate; auto.
    constructor; [|constructor]. split; [discriminate|reflexivity].
  - inversion F as [|e g' [Hne Hlen] F']; subst. cbn [fst snd] in Hne, Hlen.
    cbn [group_append]. destruct (l =? label).
    + split; [|split; [|discriminate]].
      * constructor; [|exact F']. split; cbn [fst snd].
        -- destruct cs; discriminate.
        -- rewrite !length_app. cbn. lia.
      * cbn [flat_map snd]. unfold members at 1 3. cbn [fst snd].
        rewrite combine_append by exact Hlen. cbn [combine].
        rewrite <- !app_assoc. apply Permutation_app_head.
        apply Permutation_app_comm.
    + destruct (IH F') as (F1 & P1 & _). split; [|split; [|discriminate]].
      * constructor; [split; assumption|exact F1].
      * cbn [flat_map snd]. rewrite <- app_assoc.
        apply Permutation_app_head. exact P1.
Qed.

Lemma calculate_centroid_some (cs : list point) (ws : option (list float)) :
  cs <> [] -> exists p, calculate_centroid cs ws = Centroid p.
Proof.
  intros H. unfold calculate_centroid. destruct cs as [|c cs]; [congruence|].
  destruct (_ =? 0)%float; eexists; reflexivity.
Qed.

Lemma start_of_search_asks (cs : list point) (ws : option (list float))
    (cm mcs : pyval) (xcs step : Z) (alg : string) :
  cs <> [] -> (length cs <= cluster_threshold)%nat ->
  exists start t,
    calculate_centroid cs ws = Centroid start /\
    trace (start_of_search cs ws cm mcs xcs step alg) =
    evaluation_trace (coords_of start) cs ++ t.
Proof.
  intros Hne H. destruct (calculate_centroid_some cs ws Hne) as [start C].
  exists start. unfold start_of_search.
  assert (E : (cluster_threshold <? length cs)%nat = false)
    by (apply Nat.ltb_ge; exact H).
  rewrite E, !andb_false_r, C. cbn [centroid_point].
  rewrite !bind_ret_l, trace_bind, objective_trace.
  eexists. split; reflexivity.
Qed.

Lemma find_optimal_point_asks (fuel : nat) (cs : list point)
    (ws : option (list float)) (cm mcs : pyval) (xcs step : Z) (alg : string) :
  cs <> [] -> (length cs <= cluster_threshold)%nat ->
  exists start t,
    calculate_centroid cs ws = Centroid start /\
    trace (find_optimal_point fuel cs ws cm mcs xcs step alg) =
    evaluation_trace (coords_of start) cs ++ t.
Proof.
  intros Hne H.
  destruct (start_of_search_asks cs ws cm mcs xcs step alg Hne H) as (start & t & C & T).
  exists start. unfold find_optimal_point.
  destruct cs as [|c cs]; [congruence|].
  rewrite trace_bind, T, <- app_assoc. eexists. split; [exact C|reflexivity].
Qed.

Lemma evaluation_trace_calls (p : point) (cs : list point) (t : list event) :
  cs <> [] -> oracle_calls (evaluation_trace p cs ++ t) <> [].
Proof.
  destruct cs as [|c cs]; [congruence|]. intros _.
  unfold evaluation_trace. cbn [flat_map]. unfold route_trace at 1.
  cbn [app oracle_calls filter is_route_event]. discriminate.
Qed.

Lemma cluster_centroids_loop_weighted (clusters : list (list point * list float)) :
  Forall (fun cl => proper_cluster cl /\ (np_sum (snd cl) =? 0)%float = false) clusters ->
  exists centroids,
    cluster_centroids_loop clusters =
      Value (centroids, map (fun cl => py_sum (snd cl)) clusters) /\
    map (fun c => Centroid (PTuple c)) centroids =
      map (fun cl => calculate_centroid (fst cl) (Some (snd cl))) clusters.
Proof.
  induction 1 as [|[coords wl] clusters [[Hne Hlen] Hz] _ (centroids & IH & IHc)].
  - exists []. split; reflexivity.
  - cbn [fst snd] in Hne, Hlen, Hz.
    assert (C : exists c, calculate_centroid coords (Some wl) = Centroid (PTuple c)).
    { unfold calculate_centroid. destruct coords as [|c0 coords]; [congruence|].
      rewrite (effective_weights_same _ _ Hlen), Hz. eexists. reflexivity. }
    destruct C as [c C]. exists (c :: centroids).
    cbn [cluster_centroids_loop map fst snd].
    destruct coords as [|c0 coords]; [congruence|].
    rewrite C, IH, IHc. split; reflexivity.
Qed.
Lemma group_by_label_proper (cs : list point) (ws : option (list float))
    (labels : list Z) :
  forall i g g',
    group_by_label labels i cs ws g = Value g' ->
    Forall (fun e => proper_cluster (snd e)) g ->
    Forall (fun e => proper_cluster (snd e)) g'.
Proof.
  induction labels as [|label labels IH]; intros i g g' H F.
  - injection H as <-. exact F.
  - cbn [group_by_label] in H.
    destruct (nth_error cs i) as [c|]; [|discriminate].
    destruct (subscript ws i) as [w|e]; [|discriminate].
    cbn [rbind] in H. apply (IH _ _ _ H).
    apply group_append_proper. exact F.
Qed.

Lemma perform_clustering_proper (cs : list point) (ws : list float)
    (method : string) (param : Z) (clusters : list (list point * list float)) :
  length ws = length cs ->
  _perform_clustering cs ws method param = Value clusters ->
  Forall proper_cluster clusters.
Proof.
  intros Hlen. unfold _perform_clustering.
  destruct cs as [|c cs]; [intros [= <-]; constructor|].
  assert (One : Forall proper_cluster [(c :: cs, ws)]).
  { constructor; [|constructor]. split; [discriminate|exact Hlen]. }
  assert (Grouped : forall labels,
             (cluster_dict <-? group_by_label labels 0 (c :: cs) (Some ws) [] ;;
              Value (map snd cluster_dict)) = Value clusters ->
             Forall proper_cluster clusters).
  { intros labels H.
    destruct (group_by_label labels 0 (c :: cs) (Some ws) []) as [g|e] eqn:G;
      [|discriminate].
    injection H as <-. apply Forall_map.
    apply (group_by_label_proper _ _ _ _ _ _ G). constructor. }
  destruct (String.eqb (lower method) "hdbscan").
  - destruct (_ <? _); [intros [= <-]; exact One|apply Grouped].
  - destruct (String.eqb (lower method) "kmeans"); [|intros [= <-]; exact One].
    destruct (_ <=? _); [intros [= <-]; exact One|apply Grouped].
Qed.

(** C7, as the code has it.  A search over no location stops before it asks
    the provider anything: [find_optimal_point] returns [None] and
    [find_optimal_point_with_clustering] raises a [ValueError] that says so.
    [find_optimal_point_with_clustering] also raises a [ValueError] that
    says so, before any provider call, when the weights are not as many as
    the locations.  Nothing else is checked.  [find_optimal_point] over
    twenty locations or fewer asks the provider for the routes from the
    centroid whatever the weights and the step are, so it never stops before
    a provider call.  [find_optimal_point_with_clustering] stops before a
    provider call when the weights of a cluster add up to zero, with the
    [ValueError] that numpy raises on the truth value of an array; when no
    cluster is such, and there are twenty clusters or fewer, it asks the
    provider, whatever the signs of the weights and of the step are. *)
Theorem input_checks :
  (forall fuel ws cm mcs xcs step alg,
      find_optimal_point fuel [] ws cm mcs xcs step alg = ([], Ok None)) /\
  (forall fuel ws method param step alg,
      find_optimal_point_with_clustering fuel [] ws method param step alg =
      ([], Raise (ValueError "坐标列表不能为空"))) /\
  (forall fuel cs ws method param step alg,
      cs <> [] -> length ws <> length cs ->
      find_optimal_point_with_clustering fuel cs (Some ws) method param step alg =
      ([], Raise (ValueError "坐标列表和权重列表长度必须一致")) /\
      fails_fast (find_optimal_point_with_clustering fuel cs (Some ws) method param
                    step alg)) /\
  (forall fuel cs ws cm mcs xcs step alg,
      cs <> [] -> (length cs <= cluster_threshold)%nat ->
      (exists start t,
          calculate_centroid cs ws = Centroid start /\
          trace (find_optimal_point fuel cs ws cm mcs xcs step alg) =
          evaluation_trace (coords_of start) cs ++ t) /\
      oracle_calls (trace (find_optimal_point fuel cs ws cm mcs xcs step alg)) <> [] /\
      ~ fails_fast (find_optimal_point fuel cs ws cm mcs xcs step alg)) /\
  (forall fuel cs ws method param step alg clusters,
      length ws = length cs ->
      _perform_clustering cs ws method param = Value clusters ->
      (Exists (fun cl => (np_sum (snd cl) =? 0)%float = true) clusters ->
       find_optimal_point_with_clustering fuel cs (Some ws) method param step alg =
       ([], Raise ambiguous_truth_value) /\
       fails_fast (find_optimal_point_with_clustering fuel cs (Some ws) method param
                     step alg)) /\
      (clusters <> [] -> (length clusters <= cluster_threshold)%nat ->
       Forall (fun cl => (np_sum (snd cl) =? 0)%float = false) clusters ->
       oracle_calls (trace (find_optimal_point_with_clustering fuel cs (Some ws) method
                              param step alg)) <> [] /\
       ~ fails_fast (find_optimal_point_with_clustering fuel cs (Some ws) method param
                       step alg))).
Proof.
  split; [reflexivity|]. split; [reflexivity|]. split; [|split].
  - intros fuel cs ws method param step alg Hne Hlen.
    assert (E : find_optimal_point_with_clustering fuel cs (Some ws) method param step alg =
                ([], Raise (ValueError "坐标列表和权重列表长度必须一致"))).
    { unfold find_optimal_point_with_clustering.
      destruct cs as [|c cs]; [congruence|].
      replace (length (c :: cs) =? length ws)%nat with false; [reflexivity|].
      symmetry. apply Nat.eqb_neq. congruence. }
    split; [exact E|]. rewrite E. split; [eexists|]; reflexivity.
  - intros fuel cs ws cm mcs xcs step alg Hne H.
    destruct (find_optimal_point_asks fuel cs ws cm mcs xcs step alg Hne H)
      as (start & t & C & T).
    assert (O : oracle_calls (trace (find_optimal_point fuel cs ws cm mcs xcs step alg))
                <> []) by (rewrite T; apply evaluation_trace_calls, Hne).
    split; [exists start, t; split; assumption|].
    split; [exact O|]. intros [_ F]. exact (O F).
  - intros fuel cs ws method param step alg clusters Hlen Hc.
    pose proof (perform_clustering_proper _ _ _ _ _ Hlen Hc) as Hp.
    rewrite Forall_forall in Hp. split.
    + intros Hex0.
      assert (Hex : Exists (fun cl => proper_cluster cl /\
                                      (np_sum (snd cl) =? 0)%float = true) clusters).
      { apply Exists_exists in Hex0. destruct Hex0 as (cl & Hin & Hz).
        apply Exists_exists. exists cl. auto. }
      assert (E : find_optimal_point_with_clustering fuel cs (Some ws) method param step
                    alg = ([], Raise ambiguous_truth_value)).
      { unfold find_optimal_point_with_clustering. destruct cs as [|c cs].
        - cbn in Hc. injection Hc as <-. inversion Hex.
        - rewrite <- Hlen, Nat.eqb_refl. cbn [negb]. rewrite Hc.
          change (lift (Value clusters)) with (ret clusters). rewrite bind_ret_l.
          destruct clusters as [|cl clusters]; [inversion Hex|].
          rewrite (cluster_centroids_loop_weightless _ Hex). reflexivity. }
      split; [exact E|]. rewrite E. split; [eexists|]; reflexivity.
    + intros Hne Hn Hall0.
      assert (Hall : Forall (fun cl => proper_cluster cl /\
                                       (np_sum (snd cl) =? 0)%float = false) clusters).
      { rewrite Forall_forall in Hall0. apply Forall_forall. auto. }
      destruct (cluster_centroids_loop_weighted _ Hall) as (centroids & L & Lc).
      assert (Hcl : length centroids = length clusters).
      { rewrite <- (length_map (fun c => Centroid (PTuple c))), Lc. apply length_map. }
      assert (Hcne : centroids <> []).
      { intros ->. destruct clusters; [congruence|discriminate]. }
      assert (O : oracle_calls
                    (trace (find_optimal_point_with_clustering fuel cs (Some ws) method
                              param step alg)) <> []).
      { unfold find_optimal_point_with_clustering. destruct cs as [|c cs].
        - cbn in Hc. injection Hc as <-. congruence.
        - rewrite <- Hlen, Nat.eqb_refl. cbn [negb]. rewrite Hc.
          change (lift (Value clusters)) with (ret clusters). rewrite bind_ret_l.
          destruct clusters as [|cl clusters]; [congruence|].
          rewrite L.
          change (lift (Value (centroids, map (fun cl => py_sum (snd cl)) (cl :: clusters))))
            with (ret (centroids, map (fun cl => py_sum (snd cl)) (cl :: clusters))).
          rewrite bind_ret_l.
          destruct centroids as [|c0 centroids]; [congruence|].
          rewrite trace_bind.
          destruct (find_optimal_point_asks fuel (c0 :: centroids)
                      (Some (map (fun cl => py_sum (snd cl)) (cl :: clusters)))
                      (PyInt step) (PyStr alg) 10 100 "total_cost" Hcne)
            as (start & t & _ & T); [rewrite Hcl; exact Hn|].
          rewrite T, <- app_assoc. apply evaluation_trace_calls, Hcne. }
      split; [exact O|]. intros [_ F]. exact (O F).
Qed.

(** *** Clustering below the cluster size *)

Lemma clusters_of_result (fuel : nat) (cs : list point) (weights : option (list float))
    (method : string) (param step : Z) (alg : string) (t : list event)
    (r : search_result) :
  find_optimal_point_with_clustering fuel cs weights method param step alg = (t, Ok r) ->
  let ws := match weights with
            | None => repeat 1%float (length cs)
            | Some ws => ws
            end in
  exists cl, _perform_clustering cs ws method param = Value cl /\
             clusters r = Some cl /\ cluster_count r = Some (length cl).
Proof.
  intros H ws. unfold find_optimal_point_with_clustering in H.
  destruct cs as [|c cs]; [discriminate|].
  fold ws in H.
  destruct (negb (length (c :: cs) =? length ws)%nat); [discriminate|].
  apply bind_inv_ok in H. destruct H as (t1 & cl & t2 & Hc & H & _).
  exists cl.
  destruct (_perform_clustering (c :: cs) ws method param) as [cl'|e]; [|discriminate].
  injection Hc as _ ->.
  destruct cl as [|cl0 cl]; [discriminate|].
  apply bind_inv_ok in H. destruct H as (t3 & [cc cw] & t4 & _ & H & _).
  destruct cc as [|c0 cc]; [discriminate|].
  apply bind_inv_ok in H. destruct H as (t5 & found & t6 & _ & H & _).
  destruct found as [result|]; [|discriminate].
  apply bind_inv_ok in H. destruct H as (t7 & total & t8 & _ & H & _).
  apply bind_inv_ok in H. destruct H as (t9 & it & t10 & _ & H & _).
  apply bind_inv_ok in H. destruct H as (t11 & pt & t12 & _ & H & _).
  injection H as _ <-. repeat split.
Qed.

(** C8, as the code has it.  [apply_hdbscan] with fewer points than the
    minimum cluster size, and [apply_capacity_kmeans] with at most as many
    points as the maximum cluster size, return the points as they are: as
    many centres as points, the i-th with the coordinates and the weight of
    the i-th point.  [_perform_clustering] under the same conditions returns
    one cluster that holds all the points and all the weights, and that is
    what a clustered search then reports.  The clustered search goes on with
    that one cluster: when its weights add up to zero it stops with the
    [ValueError] of numpy before any search; otherwise it searches over one
    location, the weighted centroid of the points with the sum of their
    weights, and the point and the log it reports are those of that
    search. *)
Theorem clustering_below_size :
  (forall cs ws m,
      length ws = length cs -> Z.of_nat (length cs) < m ->
      apply_hdbscan cs (Some ws) (PyInt m) =
        Value (map (fun cw => (PTuple (fst cw), snd cw)) (combine cs ws)) /\
      length (combine cs ws) = length cs) /\
  (forall cs ws m,
      length ws = length cs -> Z.of_nat (length cs) <= m ->
      apply_capacity_kmeans cs (Some ws) m =
        Value (map (fun cw => (PTuple (fst cw), snd cw)) (combine cs ws)) /\
      length (combine cs ws) = length cs) /\
  (forall cs ws method param,
      cs <> [] ->
      (lower method = "hdbscan"%string /\
       Z.of_nat (length cs) < (if 0 <? param then param else 5)) \/
      (lower method = "kmeans"%string /\
       Z.of_nat (length cs) <= (if 0 <? param then param else 10)) ->
      _perform_clustering cs ws method param = Value [(cs, ws)]) /\
  (forall fuel cs ws method param step alg t r,
      (lower method = "hdbscan"%string /\
       Z.of_nat (length cs) < (if 0 <? param then param else 5)) \/
      (lower method = "kmeans"%string /\
       Z.of_nat (length cs) <= (if 0 <? param then param else 10)) ->
      find_optimal_point_with_clustering fuel cs (Some ws) method param step alg =
        (t, Ok r) ->
      clusters r = Some [(cs, ws)] /\ cluster_count r = Some 1%nat) /\
  (forall fuel cs ws method param step alg,
      cs <> [] -> length ws = length cs ->
      (lower method = "hdbscan"%string /\
       Z.of_nat (length cs) < (if 0 <? param then param else 5)) \/
      (lower method = "kmeans"%string /\
       Z.of_nat (length cs) <= (if 0 <? param then param else 10)) ->
      let total_weight := np_sum ws in
      let weighted := np_sum_axis0 (map scale (combine cs ws)) in
      let centre := (round6 (fst weighted / total_weight),
                     round6 (snd weighted / total_weight))%float in
      let search := find_optimal_point fuel [centre] (Some [py_sum ws])
                      (PyInt step) (PyStr alg) 10 100 "total_cost" in
      let clustered := find_optimal_point_with_clustering fuel cs (Some ws) method
                         param step alg in
      ((total_weight =? 0)%float = true ->
       clustered = ([], Raise ambiguous_truth_value)) /\
      ((total_weight =? 0)%float = false ->
       (exists t, trace clustered = trace search ++ t) /\
       (forall e, outcome search = Raise e -> clustered = (trace search, Raise e)) /\
       (forall t r, clustered = (t, Ok r) ->
          exists t1 r1,
            search = (t1, Ok (Some r1)) /\
            optimal_point r = optimal_point r1 /\
            calculation_logs r = calculation_logs r1))).
Proof.
  assert (P : forall cs ws method param,
             cs <> [] ->
             (lower method = "hdbscan"%string /\
              Z.of_nat (length cs) < (if 0 <? param then param else 5)) \/
             (lower method = "kmeans"%string /\
              Z.of_nat (length cs) <= (if 0 <? param then param else 10)) ->
             _perform_clustering cs ws method param = Value [(cs, ws)]).
  { intros cs ws method param Hne H. unfold _perform_clustering.
    destruct cs as [|c cs]; [congruence|].
    destruct H as [[-> H]|[-> H]]; cbn [String.eqb Ascii.eqb Bool.eqb andb].
    - apply Z.ltb_lt in H. rewrite H. reflexivity.
    - apply Z.leb_le in H. rewrite H. reflexivity. }
  split; [|split; [|split; [|split]]].
  - intros cs ws m Hl Hm. split.
    + unfold apply_hdbscan. apply Z.ltb_lt in Hm. rewrite Hm. reflexivity.
    + rewrite length_combine. lia.
  - intros cs ws m Hl Hm. split.
    + unfold apply_capacity_kmeans. apply Z.leb_le in Hm. rewrite Hm. reflexivity.
    + rewrite length_combine. lia.
  - exact P.
  - intros fuel cs ws method param step alg t r Hb H0.
    destruct (clusters_of_result _ _ _ _ _ _ _ _ _ H0) as (cl & Hc & Hr & Hn).
    rewrite P in Hc; [|intros ->; discriminate|assumption].
    injection Hc as <-. split; assumption.
  - intros fuel cs ws method param step alg Hne Hlen Hb
      total_weight weighted centre search clustered.
    destruct cs as [|c cs]; [congruence|].
    assert (C : calculate_centroid (c :: cs) (Some ws) =
                if (total_weight =? 0)%float
                then Centroid (PArray (np_mean_axis0 (c :: cs)))
                else Centroid (PTuple centre)).
    { unfold calculate_centroid. rewrite (effective_weights_same ws _ Hlen).
      reflexivity. }
    assert (E : clustered =
                ('(cluster_centroids, cluster_weights) <-
                   lift (cluster_centroids_loop [(c :: cs, ws)]) ;;
                 match cluster_centroids with
                 | [] => raise (ValueError "无法计算簇重心，请检查聚类结果")
                 | _ =>
                     found <- find_optimal_point fuel cluster_centroids
                                (Some cluster_weights) (PyInt step) (PyStr alg) 10 100
                                "total_cost" ;;
                     match found with
                     | None => raise TypeError
                     | Some result =>
                         total_time <- objective alg (optimal_point result) (c :: cs)
                                         (Some ws) ;;
                         individual_times <-
                           individual_times_loop (coords_of (optimal_point result))
                             (c :: cs) 0 (Some ws) ;;
                         pure_total_time <-
                           calculate_pure_total_time (coords_of (optimal_point result))
                             (c :: cs) ;;
                         ret {| optimal_point := optimal_point result;
                                total_time := total_time;
                                pure_total_time := pure_total_time;
                                clustering_info_of := clustering_info_of result;
                                calculation_logs := calculation_logs result;
                                individual_times := individual_times;
                                clusters := Some [(c :: cs, ws)];
                                cluster_count := Some 1%nat;
                                clustering_method := Some method;
                                clustering_param := Some param |}
                     end
                 end)).
    { unfold clustered, find_optimal_point_with_clustering.
      rewrite <- Hlen, Nat.eqb_refl. cbn [negb].
      rewrite (P (c :: cs) ws method param Hne Hb).
      change (lift (Value [(c :: cs, ws)])) with (ret [(c :: cs, ws)]).
      rewrite bind_ret_l. reflexivity. }
    cbn [cluster_centroids_loop] in E. rewrite C in E. split.
    + intros Hz. rewrite Hz in E. exact E.
    + intros Hz. rewrite Hz in E. cbn [rbind] in E.
      change (lift (Value ([centre], [py_sum ws]))) with (ret ([centre], [py_sum ws])) in E.
      rewrite bind_ret_l in E. cbv beta iota in E.
      fold search in E. split; [|split].
      * rewrite E, trace_bind. eexists. reflexivity.
      * intros e He. rewrite E, (M_eta search), He. reflexivity.
      * intros t r Hr. rewrite E in Hr.
        apply bind_inv_ok in Hr. destruct Hr as (t1 & found & t2 & Hs & Hr & _).
        destruct found as [r1|]; [|discriminate].
        exists t1, r1. split; [exact Hs|].
        apply bind_inv_ok in Hr. destruct Hr as (t3 & total & t4 & _ & Hr & _).
        apply bind_inv_ok in Hr. destruct Hr as (t5 & it & t6 & _ & Hr & _).
        apply bind_inv_ok in Hr. destruct Hr as (t7 & pt & t8 & _ & Hr & _).
        injection Hr as _ <-. split; reflexivity.
Qed.

End Claims.

(** * The properties at work

    Runs on the reference collaborators: an instance of every property that
    has a premise, and the inputs on which a sentence of the specification
    does not hold. *)

Section Runs.
Import Reference.
Local Open Scope float_scope.

(** On the street grid the first point probed from [between_towns], the one
    the loop calls East, lies to the north and is no better; the second,
    which it calls North, lies to the east, towards the heavier town, and is
    better: the iteration moves there and keeps the radius. *)
Lemma probing_iteration_witness :
  outcome (@iteration runtime grid_api two_towns (Some [1; 3]) "total_cost" between_towns)
  = Ok {| current_point := PTuple (40, -72.4991);
          current_time := 499817;
          radius := 0.0009;
          iteration_count := 1 |}.
Proof.
  rewrite (proj1 (proj2 (proj2 (proj2
             (@probing_iteration runtime grid_api two_towns (Some [1; 3])
                "total_cost" between_towns))))
             [@candidate runtime between_towns 1 0]
             (@candidate runtime between_towns 0 1)
             [@candidate runtime between_towns (-1) 0;
              @candidate runtime between_towns 0 (-1)]
             499817%Z).
  - vm_compute. reflexivity.
  - reflexivity.
  - constructor; [|constructor]. exists 500360%Z. split; [vm_compute; reflexivity|].
    vm_compute. discriminate.
  - vm_compute. reflexivity.
  - vm_compute. reflexivity.
Defined.


Lemma clustered_report_witness :
  exists t r,
    sample_clustered_search = (t, Ok r) /\
    cluster_count r = Some 2%nat /\
    map coordinates (individual_times r) = three_towns /\
    map weight (individual_times r) = [1; 1; 3].
Proof.
  assert (H : exists r, outcome sample_clustered_search = Ok r /\
                        cluster_count r = Some 2%nat)
    by (vm_compute; eexists; split; reflexivity).
  destruct H as (r & Hr & Hc).
  exists (trace sample_clustered_search), r.
  assert (E : sample_clustered_search = (trace sample_clustered_search, Ok r))
    by (rewrite <- Hr; apply M_eta).
  split; [exact E|]. split; [exact Hc|].
  destruct (@clustered_report runtime grid_api 400 three_towns (Some [1; 1; 3])
              "kmeans" 2%Z 100%Z "min_max_time" (trace sample_clustered_search) r E)
    as (_ & C1 & _ & C2 & _).
  split; [exact C1|exact C2].
Defined.

(** A provider that always answers three seconds, and weights a half and
    two: the weighted sum is 7.5, the cost 7. *)
Lemma cost_evaluation_witness :
  outcome (@calculate_total_time runtime (constant_api 3) (0, 0) [(1, 1); (2, 2)]
             (Some [0.5; 2])) = Ok 7%Z /\
  outcome (@calculate_max_time runtime (constant_api 3) (0, 0) [(1, 1); (2, 2)])
  = Ok 3%Z.
Proof.
  destruct (@cost_evaluation runtime (constant_api 3) (0, 0) [(1, 1); (2, 2)]
              (Some [0.5; 2])) as (_ & Ht & Hm & _).
  - intros c t _ H. unfold route_time in H.
    cbn [calculate_route constant_api] in H. injection H as <-.
    vm_compute. discriminate.
  - rewrite Ht, Hm. split; vm_compute; reflexivity.
Defined.

Lemma weighted_centroid_witness :
  @calculate_centroid runtime [(0, 0); (4, 2)] (Some [1; 3]) =
  Centroid (PTuple (3, 1.5)).
Proof.
  destruct (proj1 (@weighted_centroid runtime) [(0, 0); (4, 2)] [1; 3])
    as [H _].
  - discriminate.
  - reflexivity.
  - rewrite H; vm_compute; reflexivity.
Defined.

(** Two weights for one location are refused before any provider call, and
    so is a weight of zero in a clustered search, by numpy; a weight of
    [-1] in a clustered search, and a weight of zero with a step of zero in
    a direct one, are not refused: the provider is asked. *)
Lemma input_checks_witness :
  fails_fast (@find_optimal_point_with_clustering runtime (constant_api 60) 20
                [(0, 0)] (Some [1; 2]) "hdbscan" 5 100 "total_cost") /\
  @find_optimal_point_with_clustering runtime (constant_api 60) 20
    [(0, 0)] (Some [0]) "hdbscan" 5 100 "total_cost" =
  ([], Raise ambiguous_truth_value) /\
  oracle_calls
    (trace (@find_optimal_point_with_clustering runtime (constant_api 60) 20
              [(0, 0)] (Some [-1]) "hdbscan" 5 (-5) "total_cost")) <> [] /\
  oracle_calls
    (trace (@find_optimal_point runtime (constant_api 60) 20
              [(0, 0)] (Some [0]) PyNone (PyInt 5) 10 0 "total_cost")) <> [].
Proof.
  destruct (@input_checks runtime (constant_api 60)) as (_ & _ & H3 & H4 & H5).
  split; [|split; [|split]].
  - apply (H3 20%nat [(0, 0)] [1; 2] "hdbscan"%string 5%Z 100%Z "total_cost"%string).
    + discriminate.
    + cbn. lia.
  - apply (H5 20%nat [(0, 0)] [0] "hdbscan"%string 5%Z 100%Z "total_cost"%string
             [([(0, 0)], [0])]).
    + reflexivity.
    + reflexivity.
    + constructor. reflexivity.
  - apply (H5 20%nat [(0, 0)] [-1] "hdbscan"%string 5%Z (-5)%Z "total_cost"%string
             [([(0, 0)], [-1])]).
    + reflexivity.
    + reflexivity.
    + discriminate.
    + unfold cluster_threshold. cbn. lia.
    + constructor; [|constructor]. reflexivity.
  - apply (H4 20%nat [(0, 0)] (Some [0]) PyNone (PyInt 5) 10%Z 0%Z "total_cost"%string).
    + discriminate.
    + unfold cluster_threshold. cbn. lia.
Defined.

(** Two points under a minimum cluster size of five: [apply_hdbscan] returns
    them as they are, and the clustered search begins like the search over
    the one location [(1, 1)] of weight 2. *)
Lemma clustering_below_size_witness :
  @apply_hdbscan runtime [(0, 0); (2, 2)] (Some [1; 1]) (PyInt 5) =
    Value [(PTuple (0, 0), 1); (PTuple (2, 2), 1)] /\
  exists t,
    trace (@find_optimal_point_with_clustering runtime (constant_api 60) 20
             [(0, 0); (2, 2)] (Some [1; 1]) "hdbscan" 5 100 "total_cost") =
    trace (@find_optimal_point runtime (constant_api 60) 20 [(1, 1)] (Some [2])
             (PyInt 100) (PyStr "total_cost") 10 100 "total_cost") ++ t.
Proof.
  destruct (@clustering_below_size runtime (constant_api 60)) as (H1 & _ & _ & _ & H5).
  split.
  - apply H1.
    + reflexivity.
    + cbn. lia.
  - apply (H5 20%nat [(0, 0); (2, 2)] [1; 1] "hdbscan"%string 5%Z 100%Z
             "total_cost"%string).
    + discriminate.
    + reflexivity.
    + left. split; [reflexivity|cbn; lia].
    + reflexivity.
Defined.

(** With the tag ['MIN_MAX_TIME'] the iteration from [between_towns] weighs
    the sum: the first candidate costs 500360 with the weights 1 and 3 and
    is no better, the second costs 499817 and is taken.  (The longest route
    from either is below the 500000 seconds of the state.) *)
Lemma objective_tag_witness :
  @iteration runtime grid_api two_towns (Some [1; 3]) "MIN_MAX_TIME" between_towns =
  (flat_map (fun q => trace (@calculate_total_time runtime grid_api q two_towns
                               (Some [1; 3])))
     [@candidate runtime between_towns 1 0; @candidate runtime between_towns 0 1],
   Ok {| current_point := PTuple (@candidate runtime between_towns 0 1);
         current_time := 499817;
         radius := 0.0009;
         iteration_count := 1 |}) /\
  outcome (@calculate_max_time runtime grid_api (@candidate runtime between_towns 1 0)
             two_towns) = Ok 150090%Z.
Proof.
  split.
  - destruct (proj1 (proj2 (proj2 (@objective_tag runtime grid_api)))
                "MIN_MAX_TIME"%string) as (_ & H & _); [discriminate|].
    apply (H two_towns (Some [1; 3]) between_towns
             [@candidate runtime between_towns 1 0]
             (@candidate runtime between_towns 0 1)
             [@candidate runtime between_towns (-1) 0;
              @candidate runtime between_towns 0 (-1)]
             499817%Z).
    + reflexivity.
    + constructor; [|constructor]. exists 500360%Z.
      split; [vm_compute; reflexivity|]. vm_compute. discriminate.
    + vm_compute. reflexivity.
    + vm_compute. reflexivity.
  - vm_compute. reflexivity.
Defined.

(** *** Where the specification and the code part *)

(** C1.  A search over the one location [(0, 0)] with the step of 100 metres:
    the first point it probes, the one it calls East, is [(0.0009, 0)].  It
    has the longitude of the current point and a greater latitude: it lies
    to the north, not to the east. *)
Lemma first_probe_goes_north :
  exists q,
    nth_error
      (oracle_calls
         (trace (@find_optimal_point runtime (constant_api 60) 20 [(0, 0)] (Some [1])
                   PyNone (PyInt 5) 10 100 "total_cost"))) 1
    = Some (RouteCall q (0, 0)) /\
    q = (0.0009, 0) /\
    (0 <? fst q) = true /\ (snd q =? 0) = true.
Proof.
  exists (0.0009, 0). repeat split; vm_compute; reflexivity.
Qed.

(** C4.  With a weight of a half and a route time of three seconds the sum is
    1.5 and the cost is 1: the cost is not the weighted sum. *)
Lemma truncated_weighted_sum :
  ~ @cost_is_weighted_sum runtime (constant_api 3) (0, 0) [(1, 1)] [0.5].
Proof.
  intros (c & Hc & E). vm_compute in Hc. injection Hc as <-.
  apply (f_equal Prim2SF) in E. vm_compute in E. discriminate.
Qed.

(** C5.  The square of side 2 whose south-west corner is [(0.0000004, 0)]:
    its centre has the latitude 1.0000004, and the centroid of its corners
    is [(1, 1)], the mean rounded to six decimals. *)
Lemma square_off_whole_degrees :
  @calculate_centroid runtime (square_corners 0.0000004 0) (Some [1; 1; 1; 1]) =
    Centroid (PTuple (1, 1)) /\
  @calculate_centroid runtime (square_corners 0.0000004 0) (Some [1; 1; 1; 1]) <>
    Centroid (PTuple (0.0000004 + 1, 0 + 1)) /\
  (1 <? 0.0000004 + 1) = true.
Proof.
  split; [vm_compute; reflexivity|]. split; [|vm_compute; reflexivity].
  intros E.
  apply (f_equal (fun c => match c with
                           | Centroid p => Prim2SF (fst (coords_of p))
                           | NoCentroid => S754_nan
                           end)) in E.
  vm_compute in E. discriminate.
Qed.

(** C7.  A negative weight, a zero weight, a zero step and a negative step
    are all accepted: the call returns a result and has asked the provider. *)
Lemma invalid_input_accepted :
  ~ fails_fast (@find_optimal_point_with_clustering runtime (constant_api 60) 20
                  [(0, 0)] (Some [-1]) "hdbscan" 5 100 "total_cost") /\
  ~ fails_fast (@find_optimal_point runtime (constant_api 60) 20
                  [(0, 0)] (Some [0]) PyNone (PyInt 5) 10 100 "total_cost") /\
  ~ fails_fast (@find_optimal_point runtime (constant_api 60) 20
                  [(0, 0)] (Some [1]) PyNone (PyInt 5) 10 0 "total_cost") /\
  ~ fails_fast (@find_optimal_point runtime (constant_api 60) 20
                  [(0, 0)] (Some [1]) PyNone (PyInt 5) 10 (-5) "total_cost") /\
  oracle_calls
    (trace (@find_optimal_point_with_clustering runtime (constant_api 60) 20
              [(0, 0)] (Some [-1]) "hdbscan" 5 100 "total_cost")) <> [].
Proof.
  repeat split; try (intros [[e He] _]; vm_compute in He; discriminate).
  vm_compute. discriminate.
Qed.

(** C8.  Two points under a minimum cluster size of five: [_perform_clustering]
    makes one cluster of them, and the clustered search goes on with one
    virtual location, their centroid with their total weight, which is
    neither of the two points. *)
Lemma one_cluster_below_size :
  @_perform_clustering runtime [(0, 0); (2, 2)] [1; 1] "HDBSCAN" 5 =
    Value [([(0, 0); (2, 2)], [1; 1])] /\
  @cluster_centroids_loop runtime [([(0, 0); (2, 2)], [1; 1])] =
    Value ([(1, 1)], [2]) /\
  ([(1, 1)], [2]) <> ([(0, 0); (2, 2)], [1; 1]).
Proof.
  repeat split; try (vm_compute; reflexivity). discriminate.
Qed.

(** A provider that cannot route anything makes every cost zero. *)
Example silent_provider :
  @calculate_total_time runtime silent_api (40, -72) two_towns (Some [1; 3]) =
    ([RouteCall (40, -72) (40, -73); RouteCall (40, -72) (40, -71)], Ok 0%Z) /\
  outcome (@calculate_max_time runtime silent_api (40, -72) two_towns) = Ok 0%Z.
Proof. split; vm_compute; reflexivity. Qed.

(** When [calculate_route] has no answer the lookup goes on to
    [calculate_route_time], if the provider has one. *)
Example second_lookup :
  @route_lookup fallback_api (0, 0) (40, 0) =
    ([RouteCall (0, 0) (40, 0); RouteTimeCall (0, 0) (40, 0)], Ok (Some 4000000%Z)) /\
  @route_lookup fallback_api (0, 0) (60, 0) =
    ([RouteCall (0, 0) (60, 0); RouteTimeCall (0, 0) (60, 0)], Ok None) /\
  @route_lookup silent_api (0, 0) (60, 0) = ([RouteCall (0, 0) (60, 0)], Ok None).
Proof. repeat split; vm_compute; reflexivity. Qed.

(** A search between the two towns on the street grid: five iterations, the
    last four of which halve the radius. *)
Example search_between_towns :
  match outcome (@find_optimal_point runtime grid_api 100 two_towns (Some [1; 1])
                   PyNone (PyInt 5) 10 100 "total_cost") with
  | Ok (Some r) =>
      optimal_point r = PTuple (40, -71.9991) /\
      total_time r = 199999%Z /\
      map time_seconds (individual_times r) = [Some 100090%Z; Some 99909%Z] /\
      In (LogIterations 5) (calculation_logs r)
  | _ => False
  end.
Proof. vm_compute. repeat split. do 5 right. left. reflexivity. Qed.

(** Twenty-two towns, one cluster each: with more than twenty cluster
    centres the step that the clustered search hands over in the place of
    [clustering_method] is asked for its [lower()], and the call ends in an
    [AttributeError]. *)
Example many_clusters :
  @find_optimal_point_with_clustering runtime grid_api 100
    (repeat (40, -73) 22) None "kmeans" 1 100 "total_cost" =
  ([], Raise AttributeError).
Proof. vm_compute. reflexivity. Qed.

End Runs.

(** * Further properties

    What the code shows beyond the sentences of its specification: the rest
    of the search engine, the base class and the factory of [map_api.py],
    and the thread of [main.py] that calls the search. *)

(** ** The search engine *)

Section FinderFacts.
Context {rt : Runtime} {api : MapAPI}.

Lemma fold_add_times (rp : point) (cs : list point) :
  forall acc,
    fold_left (fun acc c => match route_time rp (round_point c) with
                            | Some t => acc + t
                            | None => acc
                            end) cs acc =
    acc + total (successful_times rp cs).
Proof.
  unfold total.
  induction cs as [|c cs IH]; intros acc; cbn [fold_left successful_times flat_map].
  - cbn. lia.
  - rewrite IH. fold (successful_times rp cs).
    destruct (route_time rp (round_point c)) as [t|]; cbn [app fold_right]; lia.
Qed.

Lemma calculate_pure_total_time_eq (p : point) (cs : list point) :
  calculate_pure_total_time p cs =
  (evaluation_trace p cs, Ok (Z.max 0 (total (successful_times (round_point p) cs)))).
Proof.
  unfold calculate_pure_total_time. destruct cs as [|c cs]; [reflexivity|].
  rewrite (bind_ok _ _ _ _ (pure_time_loop_eq _ _ _)). rewrite fold_add_times.
  unfold ret, trace, outcome. cbn [fst snd]. rewrite app_nil_r.
  unfold evaluation_trace. do 2 f_equal.
  destruct (0 <? _) eqn:E; [apply Z.ltb_lt in E|apply Z.ltb_ge in E]; lia.
Qed.

Lemma calculate_max_time_eq (p : point) (cs : list point) :
  calculate_max_time p cs =
  (evaluation_trace p cs, Ok (maximum (successful_times (round_point p) cs))).
Proof.
  unfold calculate_max_time. destruct cs as [|c cs]; [reflexivity|].
  rewrite (bind_ok _ _ _ _ (max_time_loop_eq _ _ _)).
  rewrite fold_take_max by lia.
  pose proof (maximum_nonneg (successful_times (round_point p) (c :: cs))) as N.
  unfold ret, trace, outcome. cbn [fst snd]. rewrite app_nil_r.
  unfold evaluation_trace. do 2 f_equal.
  destruct (0 <? _) eqn:E; [apply Z.ltb_lt in E|apply Z.ltb_ge in E]; lia.
Qed.

Lemma successful_times_In (rp : point) (cs : list point) (t : Z) :
  In t (successful_times rp cs) <->
  exists c, In c cs /\ route_time rp (round_point c) = Some t.
Proof.
  unfold successful_times. rewrite in_flat_map. split.
  - intros (c & Hc & Ht). exists c. split; [exact Hc|].
    destruct (route_time rp (round_point c)) as [t'|]; [|destruct Ht].
    destruct Ht as [->|[]]. reflexivity.
  - intros (c & Hc & Ht). exists c. split; [exact Hc|]. rewrite Ht. left. reflexivity.
Qed.

Lemma maximum_le_total (l : list Z) :
  Forall (fun t => 0 <= t) l -> 0 <= maximum l <= total l.
Proof.
  unfold maximum, total. induction 1 as [|t l Ht _ IH]; cbn [fold_right]; lia.
Qed.

(** X1.  The pure total time of a point is the sum of the route times to the
    locations whose lookup succeeds, each location looked up once on rounded
    coordinates, and [0] when that sum is not positive: a location without a
    route adds nothing, it does not make the total unknown.  When no route
    time is negative the sum is returned as it is. *)
Theorem pure_total_time_is_sum (p : point) (cs : list point) :
  calculate_pure_total_time p cs =
    (evaluation_trace p cs,
     Ok (Z.max 0 (total (successful_times (round_point p) cs)))) /\
  (Forall (fun t => 0 <= t) (successful_times (round_point p) cs) ->
   outcome (calculate_pure_total_time p cs) =
   Ok (total (successful_times (round_point p) cs))).
Proof.
  split; [apply calculate_pure_total_time_eq|].
  intros F. rewrite calculate_pure_total_time_eq. cbn [outcome snd]. f_equal.
  pose proof (maximum_le_total _ F). lia.
Qed.

(** X2.  When the provider gives no negative time, the longest route from a
    point is at most the pure total from that point, and neither is
    negative. *)
Theorem longest_route_within_total (p : point) (cs : list point) :
  (forall c t, In c cs -> route_time (round_point p) (round_point c) = Some t -> 0 <= t) ->
  exists longest sum,
    outcome (calculate_max_time p cs) = Ok longest /\
    outcome (calculate_pure_total_time p cs) = Ok sum /\
    0 <= longest <= sum.
Proof.
  intros H.
  exists (maximum (successful_times (round_point p) cs)),
         (Z.max 0 (total (successful_times (round_point p) cs))).
  rewrite calculate_max_time_eq, calculate_pure_total_time_eq.
  split; [reflexivity|]. split; [reflexivity|].
  assert (F : Forall (fun t => 0 <= t) (successful_times (round_point p) cs)).
  { apply Forall_forall. intros t Ht. apply successful_times_In in Ht.
    destruct Ht as (c & Hc & Ht). exact (H c t Hc Ht). }
  pose proof (maximum_le_total _ F). lia.
Qed.

(** *** The weights of a direct search *)

Lemma individual_times_loop_weights (o : point) (ws : option (list float))
    (cs : list point) :
  forall i t l,
    individual_times_loop o cs i ws = (t, Ok l) ->
    cs = [] \/ exists w, ws = Some w /\ (i + length cs <= length w)%nat.
Proof.
  induction cs as [|c cs IH]; intros i t l H; [left; reflexivity|right].
  cbn [individual_times_loop] in H.
  apply bind_inv_ok in H. destruct H as (t1 & time & t2 & _ & H & _).
  apply bind_inv_ok in H. destruct H as (t3 & w & t4 & Hw & H & _).
  apply bind_inv_ok in H. destruct H as (t5 & l' & t6 & Hl & _ & _).
  unfold subscript in Hw. destruct ws as [w0|]; [|discriminate].
  exists w0. split; [reflexivity|].
  destruct (nth_error w0 i) eqn:N; [|discriminate].
  assert (i < length w0)%nat by (apply nth_error_Some; congruence).
  destruct (IH _ _ _ Hl) as [->|(w1 & E & L)]; cbn [length]; [lia|].
  injection E as <-. lia.
Qed.

(** X3.  [find_optimal_point] hands back a result only when it was given a
    weight for every location: after the search it reads [weights[i]] for
    each of them, so a call that leaves the weights out, or gives fewer
    weights than locations, ends in an exception (a [TypeError] or an
    [IndexError]) and not in a result, whatever the provider answers. *)
Theorem result_needs_weights (fuel : nat) (cs : list point)
    (ws : option (list float)) (cm mcs : pyval) (xcs step : Z) (alg : string)
    (t : list event) (r : search_result) :
  find_optimal_point fuel cs ws cm mcs xcs step alg = (t, Ok (Some r)) ->
  exists l, ws = Some l /\ (length cs <= length l)%nat.
Proof.
  intros H. unfold find_optimal_point in H.
  destruct cs as [|c cs]; [discriminate|].
  apply bind_inv_ok in H. destruct H as (t1 & [info start] & t2 & _ & H & _).
  apply bind_inv_ok in H. destruct H as (t3 & final & t4 & _ & H & _).
  apply bind_inv_ok in H. destruct H as (t5 & it & t6 & Hi & _ & _).
  destruct (individual_times_loop_weights _ _ _ _ _ _ Hi) as [E|(l & -> & L)];
    [discriminate|].
  exists l. split; [reflexivity|exact L].
Qed.

(** *** The cost a search reports *)

(** X4.  The cost that [find_optimal_point] reports is the cost of the point
    it reports: [total_time] is the objective, over the given locations and
    weights, at [optimal_point], and [pure_total_time] is the pure total
    there.  The search never ends on a point that costs more than the one it
    started from (the centroid), and the cost is not negative. *)
Theorem reported_cost (fuel : nat) (cs : list point) (ws : option (list float))
    (cm mcs : pyval) (xcs step : Z) (alg : string)
    (t : list event) (r : search_result) :
  find_optimal_point fuel cs ws cm mcs xcs step alg = (t, Ok (Some r)) ->
  outcome (objective alg (optimal_point r) cs ws) = Ok (total_time r) /\
  outcome (calculate_pure_total_time (coords_of (optimal_point r)) cs)
    = Ok (pure_total_time r) /\
  exists info start,
    outcome (start_of_search cs ws cm mcs xcs step alg) = Ok (info, start) /\
    0 <= total_time r <= current_time start.
Proof.
  intros H. unfold find_optimal_point in H.
  destruct cs as [|c cs]; [discriminate|].
  apply bind_inv_ok in H. destruct H as (t1 & [info start] & t2 & Hs & H & _).
  apply bind_inv_ok in H. destruct H as (t3 & final & t4 & Hl & H & _).
  apply bind_inv_ok in H. destruct H as (t5 & it & t6 & _ & H & _).
  apply bind_inv_ok in H. destruct H as (t7 & pt & t8 & Hp & H & _).
  injection H as _ <-. cbn [optimal_point total_time pure_total_time].
  pose proof (start_of_search_cost_of_point _ _ _ _ _ _ _ _ _ _ Hs) as I0.
  assert (Hl' : outcome (search_loop fuel (c :: cs) ws alg start) = Ok final)
    by (rewrite Hl; reflexivity).
  destruct (search_loop_cost_of_point _ _ _ _ _ _ I0 Hl') as [I1 L].
  split; [exact I1|]. split; [rewrite Hp; reflexivity|].
  exists info, start. split; [rewrite Hs; reflexivity|].
  split; [|exact L].
  pose proof (objective_nonneg alg (current_point final) (c :: cs) ws) as N.
  rewrite I1 in N. exact N.
Qed.

(** *** When a search clusters *)

Lemma lower_empty (s : string) : String.eqb (lower s) "" = String.eqb s "".
Proof. destruct s; reflexivity. Qed.

Lemma start_of_search_few (cs : list point) (ws : option (list float))
    (cm mcs : pyval) (xcs step : Z) (alg : string) :
  (length cs <= cluster_threshold)%nat ->
  start_of_search cs ws cm mcs xcs step alg =
  start_of_search cs ws PyNone (PyInt 5) 10 step alg.
Proof.
  intros H. unfold start_of_search.
  assert (E : (cluster_threshold <? length cs)%nat = false)
    by (apply Nat.ltb_ge; exact H).
  rewrite E, !andb_false_r. reflexivity.
Qed.

Lemma start_of_search_info_few (cs : list point) (ws : option (list float))
    (cm mcs : pyval) (xcs step : Z) (alg : string)
    (t : list event) (info : option clustering_info) (s : search_state) :
  (length cs <= cluster_threshold)%nat ->
  start_of_search cs ws cm mcs xcs step alg = (t, Ok (info, s)) -> info = None.
Proof.
  intros H. unfold start_of_search.
  assert (E : (cluster_threshold <? length cs)%nat = false)
    by (apply Nat.ltb_ge; exact H).
  rewrite E, !andb_false_r. intros H0.
  apply bind_inv_ok in H0. destruct H0 as (t1 & [info' start] & t2 & H1 & H0 & _).
  apply bind_inv_ok in H1. destruct H1 as (t3 & p & t4 & _ & H1 & _).
  injection H1 as _ <- _.
  apply bind_inv_ok in H0. destruct H0 as (t5 & t0 & t6 & _ & H0 & _).
  apply bind_inv_ok in H0. destruct H0 as (t7 & r & t8 & _ & H0 & _).
  apply bind_inv_ok in H0. destruct H0 as (t9 & [] & t10 & _ & H0 & _).
  injection H0 as _ <- _. reflexivity.
Qed.

(** X5.  [find_optimal_point] clusters only above [cluster_threshold]: with
    twenty locations or fewer it does not look at [clustering_method],
    [min_cluster_size] or [max_cluster_size], starts from the centroid of
    the locations and reports no [clustering_info].  With more than twenty,
    leaving the method out means ['hdbscan'], and the name of a method is
    read without regard to case. *)
Theorem clustering_threshold_rule (fuel : nat) (cs : list point)
    (ws : option (list float)) (step : Z) (alg : string) :
  ((length cs <= cluster_threshold)%nat ->
   (forall cm mcs xcs cm' mcs' xcs',
      find_optimal_point fuel cs ws cm mcs xcs step alg =
      find_optimal_point fuel cs ws cm' mcs' xcs' step alg) /\
   (forall cm mcs xcs t r,
      find_optimal_point fuel cs ws cm mcs xcs step alg = (t, Ok (Some r)) ->
      clustering_info_of r = None)) /\
  ((cluster_threshold < length cs)%nat ->
   (forall mcs xcs,
      find_optimal_point fuel cs ws PyNone mcs xcs step alg =
      find_optimal_point fuel cs ws (PyStr "hdbscan") mcs xcs step alg) /\
   (forall m m' mcs xcs, lower m = lower m' ->
      find_optimal_point fuel cs ws (PyStr m) mcs xcs step alg =
      find_optimal_point fuel cs ws (PyStr m') mcs xcs step alg)).
Proof.
  split.
  - intros H. split.
    + intros cm mcs xcs cm' mcs' xcs'. unfold find_optimal_point.
      destruct cs as [|c cs]; [reflexivity|].
      rewrite (start_of_search_few _ _ cm mcs xcs _ _ H).
      rewrite (start_of_search_few _ _ cm' mcs' xcs' _ _ H). reflexivity.
    + intros cm mcs xcs t r H0. unfold find_optimal_point in H0.
      destruct cs as [|c cs]; [discriminate|].
      apply bind_inv_ok in H0. destruct H0 as (t1 & [info start] & t2 & Hs & H0 & _).
      apply bind_inv_ok in H0. destruct H0 as (t3 & final & t4 & _ & H0 & _).
      apply bind_inv_ok in H0. destruct H0 as (t5 & it & t6 & _ & H0 & _).
      apply bind_inv_ok in H0. destruct H0 as (t7 & pt & t8 & _ & H0 & _).
      injection H0 as _ <-. cbn [clustering_info_of].
      eapply start_of_search_info_few; eassumption.
  - intros H.
    assert (E : (cluster_threshold <? length cs)%nat = true)
      by (apply Nat.ltb_lt; exact H).
    split.
    + intros mcs xcs. unfold find_optimal_point, start_of_search.
      destruct cs as [|c cs]; [reflexivity|]. rewrite E. reflexivity.
    + intros m m' mcs xcs L. unfold find_optimal_point, start_of_search.
      destruct cs as [|c cs]; [reflexivity|]. rewrite E.
      cbn [is_none andb truthy]. rewrite !andb_true_r.
      rewrite <- (lower_empty m), <- (lower_empty m'), L.
      unfold cluster_for_search, py_lower. rewrite L. reflexivity.
Qed.

(** *** The clusters of a clustered search *)

Lemma firstn_snoc {A} (l : list A) (i : nat) (x : A) :
  nth_error l i = Some x -> firstn (S i) l = firstn i l ++ [x].
Proof.
  revert i. induction l as [|a l IH]; intros [|i] H; try discriminate.
  - injection H as ->. destruct l; reflexivity.
  - cbn [nth_error] in H.
    change (a :: firstn (S i) l = a :: (firstn i l ++ [x])).
    f_equal. exact (IH _ H).
Qed.

Lemma nth_error_combine {A B} (l1 : list A) (l2 : list B) (i : nat) (a : A) (b : B) :
  nth_error l1 i = Some a -> nth_error l2 i = Some b ->
  nth_error (combine l1 l2) i = Some (a, b).
Proof.
  revert l2 i. induction l1 as [|x l1 IH]; intros [|y l2] [|i] H1 H2; try discriminate.
  - injection H1 as ->. injection H2 as ->. reflexivity.
  - cbn. apply IH; assumption.
Qed.

Lemma group_by_label_partition (cs : list point) (ws : list float) (labels : list Z) :
  forall (i : nat) (g : groups),
    (i + length labels <= length cs)%nat -> (i + length labels <= length ws)%nat ->
    Forall (fun e => proper_cluster (snd e)) g ->
    Permutation (flat_map (fun e => members (snd e)) g) (firstn i (combine cs ws)) ->
    exists g',
      group_by_label labels i cs (Some ws) g = Value g' /\
      Forall (fun e => proper_cluster (snd e)) g' /\
      Permutation (flat_map (fun e => members (snd e)) g')
        (firstn (i + length labels) (combine cs ws)) /\
      (labels <> [] -> g' <> []).
Proof.
  induction labels as [|l labels IH]; intros i g H1 H2 F P.
  - exists g. cbn [length]. rewrite Nat.add_0_r. repeat split; auto; congruence.
  - cbn [length] in H1, H2. cbn [group_by_label].
    destruct (nth_error cs i) as [c|] eqn:C;
      [|apply nth_error_None in C; lia].
    unfold subscript.
    destruct (nth_error ws i) as [w|] eqn:W;
      [|apply nth_error_None in W; lia].
    cbn [rbind].
    destruct (group_append_proper l c w g F) as (F1 & P1 & N1).
    destruct (IH (S i) (group_append l c w g)) as (g' & E & F2 & P2 & _);
      try lia; try assumption.
    + rewrite (firstn_snoc _ _ _ (nth_error_combine _ _ _ _ _ C W)).
      rewrite P1. apply Permutation_app_tail. exact P.
    + exists g'. split; [exact E|]. split; [exact F2|]. split.
      * cbn [length]. replace (i + S (length labels))%nat
          with (S i + length labels)%nat by lia. exact P2.
      * intros _ ->.
        apply Permutation_nil in P2.
        replace (S i + length labels)%nat with (S (i + length labels)) in P2 by lia.
        destruct (combine cs ws) eqn:Cw; [|discriminate].
        pose proof (nth_error_combine _ _ _ _ _ C W) as X. rewrite Cw in X.
        destruct i; discriminate.
Qed.

Lemma flat_map_map {A B C} (f : A -> B) (h : B -> list C) (l : list A) :
  flat_map h (map f l) = flat_map (fun x => h (f x)) l.
Proof. induction l as [|a l IH]; [reflexivity|]. cbn. rewrite IH. reflexivity. Qed.

Lemma labelled_clusters (cs : list point) (ws : list float) (labels : list Z) :
  cs <> [] -> length ws = length cs -> length labels = length cs ->
  exists g,
    group_by_label labels 0 cs (Some ws) [] = Value g /\
    map snd g <> [] /\
    Forall proper_cluster (map snd g) /\
    Permutation (flat_map members (map snd g)) (combine cs ws).
Proof.
  intros Hne Hw Hl.
  destruct (group_by_label_partition cs ws labels 0 []) as (g & E & F & P & N);
    try (cbn; lia); try constructor.
  exists g. split; [exact E|]. split; [|split].
  - destruct g; [|discriminate]. exfalso. apply N; [|reflexivity].
    destruct labels; [|discriminate]. destruct cs; [congruence|discriminate].
  - apply Forall_map. exact F.
  - rewrite flat_map_map. rewrite P. cbn [Nat.add].
    rewrite firstn_all2; [reflexivity|]. rewrite length_combine. lia.
Qed.

(** X6.  The clusters of a clustered search are a partition of the
    locations: when the clustering library labels every location,
    [_perform_clustering] returns at least one cluster, none of them empty,
    and every location is in exactly one cluster, together with its own
    weight.  No location is lost and none is counted twice, whatever the
    method and its parameter are. *)
Theorem clusters_partition_locations (cs : list point) (ws : list float)
    (method : string) (param : Z) :
  cs <> [] -> length ws = length cs ->
  (forall k, length (hdbscan_fit_predict k cs) = length cs) ->
  (forall k, length (kmeans_fit_predict k cs) = length cs) ->
  exists clusters,
    _perform_clustering cs ws method param = Value clusters /\
    clusters <> [] /\
    Forall proper_cluster clusters /\
    Permutation (flat_map members clusters) (combine cs ws).
Proof.
  intros Hne Hw Hh Hk.
  assert (One : exists clusters,
             Value [(cs, ws)] = Value clusters /\ clusters <> [] /\
             Forall proper_cluster clusters /\
             Permutation (flat_map members clusters) (combine cs ws)).
  { exists [(cs, ws)]. split; [reflexivity|]. split; [discriminate|]. split.
    - constructor; [|constructor]. split; assumption.
    - cbn. rewrite app_nil_r. reflexivity. }
  unfold _perform_clustering.
  destruct cs as [|c cs]; [congruence|].
  destruct (String.eqb (lower method) "hdbscan").
  - match goal with |- context [if ?b then Value _ else _] => destruct b end;
      [exact One|].
    destruct (labelled_clusters (c :: cs) ws
                (hdbscan_fit_predict (if 0 <? param then param else 5) (c :: cs))
                Hne Hw (Hh _)) as (g & E & N & F & P).
    rewrite E. cbn [rbind]. exists (map snd g). auto.
  - destruct (String.eqb (lower method) "kmeans"); [|exact One].
    match goal with |- context [if ?b then Value _ else _] => destruct b end;
      [exact One|].
    match goal with |- context [kmeans_fit_predict ?k] =>
      destruct (labelled_clusters (c :: cs) ws (kmeans_fit_predict k (c :: cs))
                  Hne Hw (Hk _)) as (g & E & N & F & P)
    end.
    rewrite E. cbn [rbind]. exists (map snd g). auto.
Qed.

(** *** A cluster without weight *)

(** X7.  A clustered search does not accept a cluster whose weights add up
    to zero: the centroid of such a cluster is the plain mean, a numpy array,
    and testing it with [if centroid:] raises the [ValueError] of numpy.
    The call ends there, before the provider is asked anything.  (A direct
    search with the same weights runs.) *)
Theorem weightless_cluster_rejected (fuel : nat) (cs : list point) (ws : list float)
    (method : string) (param step : Z) (alg : string)
    (clusters : list (list point * list float)) :
  length ws = length cs ->
  _perform_clustering cs ws method param = Value clusters ->
  Exists (fun cl => proper_cluster cl /\ (np_sum (snd cl) =? 0)%float = true) clusters ->
  find_optimal_point_with_clustering fuel cs (Some ws) method param step alg =
  ([], Raise ambiguous_truth_value).
Proof.
  intros Hlen Hc Hex. unfold find_optimal_point_with_clustering.
  destruct cs as [|c cs].
  - cbn in Hc. injection Hc as <-. inversion Hex.
  - rewrite <- Hlen, Nat.eqb_refl. cbn [negb]. rewrite Hc.
    change (lift (Value clusters)) with (ret clusters). rewrite bind_ret_l.
    destruct clusters as [|cl clusters]; [inversion Hex|].
    rewrite (cluster_centroids_loop_weightless _ Hex). reflexivity.
Qed.

(** *** The provider calls of a search *)

Lemma lookups_app (t1 t2 : list event) : lookups (t1 ++ t2) = lookups t1 + lookups t2.
Proof. unfold lookups. rewrite filter_app, length_app. lia. Qed.

Lemma lookups_route_trace (o d : point) : lookups (route_trace o d) = 1.
Proof.
  unfold route_trace.
  destruct (calculate_route o d); [reflexivity|].
  destruct calculate_route_time; reflexivity.
Qed.

Lemma lookups_flat_map {A} (f : A -> list event) (l : list A) :
  (forall a, lookups (f a) = 1) -> lookups (flat_map f l) = Z.of_nat (length l).
Proof.
  intros H. induction l as [|a l IH]; [reflexivity|].
  cbn [flat_map length]. rewrite lookups_app, H, IH. lia.
Qed.

Lemma lookups_evaluation (p : point) (cs : list point) :
  lookups (evaluation_trace p cs) = Z.of_nat (length cs).
Proof. apply lookups_flat_map. intros c. apply lookups_route_trace. Qed.

Lemma lookups_probe (cs : list point) (ws : option (list float)) (alg : string)
    (s : search_state) (dirs : list (Z * Z)) (found : option (point * Z))
    (t : list event) :
  probe dirs cs ws alg s = (t, Ok found) ->
  Z.of_nat (length cs) * Z.of_nat (Nat.min 1 (length dirs)) <= lookups t
    <= Z.of_nat (length cs) * Z.of_nat (length dirs).
Proof.
  revert t. induction dirs as [|d dirs IH]; intros t H.
  - injection H as <- _. cbn. lia.
  - cbn [probe] in H. destruct (direction_name d); [|discriminate].
    apply bind_inv_ok in H. destruct H as (t1 & np & t2 & Hn & H & ->).
    apply bind_inv_ok in H. destruct H as (t3 & v & t4 & Ho & H & ->).
    assert (E1 : t1 = []).
    { rewrite <- (new_point_trace (current_point s) d (radius s)), Hn. reflexivity. }
    assert (E3 : lookups t3 = Z.of_nat (length cs)).
    { replace t3 with (trace (objective alg (PTuple np) cs ws))
        by (rewrite Ho; reflexivity).
      rewrite objective_trace. apply lookups_evaluation. }
    subst t1. cbn [app]. rewrite lookups_app, E3. cbn [length Nat.min].
    destruct (v <? current_time s).
    + injection H as <- _. cbn. lia.
    + apply IH in H. destruct dirs; cbn [length Nat.min] in *; nia.
Qed.

Lemma lookups_iteration (cs : list point) (ws : option (list float)) (alg : string)
    (s s' : search_state) (t : list event) :
  iteration cs ws alg s = (t, Ok s') ->
  iteration_count s' = iteration_count s + 1 /\
  Z.of_nat (length cs) <= lookups t <= 4 * Z.of_nat (length cs).
Proof.
  unfold iteration. intros H.
  apply bind_inv_ok in H. destruct H as (t1 & found & t2 & Hp & H & ->).
  apply lookups_probe in Hp. cbn [directions length Nat.min] in Hp.
  destruct found as [[np v]|]; injection H as <- <-;
    rewrite app_nil_r; cbn [iteration_count]; split; try reflexivity; lia.
Qed.

Lemma lookups_search_loop (cs : list point) (ws : option (list float)) (alg : string)
    (fuel : nat) :
  forall s s' t,
    search_loop fuel cs ws alg s = (t, Ok s') ->
    iteration_count s <= iteration_count s' /\
    Z.of_nat (length cs) * (iteration_count s' - iteration_count s) <= lookups t
      <= 4 * Z.of_nat (length cs) * (iteration_count s' - iteration_count s).
Proof.
  induction fuel as [|fuel IH]; intros s s' t; rewrite search_loop_unfold;
    destruct (min_radius <=? radius s)%float; try discriminate;
    try (intros [= <- <-]; cbn; lia).
  intros H.
  apply bind_inv_ok in H. destruct H as (t1 & s1 & t2 & Hi & H & ->).
  apply lookups_iteration in Hi. apply IH in H.
  rewrite lookups_app. nia.
Qed.

Lemma lift_silent {A} (r : result A) (t : list event) (x : res A) :
  lift r = (t, x) -> t = [].
Proof. destruct r; intros [= <- _]; reflexivity. Qed.

Lemma lookups_start_of_search (cs : list point) (ws : option (list float))
    (cm mcs : pyval) (xcs step : Z) (alg : string)
    (t : list event) (info : option clustering_info) (s : search_state) :
  start_of_search cs ws cm mcs xcs step alg = (t, Ok (info, s)) ->
  lookups t = Z.of_nat (length cs) /\ iteration_count s = 0.
Proof.
  unfold start_of_search. intros H.
  apply bind_inv_ok in H. destruct H as (t1 & [info' start] & t2 & H1 & H & ->).
  apply bind_inv_ok in H. destruct H as (t3 & t0 & t4 & Ht & H & ->).
  apply bind_inv_ok in H. destruct H as (t5 & r & t6 & Hr & H & ->).
  apply bind_inv_ok in H. destruct H as (t7 & [] & t8 & Hw & H & ->).
  injection H as <- _ <-. injection Hw as <-.
  assert (E1 : t1 = []).
  { match type of H1 with (if ?b then _ else _) = _ => destruct b end.
    - apply bind_inv_ok in H1. destruct H1 as (u1 & [cc i] & u2 & Hc & H1 & ->).
      apply bind_inv_ok in H1. destruct H1 as (u3 & q & u4 & Hq & H1 & ->).
      injection H1 as <- _ _.
      assert (u1 = []) as ->.
      { unfold cluster_for_search in Hc.
        apply bind_inv_ok in Hc. destruct Hc as (v1 & name & v2 & Hn & Hc & ->).
        apply lift_silent in Hn. subst v1.
        destruct (String.eqb name "hdbscan"); [|destruct (String.eqb name "kmeans")];
          apply bind_inv_ok in Hc; destruct Hc as (v3 & x & v4 & Hx & Hc & ->);
          injection Hc as <- _; apply lift_silent in Hx; subst v3; reflexivity. }
      destruct (calculate_centroid _ _); [discriminate|].
      injection Hq as <- _. reflexivity.
    - apply bind_inv_ok in H1. destruct H1 as (u3 & q & u4 & Hq & H1 & ->).
      injection H1 as <- _ _.
      destruct (calculate_centroid _ _); [discriminate|].
      injection Hq as <- _. reflexivity. }
  assert (E3 : lookups t3 = Z.of_nat (length cs)).
  { replace t3 with (trace (objective alg start cs ws)) by (rewrite Ht; reflexivity).
    rewrite objective_trace. apply lookups_evaluation. }
  assert (E5 : t5 = []).
  { unfold int_times_float in Hr. destruct (float_of_int step); [|discriminate].
    injection Hr as <- _. reflexivity. }
  subst t1 t5. cbn [app iteration_count]. split; [|reflexivity].
  rewrite lookups_app, E3. cbn. lia.
Qed.

(** X8.  The provider calls of a search are counted by its iterations: a
    search over [n] locations that takes [k] iterations (the number its log
    reports) calls [calculate_route] [n] times for the starting point,
    between [n] and [4 n] times in every iteration, and [2 n] times after
    the loop, for the times of the single locations and for the pure
    total. *)
Theorem provider_calls_of_a_search (fuel : nat) (cs : list point)
    (ws : option (list float)) (cm mcs : pyval) (xcs step : Z) (alg : string)
    (t : list event) (r : search_result) :
  find_optimal_point fuel cs ws cm mcs xcs step alg = (t, Ok (Some r)) ->
  exists k,
    In (LogIterations k) (calculation_logs r) /\ 0 <= k /\
    Z.of_nat (length cs) * (k + 3) <= lookups t <= Z.of_nat (length cs) * (4 * k + 3).
Proof.
  intros H. unfold find_optimal_point in H.
  destruct cs as [|c cs]; [discriminate|].
  apply bind_inv_ok in H. destruct H as (t1 & [info start] & t2 & Hs & H & ->).
  apply bind_inv_ok in H. destruct H as (t3 & final & t4 & Hl & H & ->).
  apply bind_inv_ok in H. destruct H as (t5 & it & t6 & Hi & H & ->).
  apply bind_inv_ok in H. destruct H as (t7 & pt & t8 & Hp & H & ->).
  injection H as <- <-. cbn [calculation_logs].
  exists (iteration_count final).
  apply lookups_start_of_search in Hs. destruct Hs as [E1 C0].
  apply lookups_search_loop in Hl. rewrite C0 in Hl.
  apply individual_times_loop_trace in Hi.
  assert (E5 : lookups t5 = Z.of_nat (length (c :: cs))).
  { subst t5. apply lookups_flat_map. intros d. apply lookups_route_trace. }
  assert (E7 : lookups t7 = Z.of_nat (length (c :: cs))).
  { replace t7 with (trace (calculate_pure_total_time
                             (coords_of (current_point final)) (c :: cs)))
      by (rewrite Hp; reflexivity).
    rewrite calculate_pure_total_time_trace. apply lookups_evaluation. }
  split; [do 5 right; left; reflexivity|].
  rewrite !lookups_app, E1, E5, E7.
  change (lookups []) with 0. nia.
Qed.

(** *** The report of a direct search *)

Lemma individual_times_loop_formatted (o : point) (ws : option (list float))
    (cs : list point) :
  forall i t l,
    individual_times_loop o cs i ws = (t, Ok l) ->
    Forall (fun e => time_formatted e = match time_seconds e with
                                        | Some s => format_hms s
                                        | None => "无法计算"%string
                                        end) l.
Proof.
  induction cs as [|c cs IH]; intros i t l H.
  - injection H as _ <-. constructor.
  - cbn [individual_times_loop] in H.
    apply bind_inv_ok in H. destruct H as (t1 & time & t2 & _ & H & _).
    apply bind_inv_ok in H. destruct H as (t3 & w & t4 & _ & H & _).
    apply bind_inv_ok in H. destruct H as (t5 & l' & t6 & Hl & H & _).
    injection H as _ <-. constructor; [reflexivity|]. eapply IH. exact Hl.
Qed.

Lemma firstn_nth_error {A} (l : list A) (n : nat) :
  (n <= length l)%nat -> map (nth_error l) (seq 0 n) = map Some (firstn n l).
Proof.
  revert n. induction l as [|a l IH]; intros [|n] H; try reflexivity.
  - cbn in H. lia.
  - cbn [seq map firstn nth_error]. f_equal.
    rewrite <- seq_shift, map_map. apply IH. cbn in H. lia.
Qed.

(** X9.  What a direct search reports of the single locations: one entry
    for each location, in the order of the input, with its index, its
    coordinates as given, its weight, and the time the provider gives from
    the final point to it, formatted in hours, minutes and seconds, or
    [None] and the text for an unknown time where the provider gives
    none. *)
Theorem direct_report (fuel : nat) (cs : list point) (ws : option (list float))
    (cm mcs : pyval) (xcs step : Z) (alg : string)
    (t : list event) (r : search_result) :
  find_optimal_point fuel cs ws cm mcs xcs step alg = (t, Ok (Some r)) ->
  let o := coords_of (optimal_point r) in
  map coordinates (individual_times r) = cs /\
  map point_index (individual_times r) = seq 0 (length cs) /\
  map time_seconds (individual_times r) = map (route_time o) cs /\
  (exists l, ws = Some l /\ map weight (individual_times r) = firstn (length cs) l) /\
  Forall (fun e => time_formatted e = match time_seconds e with
                                      | Some s => format_hms s
                                      | None => "无法计算"%string
                                      end) (individual_times r).
Proof.
  intros H o. unfold find_optimal_point in H.
  destruct cs as [|c cs]; [discriminate|].
  apply bind_inv_ok in H. destruct H as (t1 & [info start] & t2 & _ & H & _).
  apply bind_inv_ok in H. destruct H as (t3 & final & t4 & _ & H & _).
  apply bind_inv_ok in H. destruct H as (t5 & it & t6 & Hi & H & _).
  apply bind_inv_ok in H. destruct H as (t7 & pt & t8 & _ & H & _).
  injection H as _ <-. unfold o. cbn [optimal_point individual_times].
  pose proof (individual_times_loop_formatted _ _ _ _ _ _ Hi) as Hf.
  destruct (individual_times_loop_weights _ _ _ _ _ _ Hi) as [E|(l & -> & L)];
    [discriminate|].
  destruct (individual_times_loop_spec _ _ _ _ _ _ Hi) as (H1 & H2 & H3 & H4 & _).
  repeat split; try assumption.
  exists l. split; [reflexivity|].
  apply map_Some_inj. rewrite map_map, H4. apply firstn_nth_error. exact L.
Qed.

(** X10.  The hours, minutes and seconds that a time is shown with add up
    to the time: the minutes and the seconds are below sixty and never
    negative, and the hours are negative only for a negative time. *)
Theorem formatted_time_adds_up (t : Z) :
  exists h m s,
    format_hms t = (string_of_Z h ++ "小时" ++ string_of_Z m ++ "分钟"
                    ++ string_of_Z s ++ "秒")%string /\
    t = 3600 * h + 60 * m + s /\
    0 <= m < 60 /\ 0 <= s < 60 /\ (0 <= h <-> 0 <= t).
Proof.
  exists (t / 3600), ((t mod 3600) / 60), (t mod 60).
  split; [reflexivity|].
  repeat split; Z.div_mod_to_equations; lia.
Qed.

(** *** A provider without answers *)

Lemma silent_total (rp : point) (cws : list (point * float)) (acc : float) :
  silent -> fold_left (add_weighted rp) cws acc = acc.
Proof.
  intros S. revert acc. induction cws as [|cw cws IH]; intros acc; [reflexivity|].
  cbn [fold_left]. unfold add_weighted at 2. rewrite S. apply IH.
Qed.

Lemma silent_max (rp : point) (cs : list point) (acc : Z) :
  silent -> fold_left (take_max rp) cs acc = acc.
Proof.
  intros S. revert acc. induction cs as [|c cs IH]; intros acc; [reflexivity|].
  cbn [fold_left]. unfold take_max at 2. rewrite S. apply IH.
Qed.

Lemma silent_objective (alg : string) (p : pypoint) (cs : list point)
    (ws : option (list float)) :
  silent -> outcome (objective alg p cs ws) = Ok 0.
Proof.
  intros S. unfold objective. destruct (String.eqb alg "min_max_time").
  - unfold calculate_max_time. destruct cs as [|c cs]; [reflexivity|].
    rewrite outcome_bind, max_time_loop_eq. cbn [outcome snd].
    rewrite (silent_max _ _ _ S). reflexivity.
  - unfold calculate_total_time. destruct cs as [|c cs]; [reflexivity|].
    rewrite outcome_bind, total_time_loop_eq. cbn [outcome snd].
    rewrite (silent_total _ _ _ S). reflexivity.
Qed.

Lemma silent_probe (cs : list point) (ws : option (list float)) (alg : string)
    (s : search_state) (dirs : list (Z * Z)) (found : option (point * Z)) :
  silent -> current_time s = 0 ->
  outcome (probe dirs cs ws alg s) = Ok found -> found = None.
Proof.
  intros S Z0. induction dirs as [|d dirs IH]; [intros [= <-]; reflexivity|].
  cbn [probe]. destruct (direction_name d); [|discriminate].
  rewrite outcome_bind.
  destruct (outcome (new_point (current_point s) d (radius s))) as [np| |];
    try discriminate.
  rewrite outcome_bind, (silent_objective _ _ _ _ S), Z0. cbn [Z.ltb Z.compare].
  exact IH.
Qed.

Lemma silent_search_loop (cs : list point) (ws : option (list float)) (alg : string)
    (fuel : nat) :
  silent ->
  forall s s', current_time s = 0 ->
    outcome (search_loop fuel cs ws alg s) = Ok s' ->
    current_point s' = current_point s /\ current_time s' = 0.
Proof.
  intros S. induction fuel as [|fuel IH]; intros s s' Z0;
    rewrite search_loop_unfold;
    destruct (min_radius <=? radius s)%float; try discriminate;
    try (intros [= <-]; split; [reflexivity|exact Z0]).
  rewrite outcome_bind. unfold iteration at 1. rewrite outcome_bind.
  destruct (outcome (probe directions cs ws alg s)) as [found| |] eqn:P;
    try discriminate.
  rewrite (silent_probe _ _ _ _ _ _ S Z0 P). cbn [outcome ret snd].
  intros H. apply IH in H; [exact H|exact Z0].
Qed.

Lemma silent_times (rp : point) (cs : list point) :
  silent -> successful_times rp cs = [].
Proof.
  intros S. unfold successful_times. induction cs as [|c cs IH]; [reflexivity|].
  cbn [flat_map]. rewrite S, IH. reflexivity.
Qed.

(** X11.  When the provider has no answer to any lookup, every cost is [0],
    no probed point is strictly better than the starting point, and the
    search, after halving its radius down to the floor, returns the point it
    started from, the centroid, with a total time and a pure total time of
    [0] and no time for any location.  A provider that fails is not
    reported as a failure. *)
Theorem silent_provider_gives_centroid (fuel : nat) (cs : list point)
    (ws : option (list float)) (cm mcs : pyval) (xcs step : Z) (alg : string)
    (t : list event) (r : search_result) :
  silent ->
  find_optimal_point fuel cs ws cm mcs xcs step alg = (t, Ok (Some r)) ->
  (exists info start,
     outcome (start_of_search cs ws cm mcs xcs step alg) = Ok (info, start) /\
     optimal_point r = current_point start) /\
  ((length cs <= cluster_threshold)%nat ->
   calculate_centroid cs ws = Centroid (optimal_point r)) /\
  total_time r = 0 /\ pure_total_time r = 0 /\
  Forall (fun e => time_seconds e = None /\ time_formatted e = "无法计算"%string)
    (individual_times r).
Proof.
  intros S H. unfold find_optimal_point in H.
  destruct cs as [|c cs]; [discriminate|].
  apply bind_inv_ok in H. destruct H as (t1 & [info start] & t2 & Hs & H & _).
  apply bind_inv_ok in H. destruct H as (t3 & final & t4 & Hl & H & _).
  apply bind_inv_ok in H. destruct H as (t5 & it & t6 & Hi & H & _).
  apply bind_inv_ok in H. destruct H as (t7 & pt & t8 & Hp & H & _).
  injection H as _ <-. cbn [optimal_point total_time pure_total_time individual_times].
  pose proof (start_of_search_cost_of_point _ _ _ _ _ _ _ _ _ _ Hs) as C0.
  unfold cost_of_point in C0. rewrite (silent_objective _ _ _ _ S) in C0.
  injection C0 as C0. symmetry in C0.
  assert (Hl' : outcome (search_loop fuel (c :: cs) ws alg start) = Ok final)
    by (rewrite Hl; reflexivity).
  destruct (silent_search_loop _ _ _ _ S _ _ C0 Hl') as [Pf Tf].
  split; [exists info, start; split; [rewrite Hs; reflexivity|exact Pf]|].
  split; [|split; [exact Tf|split]].
  - intros Hn. rewrite Pf.
    rewrite (start_of_search_few _ _ cm mcs xcs _ _ Hn) in Hs.
    unfold start_of_search in Hs.
    assert (E : (cluster_threshold <? length (c :: cs))%nat = false)
      by (apply Nat.ltb_ge; exact Hn).
    rewrite E in Hs. cbn [andb is_none truthy] in Hs.
    apply bind_inv_ok in Hs. destruct Hs as (u1 & [i0 p0] & u2 & Hc & Hs & _).
    apply bind_inv_ok in Hc. destruct Hc as (u3 & q & u4 & Hq & Hc & _).
    injection Hc as _ <- <-.
    apply bind_inv_ok in Hs. destruct Hs as (u5 & t0 & u6 & _ & Hs & _).
    apply bind_inv_ok in Hs. destruct Hs as (u7 & rad & u8 & _ & Hs & _).
    apply bind_inv_ok in Hs. destruct Hs as (u9 & [] & u10 & _ & Hs & _).
    injection Hs as _ _ <-. cbn [current_point].
    destruct (calculate_centroid (c :: cs) ws) as [|q']; [discriminate|].
    injection Hq as _ <-. reflexivity.
  - pose proof (calculate_pure_total_time_eq (coords_of (current_point final)) (c :: cs))
      as E. rewrite Hp, (silent_times _ _ S) in E. injection E as _ ->. reflexivity.
  - pose proof (individual_times_loop_formatted _ _ _ _ _ _ Hi) as F.
    destruct (individual_times_loop_weights _ _ _ _ _ _ Hi) as [E|(l & -> & L)];
      [discriminate|].
    destruct (individual_times_loop_spec _ _ _ _ _ _ Hi) as (_ & _ & H3 & _ & _).
    assert (N : Forall (fun e => time_seconds e = None) it).
    { clear - H3 S. revert H3. generalize (c :: cs). intros l.
      revert l. induction it as [|e it IH]; intros l H3; [constructor|].
      destruct l as [|d l]; [discriminate|]. cbn [map] in H3.
      injection H3 as He H3. rewrite S in He. constructor; [exact He|].
      exact (IH _ H3). }
    rewrite Forall_forall in *. intros e He. split; [exact (N e He)|].
    rewrite (F e He), (N e He). reflexivity.
Qed.

(** *** A step below the floor *)

Lemma small_step_radius (step : Z) (f : float) :
  0 <= step <= 11 -> float_of_int step = Some f ->
  (min_radius <=? f * 0.000009)%float = false.
Proof.
  intros H E.
  assert (C : step = 0 \/ step = 1 \/ step = 2 \/ step = 3 \/ step = 4 \/ step = 5 \/
              step = 6 \/ step = 7 \/ step = 8 \/ step = 9 \/ step = 10 \/ step = 11)
    by lia.
  repeat (destruct C as [->|C]; [vm_compute in E; injection E as <-; reflexivity|]).
  subst step. vm_compute in E. injection E as <-. reflexivity.
Qed.

(** X12.  A search whose step is 11 metres or less does not search: its
    starting radius, the step times 0.000009, is below [min_radius] already,
    the loop makes no iteration, and the result is the starting point (the
    centroid) with its cost, after one evaluation and the two passes that
    end the method.  A step of 12 metres is the first that probes. *)
Theorem step_below_the_floor (fuel : nat) (cs : list point)
    (ws : option (list float)) (cm mcs : pyval) (xcs step : Z) (alg : string)
    (t : list event) (r : search_result) :
  0 <= step <= 11 ->
  find_optimal_point fuel cs ws cm mcs xcs step alg = (t, Ok (Some r)) ->
  In (LogIterations 0) (calculation_logs r) /\
  lookups t = 3 * Z.of_nat (length cs) /\
  exists info start,
    outcome (start_of_search cs ws cm mcs xcs step alg) = Ok (info, start) /\
    optimal_point r = current_point start /\
    total_time r = current_time start.
Proof.
  intros Hstep H.
  unfold find_optimal_point in H.
  destruct cs as [|c cs]; [discriminate|].
  apply bind_inv_ok in H. destruct H as (t1 & [info start] & t2 & Hs & H & ->).
  apply bind_inv_ok in H. destruct H as (t3 & final & t4 & Hl & H & ->).
  apply bind_inv_ok in H. destruct H as (t5 & it & t6 & Hi & H & ->).
  apply bind_inv_ok in H. destruct H as (t7 & pt & t8 & Hp & H & ->).
  injection H as <- <-. cbn [optimal_point total_time calculation_logs].
  destruct (start_of_search_state _ _ _ _ _ _ _ _ _ _ Hs) as (f & Hf & Hr & _).
  pose proof (small_step_radius _ _ Hstep Hf) as Small. rewrite <- Hr in Small.
  rewrite search_loop_unfold, Small in Hl. injection Hl as <- <-.
  destruct (lookups_start_of_search _ _ _ _ _ _ _ _ _ _ Hs) as [E1 C0].
  apply individual_times_loop_trace in Hi.
  assert (E5 : lookups t5 = Z.of_nat (length (c :: cs))).
  { subst t5. apply lookups_flat_map. intros d. apply lookups_route_trace. }
  assert (E7 : lookups t7 = Z.of_nat (length (c :: cs))).
  { replace t7 with (trace (calculate_pure_total_time
                             (coords_of (current_point start)) (c :: cs)))
      by (rewrite Hp; reflexivity).
    rewrite calculate_pure_total_time_trace. apply lookups_evaluation. }
  split; [rewrite C0; do 5 right; left; reflexivity|].
  split.
  - rewrite !lookups_app, E1, E5, E7. change (lookups []) with 0. lia.
  - exists info, start. rewrite Hs. auto.
Qed.

(** *** The size of a cluster *)

Lemma group_append_keys (label : Z) (c : point) (w : float) (g : groups) (x : Z) :
  In x (map fst (group_append label c w g)) <-> x = label \/ In x (map fst g).
Proof.
  induction g as [|[l [cs ws]] g IH]; cbn [group_append map fst In].
  - intuition.
  - destruct (l =? label) eqn:E; cbn [map fst In].
    + apply Z.eqb_eq in E. subst l. intuition.
    + rewrite IH. intuition.
Qed.

Lemma group_append_NoDup (label : Z) (c : point) (w : float) (g : groups) :
  NoDup (map fst g) -> NoDup (map fst (group_append label c w g)).
Proof.
  induction g as [|[l [cs ws]] g IH]; cbn [group_append map fst]; intros N.
  - constructor; [intros []|constructor].
  - inversion N as [|? ? Hn N']; subst.
    destruct (l =? label) eqn:E; cbn [map fst].
    + constructor; assumption.
    + apply Z.eqb_neq in E. constructor; [|exact (IH N')].
      rewrite group_append_keys. intros [->|H]; [congruence|exact (Hn H)].
Qed.

Lemma group_by_label_keys (cs : list point) (ws : list float) (labels : list Z) :
  forall (i : nat) (g g' : groups),
    group_by_label labels i cs (Some ws) g = Value g' ->
    NoDup (map fst g) ->
    NoDup (map fst g') /\
    (forall x, In x (map fst g') -> In x (map fst g) \/ In x labels).
Proof.
  induction labels as [|l labels IH]; intros i g g' H N.
  - injection H as <-. split; [exact N|]. intros x Hx. left. exact Hx.
  - cbn [group_by_label] in H.
    destruct (nth_error cs i) as [c|]; [|discriminate].
    unfold subscript in H. destruct (nth_error ws i) as [w|]; [|discriminate].
    cbn [rbind] in H.
    destruct (IH _ _ _ H (group_append_NoDup l c w g N)) as [N' K].
    split; [exact N'|]. intros x Hx. destruct (K x Hx) as [Hg|Hl].
    + apply group_append_keys in Hg. destruct Hg as [->|Hg]; [right; left|left]; auto.
    + right. right. exact Hl.
Qed.

Lemma bounded_keys (keys : list Z) (k : Z) :
  NoDup keys -> Forall (fun x => 0 <= x < k) keys -> Z.of_nat (length keys) <= Z.max 0 k.
Proof.
  intros N F.
  assert (I : incl keys (map Z.of_nat (seq 0 (Z.to_nat k)))).
  { intros x Hx. rewrite Forall_forall in F. specialize (F x Hx).
    apply in_map_iff. exists (Z.to_nat x). split; [lia|].
    apply in_seq. lia. }
  pose proof (NoDup_incl_length N I) as L.
  rewrite length_map, length_seq in L. lia.
Qed.

Lemma members_bound (clusters : list (list point * list float)) (m : nat) :
  Forall proper_cluster clusters ->
  Forall (fun cl => (length (fst cl) <= m)%nat) clusters ->
  (length (flat_map members clusters) <= length clusters * m)%nat.
Proof.
  intros P. induction P as [|cl clusters [_ Hl] _ IH]; intros F; [cbn; lia|].
  inversion F as [|? ? Hm F']; subst. specialize (IH F').
  cbn [flat_map length]. rewrite length_app. unfold members at 1.
  rewrite length_combine, Hl. lia.
Qed.

(** X13.  [max_cluster_size] is a target, not a bound.  [_perform_clustering]
    asks K-Means for [n // max_cluster_size] clusters (two at least) and
    takes what it answers; so when the number of locations is twice
    [max_cluster_size] or more and not a multiple of it, one cluster at
    least holds more than [max_cluster_size] locations, whatever K-Means
    answers. *)
Theorem cluster_size_is_not_bounded (cs : list point) (ws : list float)
    (method : string) (param : Z) :
  lower method = "kmeans"%string -> 0 < param ->
  length ws = length cs ->
  2 * param <= Z.of_nat (length cs) ->
  Z.of_nat (length cs) mod param <> 0 ->
  length (kmeans_fit_predict (Z.of_nat (length cs) / param) cs) = length cs ->
  Forall (fun l => 0 <= l < Z.of_nat (length cs) / param)
    (kmeans_fit_predict (Z.of_nat (length cs) / param) cs) ->
  exists clusters,
    _perform_clustering cs ws method param = Value clusters /\
    Z.of_nat (length clusters) <= Z.of_nat (length cs) / param /\
    Exists (fun cl => param < Z.of_nat (length (fst cl))) clusters.
Proof.
  intros Hm Hp Hw Hn Hmod Hl Hr.
  assert (Hq : 2 <= Z.of_nat (length cs) / param)
    by (apply Z.div_le_lower_bound; lia).
  unfold _perform_clustering.
  destruct cs as [|c cs]; [cbn [length] in Hn; lia|].
  rewrite Hm. cbn [String.eqb Ascii.eqb Bool.eqb andb].
  assert (P : (0 <? param) = true) by (apply Z.ltb_lt; exact Hp). rewrite P.
  assert (B : (Z.of_nat (length (c :: cs)) <=? param) = false)
    by (apply Z.leb_gt; lia).
  rewrite B. rewrite (Z.max_r 2 _ Hq).
  destruct (labelled_clusters (c :: cs) ws _ ltac:(discriminate) Hw Hl)
    as (g & E & N & F & Pm).
  rewrite E. cbn [rbind]. exists (map snd g). split; [reflexivity|].
  destruct (group_by_label_keys _ _ _ _ _ _ E (NoDup_nil Z)) as [Nd K].
  assert (Kb : Z.of_nat (length (map snd g)) <= Z.of_nat (length (c :: cs)) / param).
  { rewrite length_map, <- (length_map fst).
    rewrite <- (Z.max_r 0 (Z.of_nat (length (c :: cs)) / param)) by lia.
    apply bounded_keys; [exact Nd|].
    apply Forall_forall. intros x Hx. destruct (K x Hx) as [[]|Hx'].
    rewrite Forall_forall in Hr. exact (Hr x Hx'). }
  split; [exact Kb|].
  destruct (Exists_dec (fun cl : list point * list float =>
                          param < Z.of_nat (length (fst cl))) (map snd g)
              (fun cl => Z_lt_dec param (Z.of_nat (length (fst cl)))))
    as [Big|Small]; [exact Big|exfalso].
  apply Forall_Exists_neg in Small.
  assert (F' : Forall (fun cl => (length (fst cl) <= Z.to_nat param)%nat) (map snd g)).
  { rewrite Forall_forall in *. intros cl Hc. specialize (Small cl Hc). lia. }
  pose proof (members_bound _ _ F F') as Mb.
  rewrite (Permutation_length Pm), length_combine, Hw, Nat.min_id in Mb.
  pose proof (Z.div_mod (Z.of_nat (length (c :: cs))) param ltac:(lia)) as D.
  pose proof (Z.mod_pos_bound (Z.of_nat (length (c :: cs))) param Hp) as Mp.
  nia.
Qed.

End FinderFacts.

(** ** The providers *)

Section KeyFacts.
Import map_api.

Lemma repeat_class_of_class (cls : class) (n : nat) (s rest : text) :
  of_class cls n s -> repeat_class cls n (s ++ rest) = Some rest.
Proof.
  revert s. induction n as [|n IH]; intros [|c s] [Hl Hf]; try discriminate.
  - reflexivity.
  - cbn in Hf. apply andb_prop in Hf. destruct Hf as [Hc Hf].
    cbn [app repeat_class]. rewrite Hc. apply IH. split; [|exact Hf].
    injection Hl as Hl. exact Hl.
Qed.

Lemma repeat_class_inv (cls : class) (n : nat) (s rest : text) :
  repeat_class cls n s = Some rest ->
  exists pre, s = pre ++ rest /\ of_class cls n pre.
Proof.
  revert s. induction n as [|n IH]; intros s H.
  - injection H as ->. exists []. repeat split.
  - destruct s as [|c s]; [discriminate|]. cbn [repeat_class] in H.
    destruct (in_class cls c) eqn:Hc; [|discriminate].
    destruct (IH _ H) as (pre & -> & Hl & Hf).
    exists (c :: pre). split; [reflexivity|]. split; cbn; [f_equal; exact Hl|].
    rewrite Hc. exact Hf.
Qed.

Lemma end_of_string_same_length (s rest : text) (n : nat) :
  length (s ++ rest) = n -> length s = n -> rest = [].
Proof. rewrite length_app. intros H1 H2. destruct rest; [reflexivity|cbn in H1; lia]. Qed.

(** A key of exactly [n] characters passes [^[cls]{n}$] when all its
    characters are of the class, and only then. *)
Lemma re_match_repeat (cls : class) (n : nat) (s : text) :
  length s = n -> (re_match [Repeat cls n] s = true <-> of_class cls n s).
Proof.
  intros Hl. unfold re_match. cbn [match_atoms match_atom]. split.
  - destruct (repeat_class cls n s) as [rest|] eqn:R; [|discriminate].
    intros _. destruct (repeat_class_inv _ _ _ _ R) as (pre & -> & Hp).
    destruct Hp as [Hpl Hpf].
    rewrite (end_of_string_same_length _ _ _ Hl Hpl), app_nil_r. split; assumption.
  - intros H. rewrite <- (app_nil_r s), (repeat_class_of_class _ _ _ _ H). reflexivity.
Qed.

Lemma in_class_lower_letter (c : N) :
  in_class lower_or_digit c = true -> in_class letter_or_digit c = true.
Proof.
  unfold in_class, lower_or_digit, letter_or_digit. cbn [existsb fst snd].
  rewrite !orb_false_r. intros H. apply orb_prop in H. destruct H as [H|H]; rewrite H.
  - reflexivity.
  - rewrite !orb_true_r. reflexivity.
Qed.

Lemma validate_32 (cls : class) (key : text) (m1 m2 : string) :
  fst (match key with
       | [] => (false, "API密钥不能为空"%string)
       | _ =>
           if negb (length key =? 32)%nat then (false, m1)
           else if negb (re_match [Repeat cls 32] key) then (false, m2)
           else (true, ""%string)
       end) = true <-> of_class cls 32 key.
Proof.
  destruct key as [|c key].
  - cbn. split; [discriminate|]. intros [H _]. discriminate.
  - destruct (length (c :: key) =? 32)%nat eqn:L; cbn [negb].
    + apply Nat.eqb_eq in L. rewrite <- (re_match_repeat cls 32 _ L).
      destruct (re_match [Repeat cls 32] (c :: key)); cbn; tauto.
    + apply Nat.eqb_neq in L. cbn. split; [discriminate|]. intros [H _]. contradiction.
Qed.

Lemma keys_of_32_characters_amap (key : text) :
  fst (AmapAPI.validate_api_key key) = true <-> well_formed AmapAPI key.
Proof.
  exact (validate_32 lower_or_digit key
           ("高德地图API密钥长度应为32位，当前长度为" ++ str_len key ++ "位")
           "高德地图API密钥只能包含数字和小写字母").
Qed.

Lemma keys_of_32_characters_baidu (key : text) :
  fst (BaiduMapAPI.validate_api_key key) = true <-> well_formed BaiduMapAPI key.
Proof.
  exact (validate_32 letter_or_digit key
           ("百度地图API密钥长度应为32位，当前长度为" ++ str_len key ++ "位")
           "百度地图API密钥只能包含数字和英文字母（区分大小写）").
Qed.

(** X14.  A key for Amap is accepted exactly when it has 32 characters, all
    of them digits or small letters; a key for Baidu exactly when it has 32
    characters, all of them digits or letters of either case.  So every key
    that Amap accepts is one that Baidu accepts. *)
Theorem keys_of_32_characters (key : text) :
  (fst (AmapAPI.validate_api_key key) = true <-> well_formed AmapAPI key) /\
  (fst (BaiduMapAPI.validate_api_key key) = true <-> well_formed BaiduMapAPI key) /\
  (fst (AmapAPI.validate_api_key key) = true ->
   fst (BaiduMapAPI.validate_api_key key) = true).
Proof.
  pose proof (keys_of_32_characters_amap key) as A.
  pose proof (keys_of_32_characters_baidu key) as B.
  split; [exact A|]. split; [exact B|].
  intros H. apply B. apply A in H. destruct H as [Hl Hf]. split; [exact Hl|].
  apply forallb_forall. intros c Hc. apply in_class_lower_letter.
  rewrite forallb_forall in Hf. apply Hf, Hc.
Qed.

Lemma upper_or_digit_no_dash (c : N) :
  in_class upper_or_digit c = true -> negb (c =? ord "-")%N = true.
Proof.
  unfold in_class, upper_or_digit. cbn [existsb fst snd]. rewrite orb_false_r.
  change (ord "A") with 65%N. change (ord "Z") with 90%N.
  change (ord "0") with 48%N. change (ord "9") with 57%N.
  change (ord "-") with 45%N.
  intros H. apply negb_true_iff, N.eqb_neq. intros ->. discriminate.
Qed.

Lemma filter_no_dash (g : text) :
  forallb (in_class upper_or_digit) g = true ->
  filter (fun c => negb (c =? ord "-")%N) g = g.
Proof.
  induction g as [|c g IH]; [reflexivity|]. cbn [forallb filter]. intros H.
  apply andb_prop in H. destruct H as [Hc Hg].
  rewrite (upper_or_digit_no_dash c Hc), (IH Hg). reflexivity.
Qed.

Lemma match_group_dash (cls : class) (n : nat) (d : N) (p : list atom)
    (s rest : text) :
  match_atoms (Repeat cls n :: Literal d :: p) s = Some rest ->
  exists g s', s = g ++ d :: s' /\ of_class cls n g /\ match_atoms p s' = Some rest.
Proof.
  cbn [match_atoms match_atom].
  destruct (repeat_class cls n s) as [s1|] eqn:R; [|discriminate].
  destruct (repeat_class_inv _ _ _ _ R) as (g & -> & Hg).
  destruct s1 as [|c s']; [discriminate|].
  destruct (d =? c)%N eqn:D; [|discriminate]. apply N.eqb_eq in D. subst c.
  intros H. exists g, s'. auto.
Qed.

Lemma match_group_dash_of_class (cls : class) (n : nat) (d : N) (p : list atom)
    (g s' : text) :
  of_class cls n g ->
  match_atoms (Repeat cls n :: Literal d :: p) (g ++ d :: s') = match_atoms p s'.
Proof.
  intros Hg. cbn [match_atoms match_atom].
  rewrite (repeat_class_of_class _ _ _ _ Hg), N.eqb_refl. reflexivity.
Qed.

Lemma skip_class_all (cls : class) (s : text) :
  forallb (in_class cls) s = true -> skip_class cls s = [].
Proof.
  induction s as [|c s IH]; [reflexivity|]. cbn [forallb skip_class]. intros H.
  apply andb_prop in H. destruct H as [Hc Hs]. rewrite Hc. exact (IH Hs).
Qed.

Lemma forallb_app_true {A} (f : A -> bool) (l1 l2 : list A) :
  forallb f l1 = true -> forallb f l2 = true -> forallb f (l1 ++ l2) = true.
Proof. intros H1 H2. rewrite forallb_app, H1, H2. reflexivity. Qed.

Lemma tencent_accepts (key : text) :
  well_formed TencentMapAPI key ->
  TencentMapAPI.validate_api_key key = (true, ""%string) /\ length key = 35%nat.
Proof.
  intros (groups & Hn & Hg & ->).
  destruct groups as [|g1 [|g2 [|g3 [|g4 [|g5 [|g6 [|]]]]]]]; try discriminate.
  inversion Hg as [|x1 l1 H1 Hg1]; subst x1 l1.
  inversion Hg1 as [|x2 l2 H2 Hg2]; subst x2 l2.
  inversion Hg2 as [|x3 l3 H3 Hg3]; subst x3 l3.
  inversion Hg3 as [|x4 l4 H4 Hg4]; subst x4 l4.
  inversion Hg4 as [|x5 l5 H5 Hg5]; subst x5 l5.
  inversion Hg5 as [|x6 l6 H6 Hg6]; subst x6 l6.
  pose proof H1 as [L1 F1]. pose proof H2 as [L2 F2]. pose proof H3 as [L3 F3].
  pose proof H4 as [L4 F4]. pose proof H5 as [L5 F5]. pose proof H6 as [L6 F6].
  cbn [join].
  assert (Hlen : length (g1 ++ ord "-" :: g2 ++ ord "-" :: g3 ++ ord "-" :: g4 ++
                         ord "-" :: g5 ++ ord "-" :: g6) = 35%nat).
  { repeat (rewrite length_app; cbn [length]). lia. }
  split; [|exact Hlen].
  unfold TencentMapAPI.validate_api_key.
  destruct (g1 ++ _) as [|c0 rest0] eqn:K; [discriminate|]. rewrite <- K. clear K.
  assert (Fl : filter (fun c => negb (c =? ord "-")%N)
                 (g1 ++ ord "-" :: g2 ++ ord "-" :: g3 ++ ord "-" :: g4 ++
                  ord "-" :: g5 ++ ord "-" :: g6)
               = g1 ++ g2 ++ g3 ++ g4 ++ g5 ++ g6).
  { repeat (rewrite filter_app; cbn [filter]; rewrite N.eqb_refl; cbn [negb]).
    rewrite !filter_no_dash by assumption. reflexivity. }
  cbv zeta. rewrite Fl.
  assert (L30 : (length (g1 ++ g2 ++ g3 ++ g4 ++ g5 ++ g6) =? 30)%nat = true).
  { apply Nat.eqb_eq. rewrite !length_app. lia. }
  rewrite L30. cbn [negb].
  assert (P : re_match [Plus upper_or_digit] (g1 ++ g2 ++ g3 ++ g4 ++ g5 ++ g6) = true).
  { assert (Fa : forallb (in_class upper_or_digit)
                   (g1 ++ g2 ++ g3 ++ g4 ++ g5 ++ g6) = true)
      by (repeat apply forallb_app_true; assumption).
    unfold re_match. cbn [match_atoms match_atom].
    destruct (g1 ++ g2 ++ g3 ++ g4 ++ g5 ++ g6) as [|c s] eqn:E;
      [apply Nat.eqb_eq in L30; discriminate|].
    cbn [forallb] in Fa. apply andb_prop in Fa. destruct Fa as [Fc Fs].
    rewrite Fc, (skip_class_all _ _ Fs). reflexivity. }
  rewrite P. cbn [negb].
  assert (Q : re_match TencentMapAPI.key_pattern
                (g1 ++ ord "-" :: g2 ++ ord "-" :: g3 ++ ord "-" :: g4 ++
                 ord "-" :: g5 ++ ord "-" :: g6) = true).
  { unfold re_match, TencentMapAPI.key_pattern.
    rewrite !match_group_dash_of_class by assumption.
    cbn [match_atoms match_atom].
    rewrite <- (app_nil_r g6), (repeat_class_of_class _ _ _ _ H6). reflexivity. }
  rewrite Q. reflexivity.
Qed.

Lemma tencent_accepted (key : text) :
  fst (TencentMapAPI.validate_api_key key) = true -> well_formed TencentMapAPI key.
Proof.
  unfold TencentMapAPI.validate_api_key.
  destruct key as [|c0 key0] eqn:K; [discriminate|]. rewrite <- K. clear K. cbv zeta.
  destruct (length _ =? 30)%nat eqn:L30; [|discriminate]. cbn [negb].
  destruct (re_match [Plus upper_or_digit] _); [|discriminate]. cbn [negb].
  destruct (re_match TencentMapAPI.key_pattern key) eqn:Q; [|discriminate]. intros _.
  unfold re_match, TencentMapAPI.key_pattern in Q.
  match type of Q with match ?m with _ => _ end = _ => destruct m as [rest|] eqn:M end;
    [|discriminate].
  apply match_group_dash in M. destruct M as (g1 & s1 & -> & H1 & M).
  apply match_group_dash in M. destruct M as (g2 & s2 & -> & H2 & M).
  apply match_group_dash in M. destruct M as (g3 & s3 & -> & H3 & M).
  apply match_group_dash in M. destruct M as (g4 & s4 & -> & H4 & M).
  apply match_group_dash in M. destruct M as (g5 & s5 & -> & H5 & M).
  cbn [match_atoms match_atom] in M.
  destruct (repeat_class upper_or_digit 5 s5) as [r|] eqn:R; [|discriminate].
  injection M as ->.
  destruct (repeat_class_inv _ _ _ _ R) as (g6 & -> & H6).
  assert (rest = []) as ->.
  { apply Nat.eqb_eq in L30.
    repeat (rewrite filter_app in L30; cbn [filter] in L30;
            rewrite ?N.eqb_refl in L30; cbn [negb] in L30).
    destruct H1 as [L1 F1], H2 as [L2 F2], H3 as [L3 F3], H4 as [L4 F4],
             H5 as [L5 F5], H6 as [L6 F6].
    rewrite !filter_no_dash in L30 by assumption.
    rewrite !length_app in L30.
    destruct rest as [|c [|c' rest]]; [reflexivity| |discriminate].
    cbn [end_of_string] in Q. apply N.eqb_eq in Q. subst c.
    cbn in L30. lia. }
  rewrite app_nil_r.
  exists [g1; g2; g3; g4; g5; g6]. split; [reflexivity|]. split.
  - repeat (constructor; [assumption|]). constructor.
  - reflexivity.
Qed.

(** X15.  A key for Tencent is accepted exactly when it is six groups of
    five characters, each a digit or a capital letter, joined by hyphens:
    35 characters in all.  No such key is accepted as a key for Amap or
    for Baidu. *)
Theorem tencent_key_groups (key : text) :
  (fst (TencentMapAPI.validate_api_key key) = true <-> well_formed TencentMapAPI key) /\
  (fst (TencentMapAPI.validate_api_key key) = true ->
   length key = 35%nat /\
   fst (AmapAPI.validate_api_key key) = false /\
   fst (BaiduMapAPI.validate_api_key key) = false).
Proof.
  split.
  - split; [apply tencent_accepted|]. intros H.
    rewrite (proj1 (tencent_accepts key H)). reflexivity.
  - intros H. apply tencent_accepted in H. destruct (tencent_accepts key H) as [_ L].
    split; [exact L|].
    unfold AmapAPI.validate_api_key, BaiduMapAPI.validate_api_key.
    destruct key as [|c key]; [discriminate|]. rewrite L. split; reflexivity.
Qed.

Lemma validate_well_formed (p : provider) (key : text) :
  fst (validate p key) = true <-> well_formed p key.
Proof.
  destruct p; cbn [validate].
  - apply (keys_of_32_characters_amap key).
  - apply (keys_of_32_characters_baidu key).
  - split; [apply tencent_accepted|]. intros H.
    rewrite (proj1 (tencent_accepts key H)). reflexivity.
Qed.

(** A check answers [(True, '')] or [False] with a message. *)
Lemma validate_answer (p : provider) (key : text) :
  validate p key = (true, ""%string) \/
  (fst (validate p key) = false /\ snd (validate p key) <> ""%string).
Proof.
  destruct p; cbn [validate];
    unfold AmapAPI.validate_api_key, BaiduMapAPI.validate_api_key,
      TencentMapAPI.validate_api_key;
    (destruct key as [|c key]; [right; split; [reflexivity|discriminate]|]);
    cbv zeta;
    repeat match goal with
           | |- context [if negb ?b then _ else _] =>
               destruct b; cbn [negb];
               [|right; split; [reflexivity|discriminate]]
           end;
    left; reflexivity.
Qed.

Lemma dispatch_by_name (key : text) (api_type : string) :
  (exists p, lower api_type = name_of p /\
             MapAPI.validate_api_key key api_type = validate p key) \/
  ((forall p, lower api_type <> name_of p) /\
   MapAPI.validate_api_key key api_type =
   (false, ("不支持的地图API类型: " ++ api_type)%string)).
Proof.
  unfold MapAPI.validate_api_key.
  destruct (String.eqb (lower api_type) "amap") eqn:A.
  { left. exists AmapAPI. apply String.eqb_eq in A. auto. }
  destruct (String.eqb (lower api_type) "baidu") eqn:B.
  { left. exists BaiduMapAPI. apply String.eqb_eq in B. auto. }
  destruct (String.eqb (lower api_type) "tencent") eqn:T.
  { left. exists TencentMapAPI. apply String.eqb_eq in T. auto. }
  right. split; [|reflexivity].
  apply String.eqb_neq in A, B, T. intros []; assumption.
Qed.

Lemma name_of_inj (p q : provider) : name_of p = name_of q -> p = q.
Proof. destruct p, q; intros H; try reflexivity; discriminate. Qed.

Lemma create_by_name (p : provider) (api_type : string) (key : text) :
  lower api_type = name_of p ->
  create_map_api api_type key =
  if fst (validate p key) then Value (new p key)
  else Error (ValueError (snd (validate p key))).
Proof.
  intros L. unfold create_map_api, MapAPI.validate_api_key. rewrite L.
  destruct p; cbn [name_of String.eqb Ascii.eqb Bool.eqb andb validate new];
    match goal with |- context [let '(_, _) := ?v in _] => destruct v as [[|] m] end;
    reflexivity.
Qed.

(** X16.  [create_map_api] makes an object exactly when the name, read
    without regard to case, is one of [amap], [baidu] and [tencent] and the
    key has the form of that provider; the object is of that provider's
    class, holds the key as given, and starts with no call counted, three
    retries and a delay of one second.  In every other case it raises a
    [ValueError] whose message is the one of [MapAPI.validate_api_key], and
    that message is never empty; the [else] that ends the function is never
    reached. *)
Theorem factory_checks_the_key (api_type : string) (key : text) :
  (forall a, create_map_api api_type key = Value a <->
             exists p, lower api_type = name_of p /\ well_formed p key /\
                       a = new p key) /\
  (forall a, create_map_api api_type key = Value a ->
             api_key a = key /\ api_call_count a = 0 /\
             max_retries a = 3 /\ retry_delay a = 1) /\
  (forall e, create_map_api api_type key = Error e ->
             fst (MapAPI.validate_api_key key api_type) = false /\
             e = ValueError (snd (MapAPI.validate_api_key key api_type)) /\
             snd (MapAPI.validate_api_key key api_type) <> ""%string).
Proof.
  assert (V : forall a, create_map_api api_type key = Value a <->
                        exists p, lower api_type = name_of p /\ well_formed p key /\
                                  a = new p key).
  { intros a. destruct (dispatch_by_name key api_type) as [(p & L & D)|[N D]].
    - rewrite (create_by_name p _ _ L). split.
      + destruct (fst (validate p key)) eqn:F; [|discriminate].
        intros [= <-]. exists p. split; [exact L|]. split; [|reflexivity].
        apply validate_well_formed, F.
      + intros (q & Lq & Wq & ->).
        assert (q = p) as -> by (apply name_of_inj; congruence).
        apply validate_well_formed in Wq. rewrite Wq. reflexivity.
    - split.
      + unfold create_map_api. rewrite D. discriminate.
      + intros (q & Lq & _). destruct (N q Lq). }
  split; [exact V|]. split.
  - intros a H. apply V in H. destruct H as (p & _ & _ & ->).
    destruct p; repeat split.
  - intros e. destruct (dispatch_by_name key api_type) as [(p & L & D)|[N D]].
    + rewrite (create_by_name p _ _ L), D.
      destruct (validate_answer p key) as [E|[F M]].
      * rewrite E. discriminate.
      * rewrite F. intros [= <-]. auto.
    + unfold create_map_api. rewrite D. cbn. intros [= <-].
      repeat split. discriminate.
Qed.

End KeyFacts.

Section RetryFacts.
Import map_api map_api.MapAPI.
Context {W A E : Type}.
Variable str : E -> string.
Variable request_func : W -> W * (A + E).

Lemma retry_loop_spec (self : api_object) (fuel : nat) :
  forall (retries : Z) (last_error : option E) (w w' : W) (t : list effect)
         (r : loop_end (A := A) (E := E)),
    0 <= retries <= max_retries self ->
    (Z.to_nat (max_retries self - retries) < fuel)%nat ->
    retry_loop str fuel self request_func retries last_error w = (t, w', r) ->
    exists k : nat,
      retries + Z.of_nat k <= max_retries self /\
      t = retried (retry_delay self) k /\
      (forall i, (i < k)%nat ->
         exists e, snd (attempt request_func i w) = inr e /\
                   rate_limited str e = true) /\
      w' = fst (attempt request_func k w) /\
      match snd (attempt request_func k w) with
      | inl a => r = Returns a
      | inr e => r = Leaves (Some e) /\
                 (rate_limited str e = true ->
                  retries + Z.of_nat k = max_retries self)
      end.
Proof.
  induction fuel as [|fuel IH]; intros retries last_error w w' t r Hr Hf H; [lia|].
  cbn [retry_loop] in H.
  assert (T : (retries <=? max_retries self) = true) by (apply Z.leb_le; lia).
  rewrite T in H.
  destruct (request_func w) as [w1 answer] eqn:R.
  destruct answer as [a|e].
  - injection H as <- <- <-. exists 0%nat. cbn [attempt retried]. rewrite R. cbn.
    repeat split; try lia.
  - fold (rate_limited str e) in H.
    destruct (rate_limited str e) eqn:L.
    + destruct (retry_loop str fuel self request_func (retries + 1) (Some e) w1)
        as [[t1 w2] r1] eqn:Loop.
      injection H as <- <- <-.
      destruct (retries + 1 <=? max_retries self) eqn:T1.
      * apply Z.leb_le in T1.
        apply IH in Loop; [|lia|lia].
        destruct Loop as (k & Hk & Ht & Hall & Hw & Hlast).
        exists (S k). cbn [attempt retried app]. rewrite R. cbn [fst].
        split; [lia|]. split; [rewrite Ht; reflexivity|]. split; [|split].
        -- intros [|i] Hi; cbn [attempt]; rewrite R; cbn [fst snd].
           ++ exists e. auto.
           ++ apply Hall. lia.
        -- exact Hw.
        -- destruct (snd (attempt request_func k w1)); [exact Hlast|].
           destruct Hlast as [-> Hm]. split; [reflexivity|]. intros X.
           specialize (Hm X). lia.
      * assert (Loop' : retry_loop str fuel self request_func (retries + 1) (Some e) w1
                        = ([], w1, Leaves (Some e)))
          by (destruct fuel; cbn [retry_loop]; rewrite T1; reflexivity).
        rewrite Loop' in Loop. injection Loop as <- <- <-.
        apply Z.leb_gt in T1.
        exists 0%nat. cbn [attempt retried app]. rewrite R. cbn.
        repeat split; try lia.
    + injection H as <- <- <-. exists 0%nat. cbn [attempt retried]. rewrite R.
      cbn [fst snd]. split; [lia|]. split; [reflexivity|]. split; [intros; lia|].
      split; [reflexivity|]. split; [reflexivity|]. intros X. congruence.
Qed.

Lemma handle_api_request_spec (self : api_object) (w w' : W) (t : list effect)
    (self' : api_object) (out : handled (A := A) (E := E)) :
  0 <= max_retries self ->
  _handle_api_request str self request_func w = (t, w', self', out) ->
  self' = counted self /\
  exists k : nat,
    Z.of_nat k <= max_retries self /\
    t = retried (retry_delay self) k /\
    (forall i, (i < k)%nat ->
       exists e, snd (attempt request_func i w) = inr e /\
                 rate_limited str e = true) /\
    w' = fst (attempt request_func k w) /\
    match snd (attempt request_func k w) with
    | inl a => out = Return (Some a)
    | inr e => out = Raise e /\
               (rate_limited str e = true -> Z.of_nat k = max_retries self)
    end.
Proof.
  intros Hm H. unfold _handle_api_request in H.
  fold (counted self) in H.
  destruct (retry_loop str (S (Z.to_nat (max_retries (counted self)))) (counted self)
              request_func 0 None w) as [[t1 w1] r] eqn:Loop.
  injection H as <- <- <- <-. split; [reflexivity|].
  apply retry_loop_spec in Loop; cbn [counted max_retries retry_delay] in *; try lia.
  destruct Loop as (k & Hk & Ht & Hall & Hw & Hlast).
  exists k. split; [lia|]. split; [exact Ht|]. split; [exact Hall|].
  split; [exact Hw|].
  destruct (snd (attempt request_func k w)); [rewrite Hlast; reflexivity|].
  destruct Hlast as [-> Hl]. split; [reflexivity|]. intros X. specialize (Hl X). lia.
Qed.

(** X17.  A call of [_handle_api_request] counts as one call, whatever it
    takes: [api_call_count] goes up by one.  It calls [request_func] at
    least once and at most [max_retries + 1] times, sleeps [retry_delay]
    seconds between two calls and at no other time, and comes to an end: it
    returns what [request_func] returned or raises what it raised, never
    the [None] of its last line. *)
Theorem retry_budget (self : api_object) (w w' : W) (t : list effect)
    (self' : api_object) (out : handled (A := A) (E := E)) :
  0 <= max_retries self ->
  _handle_api_request str self request_func w = (t, w', self', out) ->
  api_call_count self' = api_call_count self + 1 /\
  max_retries self' = max_retries self /\
  (exists k : nat,
     Z.of_nat k <= max_retries self /\ t = retried (retry_delay self) k) /\
  out <> OutOfFuel /\ out <> Return None.
Proof.
  intros Hm H.
  destruct (handle_api_request_spec _ _ _ _ _ _ Hm H)
    as (-> & k & Hk & Ht & _ & _ & Hlast).
  split; [reflexivity|]. split; [reflexivity|].
  split; [exists k; auto|].
  destruct (snd (attempt request_func k w)) as [a|e].
  - subst out. split; discriminate.
  - destruct Hlast as [-> _]. split; discriminate.
Qed.

(** X18.  What [_handle_api_request] comes to is the answer to its last
    attempt: the value it returns is the one [request_func] returned then,
    the exception it raises the one [request_func] raised then.  Every
    attempt before the last one ended in an exception whose text, in lower
    case, contains [qps], [exceeded] or [limit]; an exception without these
    words is raised at once, and one with them is raised only when
    [max_retries] retries have been made. *)
Theorem retry_outcome (self : api_object) (w w' : W) (t : list effect)
    (self' : api_object) (out : handled (A := A) (E := E)) :
  0 <= max_retries self ->
  _handle_api_request str self request_func w = (t, w', self', out) ->
  exists k : nat,
    t = retried (retry_delay self) k /\
    (forall i, (i < k)%nat ->
       exists e, snd (attempt request_func i w) = inr e /\
                 rate_limited str e = true) /\
    w' = fst (attempt request_func k w) /\
    match snd (attempt request_func k w) with
    | inl a => out = Return (Some a)
    | inr e => out = Raise e /\
               (rate_limited str e = true -> Z.of_nat k = max_retries self)
    end.
Proof.
  intros Hm H.
  destruct (handle_api_request_spec _ _ _ _ _ _ Hm H)
    as (_ & k & Hk & Ht & Hall & Hw & Hlast).
  exists k. auto.
Qed.

End RetryFacts.

Section AddressFacts.
Import map_api map_api.MapAPI.


Lemma space_is_whitespace : in_class whitespace space = true /\ in_class parentheses space = false.
Proof. split; reflexivity. Qed.

Lemma sub_runs_true_starts (s : text) :
  starts_ws (sub_runs whitespace space true s) = false.
Proof.
  induction s as [|c s IH]; [reflexivity|]. cbn [sub_runs].
  destruct (in_class whitespace c) eqn:C; [exact IH|]. cbn [starts_ws]. exact C.
Qed.

Lemma sub_runs_collapsed (s : text) :
  forall b, collapsed (sub_runs whitespace space b s).
Proof.
  induction s as [|c s IH]; intros b; [exact I|]. cbn [sub_runs].
  destruct (in_class whitespace c) eqn:C.
  - destruct b; [apply IH|]. cbn [collapsed]. split; [|apply IH].
    intros _. split; [reflexivity|apply sub_runs_true_starts].
  - cbn [collapsed]. split; [|apply IH]. rewrite C. discriminate.
Qed.

Lemma sub_runs_fixed (s : text) :
  collapsed s ->
  sub_runs whitespace space false s = s /\
  (starts_ws s = false -> sub_runs whitespace space true s = s).
Proof.
  induction s as [|c s IH]; intros H; [split; reflexivity|].
  destruct H as [Hc Hs]. destruct (IH Hs) as [IH1 IH2].
  cbn [sub_runs starts_ws]. destruct (in_class whitespace c) eqn:C.
  - destruct (Hc eq_refl) as [-> St]. split; [|discriminate].
    rewrite (IH2 St). reflexivity.
  - rewrite IH1. split; reflexivity.
Qed.

Lemma sub_runs_no_parentheses (s : text) :
  Forall (fun c => in_class parentheses c = false) s ->
  forall b, Forall (fun c => in_class parentheses c = false) (sub_runs whitespace space b s).
Proof.
  induction 1 as [|c s Hc _ IH]; intros b; [constructor|]. cbn [sub_runs].
  destruct (in_class whitespace c); [destruct b|]; try constructor; auto.
Qed.

Lemma sub_class_no_parentheses (s : text) :
  Forall (fun c => in_class parentheses c = false) (sub_class parentheses space s).
Proof.
  unfold sub_class. apply Forall_map. apply Forall_forall. intros c _.
  destruct (in_class parentheses c) eqn:C; [reflexivity|exact C].
Qed.

Lemma collapsed_spaces (s : text) :
  collapsed s -> Forall (fun c => in_class whitespace c = true -> c = space) s.
Proof.
  induction s as [|c s IH]; intros H; [constructor|]. destruct H as [Hc Hs].
  constructor; [|exact (IH Hs)]. intros C. exact (proj1 (Hc C)).
Qed.

(** [lstrip] and [rstrip] cut white space off one end. *)
Lemma lstrip_suffix (s : text) :
  exists pre, s = pre ++ lstrip s /\ starts_ws (lstrip s) = false.
Proof.
  unfold lstrip. induction s as [|c s (pre & E & St)]; [exists []; auto|].
  cbn [skip_class]. destruct (in_class whitespace c) eqn:C.
  - exists (c :: pre). split; [cbn; f_equal; exact E|exact St].
  - exists []. split; [reflexivity|exact C].
Qed.

Lemma rstrip_prefix (s : text) :
  exists suf, s = rstrip s ++ suf /\ starts_ws (rev (rstrip s)) = false.
Proof.
  unfold rstrip. destruct (lstrip_suffix (rev s)) as (pre & E & St).
  exists (rev pre). split.
  - rewrite <- rev_app_distr, <- E, rev_involutive. reflexivity.
  - rewrite rev_involutive. exact St.
Qed.

Lemma strip_middle (s : text) :
  exists pre suf,
    s = pre ++ strip s ++ suf /\
    starts_ws (strip s) = false /\ starts_ws (rev (strip s)) = false.
Proof.
  unfold strip. destruct (lstrip_suffix s) as (pre & E & St).
  destruct (rstrip_prefix (lstrip s)) as (suf & E' & St').
  exists pre, suf. split; [rewrite <- E'; exact E|]. split; [|exact St'].
  destruct (rstrip (lstrip s)) as [|c r] eqn:R; [reflexivity|].
  rewrite E' in St. exact St.
Qed.

Lemma collapsed_app (l1 l2 : text) : collapsed (l1 ++ l2) -> collapsed l2.
Proof. induction l1 as [|c l1 IH]; [auto|]. intros [_ H]. exact (IH H). Qed.

Lemma collapsed_prefix (l1 l2 : text) : collapsed (l1 ++ l2) -> collapsed l1.
Proof.
  induction l1 as [|c l1 IH]; [intros; exact I|]. cbn [app collapsed].
  intros [Hc H]. split; [|exact (IH H)].
  intros C. destruct (Hc C) as [-> St]. split; [reflexivity|].
  destruct l1; [reflexivity|exact St].
Qed.

Lemma collapsed_no_double (s : text) :
  collapsed s -> forall l1 l2, s <> l1 ++ space :: space :: l2.
Proof.
  intros H l1 l2 ->. apply collapsed_app in H. destruct H as [Hc _].
  destruct (Hc eq_refl) as [_ St]. discriminate St.
Qed.

Lemma starts_ws_not_space (s : text) :
  starts_ws s = false -> forall l, s <> space :: l.
Proof. intros H l ->. discriminate H. Qed.

Lemma ends_ws_not_space (s : text) :
  starts_ws (rev s) = false -> forall l, s <> l ++ [space].
Proof. intros H l ->. rewrite rev_app_distr in H. discriminate H. Qed.

Lemma preprocess_address_tidy (address : text) :
  tidy (_preprocess_address address).
Proof.
  unfold _preprocess_address. cbv zeta.
  set (s2 := sub_runs whitespace space false (sub_class parentheses space address)).
  assert (C2 : collapsed s2) by apply sub_runs_collapsed.
  assert (P2 : Forall (fun c => in_class parentheses c = false) s2)
    by (apply sub_runs_no_parentheses, sub_class_no_parentheses).
  destruct (strip_middle s2) as (pre & suf & E & St & En).
  assert (C3 : collapsed (strip s2)).
  { rewrite E in C2. apply collapsed_app in C2. apply collapsed_prefix in C2. exact C2. }
  assert (P3 : Forall (fun c => in_class parentheses c = false) (strip s2)).
  { rewrite E in P2. apply Forall_app in P2. destruct P2 as [_ P2].
    apply Forall_app in P2. exact (proj1 P2). }
  split; [|split; [|split]].
  - pose proof (collapsed_spaces _ C3) as S3.
    rewrite Forall_forall in *. intros c Hc. split; [apply P3, Hc|apply S3, Hc].
  - apply collapsed_no_double, C3.
  - apply starts_ws_not_space, St.
  - apply ends_ws_not_space, En.
Qed.

Lemma tidy_fixed (s : text) : tidy s -> _preprocess_address s = s.
Proof.
  intros (F & D & Hd & Tl). unfold _preprocess_address. cbv zeta.
  assert (E1 : sub_class parentheses space s = s).
  { unfold sub_class. rewrite <- (map_id s) at 2. apply map_ext_in.
    intros c Hc. rewrite Forall_forall in F. rewrite (proj1 (F c Hc)). reflexivity. }
  rewrite E1.
  assert (St : forall l : text,
             Forall (fun c => in_class whitespace c = true -> c = space) l ->
             (forall l', l <> space :: l') -> starts_ws l = false).
  { intros [|c l] Fl N; [reflexivity|]. cbn [starts_ws].
    destruct (in_class whitespace c) eqn:C; [|reflexivity].
    inversion Fl as [|? ? Hc _]; subst. rewrite (Hc C) in N. destruct (N l eq_refl). }
  assert (Fs : Forall (fun c => in_class whitespace c = true -> c = space) s).
  { rewrite Forall_forall in *. intros c Hc. apply (F c Hc). }
  assert (C : collapsed s).
  { clear E1 Hd Tl St F. induction s as [|c s IH]; [exact I|].
    inversion Fs as [|? ? Hc Fs']; subst. split.
    - intros Cw. split; [exact (Hc Cw)|].
      destruct s as [|d s]; [reflexivity|]. cbn [starts_ws].
      destruct (in_class whitespace d) eqn:Dw; [|reflexivity].
      inversion Fs' as [|? ? Hd' _]; subst.
      rewrite (Hc Cw), (Hd' Dw) in D. destruct (D [] s eq_refl).
    - apply IH; [|exact Fs'].
      intros l1 l2 E. apply (D (c :: l1) l2). rewrite E. reflexivity. }
  rewrite (proj1 (sub_runs_fixed s C)).
  unfold strip, rstrip, lstrip.
  assert (L : forall l : text, starts_ws l = false -> skip_class whitespace l = l).
  { intros [|c l] H; [reflexivity|]. cbn [skip_class]. cbn [starts_ws] in H.
    rewrite H. reflexivity. }
  rewrite (L s (St s Fs Hd)).
  rewrite L; [apply rev_involutive|].
  apply St.
  - apply Forall_rev. exact Fs.
  - intros l' E. apply (Tl (rev l')).
    rewrite <- (rev_involutive s), E. reflexivity.
Qed.

Lemma letters_sub_runs (s : text) :
  forall b, letters (sub_runs whitespace space b s) = letters s.
Proof.
  unfold letters. induction s as [|c s IH]; intros b; [reflexivity|].
  cbn [sub_runs filter]. destruct (in_class whitespace c) eqn:C.
  - cbn [orb negb]. destruct b; [apply IH|]. cbn [filter].
    change (in_class whitespace space) with true. cbn [orb negb]. apply IH.
  - cbn [filter]. rewrite C. cbn [orb]. rewrite IH. reflexivity.
Qed.

Lemma letters_sub_class (s : text) :
  letters (sub_class parentheses space s) = letters s.
Proof.
  unfold letters, sub_class. induction s as [|c s IH]; [reflexivity|].
  cbn [map filter]. destruct (in_class parentheses c) eqn:C.
  - change (in_class whitespace space) with true. rewrite orb_true_r. cbn [orb negb]. exact IH.
  - rewrite C, IH. reflexivity.
Qed.

Lemma letters_whitespace (s : text) : Forall (fun c => in_class whitespace c = true) s -> letters s = [].
Proof.
  unfold letters. induction 1 as [|c s Hc _ IH]; [reflexivity|].
  cbn [filter]. rewrite Hc. cbn [orb negb]. exact IH.
Qed.

Lemma lstrip_cut (s : text) :
  exists pre, s = pre ++ lstrip s /\ Forall (fun c => in_class whitespace c = true) pre.
Proof.
  unfold lstrip. induction s as [|c s (pre & E & F)]; [exists []; auto|].
  cbn [skip_class]. destruct (in_class whitespace c) eqn:C.
  - exists (c :: pre). split; [cbn; f_equal; exact E|constructor; assumption].
  - exists []. split; [reflexivity|constructor].
Qed.

Lemma letters_app (l1 l2 : text) : letters (l1 ++ l2) = letters l1 ++ letters l2.
Proof. apply filter_app. Qed.

Lemma letters_rev (l : text) : letters (rev l) = rev (letters l).
Proof.
  unfold letters. induction l as [|c l IH]; [reflexivity|].
  cbn [rev filter]. rewrite filter_app, IH. cbn [filter].
  destruct (negb _); cbn [rev app]; [reflexivity|apply app_nil_r].
Qed.

Lemma letters_lstrip (s : text) : letters (lstrip s) = letters s.
Proof.
  destruct (lstrip_cut s) as (pre & E & F). rewrite E at 2.
  rewrite letters_app, (letters_whitespace _ F). reflexivity.
Qed.

Lemma letters_strip (s : text) : letters (strip s) = letters s.
Proof.
  unfold strip, rstrip.
  rewrite letters_rev, letters_lstrip, letters_rev, rev_involutive.
  apply letters_lstrip.
Qed.

(** X19.  [_preprocess_address] gives an address without parentheses,
    ASCII or full-width, in which the only white space is the single space,
    never two in a row and none at either end; the other characters of the
    address are all kept, in their order. *)
Theorem preprocessed_address (address : text) :
  tidy (_preprocess_address address) /\
  letters (_preprocess_address address) = letters address.
Proof.
  split; [apply preprocess_address_tidy|].
  unfold _preprocess_address. cbv zeta.
  rewrite letters_strip, letters_sub_runs. apply letters_sub_class.
Qed.

(** X20.  An address that is tidy already is left as it is, so
    preprocessing an address twice gives what preprocessing it once
    gives. *)
Theorem preprocess_address_idempotent (address : text) :
  (tidy address -> _preprocess_address address = address) /\
  _preprocess_address (_preprocess_address address) = _preprocess_address address.
Proof.
  split; [apply tidy_fixed|]. apply tidy_fixed, preprocess_address_tidy.
Qed.

End AddressFacts.

Section BatchFacts.
Import map_api map_api.MapAPI.
Context {W E : Type}.
Variable geocode : text -> string -> W -> W * (option point + E).

(** X21.  [batch_geocode] answers every address, in the order of the list,
    and never raises.  It asks [geocode] for each address once, one after
    the other, and its result holds, for each address, what [geocode]
    returned for it, or [None] when [geocode] raised.  After every address
    it pauses: 0.2 seconds when [geocode] returned, a second when it
    raised. *)
Theorem batch_geocode_answers (addresses : list text) (city : string) (w : W) :
  match batch_geocode geocode addresses city w, answers geocode addresses city w with
  | (t, w', results), (w'', given) =>
      length given = length addresses /\
      w' = w'' /\
      results = map (fun answer => match answer with
                                   | inl result => result
                                   | inr _ => None
                                   end) given /\
      t = flat_map (fun pair =>
                      [Geocoded (fst pair);
                       Paused (match snd pair with
                               | inl _ => 0.2%float
                               | inr _ => 1.0%float
                               end)])
            (combine addresses given) /\
      length results = length addresses /\
      asked t = addresses /\
      Forall2 (fun pause result => pause = 0.2%float \/
                                   (pause = 1.0%float /\ result = None))
        (pauses t) results
  end.
Proof.
  revert w. induction addresses as [|a addresses IH]; intros w.
  - cbn. repeat split. constructor.
  - cbn [batch_geocode answers]. destruct (geocode a city w) as [w1 answer].
    specialize (IH w1).
    destruct (batch_geocode geocode addresses city w1) as [[t w2] results].
    destruct (answers geocode addresses city w1) as [w3 given].
    destruct IH as (Hg & Hw & Hr & Ht & Hl & Ha & Hp).
    destruct answer as [result|e];
      cbn [length asked pauses flat_map app map combine fst snd];
      (split; [f_equal; exact Hg|]); (split; [exact Hw|]);
      (split; [f_equal; exact Hr|]); (split; [do 2 f_equal; exact Ht|]);
      (split; [f_equal; exact Hl|]); (split; [f_equal; exact Ha|]);
      constructor; auto.
Qed.

End BatchFacts.

(** ** The calculation thread *)

Section ThreadFacts.
Import main.CalculationThread.
Context {rt : Runtime} {api : MapAPI} {address_info : Type}.
Variable reverse_geocode : point -> result address_info.
Variables (start_time end_time : float) (api_call_count : Z).


Lemma reports_searching (t : list event) :
  reports (map (searching (address_info := address_info)) t) = [] /\
  progress (map (searching (address_info := address_info)) t) = [] /\
  searched (map (searching (address_info := address_info)) t) = t.
Proof.
  unfold reports, progress, searched.
  induction t as [|e t (IH1 & IH2 & IH3)]; [repeat split|].
  cbn [map filter flat_map is_report app]. rewrite IH3. auto.
Qed.

Lemma started_progress (fuel : nat) (self : thread) :
  fst (started fuel self) = if chosen (clustering_method self) then 30 else 40.
Proof.
  unfold started. destruct (clustering_method self) as [m|]; [|reflexivity].
  destruct (chosen (Some m)); reflexivity.
Qed.

(** X22.  [run] never lets an exception out and reports exactly once: when
    it comes to its end, the last thing it has done is to emit
    [calculation_complete] or [calculation_error], and it has emitted
    neither before.  The progress goes 10, then 30 with clustering and 40
    without, then 70 when the search has returned, and 100 only together
    with [calculation_complete]. *)
Theorem run_reports_once (fuel : nat) (self : thread) :
  match run reverse_geocode start_time end_time api_call_count fuel self with
  | (t, Ok _) =>
      exists before report,
        t = before ++ [report] /\ is_report report = true /\ reports before = [] /\
        let first := if chosen (clustering_method self) then 30 else 40 in
        match report with
        | calculation_complete _ => progress t = [10; first; 70; 100]
        | _ => progress t = [10; first] \/ progress t = [10; first; 70]
        end
  | (t, OutOfFuel) => reports t = []
  | (t, Raise _) => False
  end.
Proof.
  unfold run. pose proof (started_progress fuel self) as P.
  destruct (started fuel self) as [p search]. cbn [fst] in P. subst p.
  set (first := if chosen (clustering_method self) then 30 else 40).
  destruct (reports_searching (trace search)) as (R & Pr & _).
  assert (B : reports (address_info := address_info)
                 ([progress_update 10; sleep 0.3; progress_update first]
                       ++ map searching (trace search)) = []).
  { unfold reports. rewrite filter_app. exact R. }
  assert (G : progress (address_info := address_info)
                 ([progress_update 10; sleep 0.3; progress_update first]
                        ++ map searching (trace search)) = [10; first]).
  { unfold progress. rewrite flat_map_app. fold (progress (map (searching (address_info := address_info)) (trace search))).
    rewrite Pr. reflexivity. }
  set (before := [progress_update 10; sleep 0.3; progress_update first]
                 ++ map searching (trace search)) in *.
  destruct (outcome search) as [[result|]|e|].
  - destruct (reverse_geocode (coords_of (optimal_point result))) as [a|e].
    + eexists (before ++ [_; _; _; _]), _. rewrite <- app_assoc.
      split; [reflexivity|]. split; [reflexivity|]. split.
      * unfold reports. rewrite filter_app. fold (reports before). rewrite B. reflexivity.
      * cbv zeta. unfold progress. rewrite flat_map_app. fold (progress before).
        rewrite G. reflexivity.
    + eexists (before ++ [_; _; _]), _. rewrite <- app_assoc.
      split; [reflexivity|]. split; [reflexivity|]. split.
      * unfold reports. rewrite filter_app. fold (reports before). rewrite B. reflexivity.
      * cbv zeta. right. unfold progress. rewrite flat_map_app. fold (progress before).
        rewrite G. reflexivity.
  - eexists (before ++ [_; _]), _. rewrite <- app_assoc.
    split; [reflexivity|]. split; [reflexivity|]. split.
    + unfold reports. rewrite filter_app. fold (reports before). rewrite B. reflexivity.
    + cbv zeta. right. unfold progress. rewrite flat_map_app. fold (progress before).
      rewrite G. reflexivity.
  - exists before, (calculation_error e).
    split; [reflexivity|]. split; [reflexivity|]. split; [exact B|].
    cbv zeta. left. unfold progress. rewrite flat_map_app. fold (progress before).
    rewrite G. reflexivity.
  - exact B.
Qed.

Lemma direct_search_few (fuel : nat) (self self' : thread) :
  coordinates self' = coordinates self -> weights self' = weights self ->
  (length (coordinates self) <= cluster_threshold)%nat ->
  direct_search fuel self = direct_search fuel self'.
Proof.
  intros Hc Hw Hn. unfold direct_search. rewrite Hc, Hw.
  unfold find_optimal_point. destruct (coordinates self) as [|c cs]; [reflexivity|].
  rewrite (start_of_search_few _ _ (PyInt (search_step self)) _ _ _ _ Hn).
  rewrite (start_of_search_few _ _ (PyInt (search_step self')) _ _ _ _ Hn).
  reflexivity.
Qed.

(** X23.  Without clustering the thread does not use the step and the
    objective it was given: it passes them to [find_optimal_point] in the
    places of [clustering_method] and [min_cluster_size], which a search
    over twenty locations or fewer does not read.  Two threads over the
    same locations and weights then do the same and report the same,
    whatever their steps and objectives are: the search runs with a step of
    100 metres and for the lowest total cost. *)
Theorem thread_ignores_step_and_objective (fuel : nat) (self self' : thread) :
  coordinates self' = coordinates self -> weights self' = weights self ->
  chosen (clustering_method self) = false ->
  chosen (clustering_method self') = false ->
  (length (coordinates self) <= cluster_threshold)%nat ->
  run reverse_geocode start_time end_time api_call_count fuel self =
  run reverse_geocode start_time end_time api_call_count fuel self' /\
  started fuel self =
    (40, find_optimal_point fuel (coordinates self) (weights self)
           PyNone (PyInt 5) 10 100 "total_cost").
Proof.
  intros Hc Hw Hm Hm' Hn.
  assert (S : forall s : thread, chosen (clustering_method s) = false ->
                started fuel s = (40, direct_search fuel s)).
  { intros s H. unfold started. destruct (clustering_method s) as [m|]; [|reflexivity].
    rewrite H. reflexivity. }
  split.
  - unfold run. rewrite (S self Hm), (S self' Hm').
    rewrite (direct_search_few fuel self self' Hc Hw Hn). reflexivity.
  - rewrite (S self Hm). f_equal. unfold direct_search, find_optimal_point.
    destruct (coordinates self) as [|c cs]; [reflexivity|].
    rewrite (start_of_search_few _ _ (PyInt (search_step self)) _ _ _ _ Hn).
    reflexivity.
Qed.

(** X24.  Without clustering and with more than twenty locations the thread
    cannot calculate: the step stands where [find_optimal_point] expects the
    name of a clustering method, the search asks an integer for its
    [lower()], and the thread reports the [AttributeError] without having
    asked the provider anything.  This holds for every step but 0. *)
Theorem thread_fails_above_threshold (fuel : nat) (self : thread) :
  chosen (clustering_method self) = false ->
  (cluster_threshold < length (coordinates self))%nat ->
  search_step self <> 0 ->
  run reverse_geocode start_time end_time api_call_count fuel self =
  ([progress_update 10; sleep 0.3; progress_update 40;
    calculation_error AttributeError], Ok tt).
Proof.
  intros Hm Hn Hs. unfold run.
  assert (S : started fuel self = (40, direct_search fuel self)).
  { unfold started. destruct (clustering_method self) as [m|]; [|reflexivity].
    rewrite Hm. reflexivity. }
  rewrite S.
  assert (D : direct_search fuel self = ([], Raise AttributeError)).
  { unfold direct_search, find_optimal_point, start_of_search.
    destruct (coordinates self) as [|c cs]; [cbn in Hn; lia|].
    apply Nat.ltb_lt in Hn. rewrite Hn. cbn [is_none andb truthy].
    apply Z.eqb_neq in Hs. rewrite Hs. reflexivity. }
  rewrite D. reflexivity.
Qed.

End ThreadFacts.

(** ** Runs *)

Section FinderRuns.
Import Reference.
Local Open Scope float_scope.

Lemma sample_search_result :
  exists r, sample_search = (trace sample_search, Ok (Some r)) /\
            total_time r = 199999%Z /\ In (LogIterations 5) (calculation_logs r).
Proof.
  assert (H : exists r, outcome sample_search = Ok (Some r) /\
                        total_time r = 199999%Z /\
                        In (LogIterations 5) (calculation_logs r)).
  { vm_compute. eexists. split; [reflexivity|]. split; [reflexivity|].
    do 5 right. left. reflexivity. }
  destruct H as (r & Hr & Ht). exists r. split; [|exact Ht].
  rewrite <- Hr. apply M_eta.
Defined.

Lemma longest_route_within_total_witness :
  exists longest sum,
    outcome (@calculate_max_time runtime grid_api (40, -72) two_towns) = Ok longest /\
    outcome (@calculate_pure_total_time runtime grid_api (40, -72) two_towns) = Ok sum /\
    (0 <= longest <= sum)%Z.
Proof.
  apply (@longest_route_within_total runtime grid_api (40, -72) two_towns).
  intros c t [<-|[<-|[]]] H; vm_compute in H; injection H as <-; lia.
Defined.

Lemma result_needs_weights_witness :
  exists l, Some [1; 1] = Some l /\ (length two_towns <= length l)%nat.
Proof.
  destruct sample_search_result as (r & Hr & _).
  exact (@result_needs_weights runtime grid_api _ _ _ _ _ _ _ _ _ r Hr).
Defined.

(** Without weights the search runs and then stops on the first
    [weights[i]]. *)
Example search_without_weights :
  outcome (@find_optimal_point runtime grid_api 100 two_towns None
             PyNone (PyInt 5) 10 100 "total_cost") = Raise TypeError /\
  outcome (@find_optimal_point runtime grid_api 100 two_towns (Some [1])
             PyNone (PyInt 5) 10 100 "total_cost") = Raise IndexError.
Proof. split; vm_compute; reflexivity. Qed.

Lemma reported_cost_witness :
  exists r, outcome sample_search = Ok (Some r) /\
    outcome (@objective runtime grid_api "total_cost" (optimal_point r) two_towns
               (Some [1; 1])) = Ok 199999%Z.
Proof.
  destruct sample_search_result as (r & Hr & Ht & _).
  exists r. split; [rewrite Hr; reflexivity|].
  rewrite <- Ht.
  exact (proj1 (@reported_cost runtime grid_api _ _ _ _ _ _ _ _ _ r Hr)).
Defined.

Lemma provider_calls_of_a_search_witness :
  exists k, (0 <= k)%Z /\
    (2 * (k + 3) <= lookups (trace sample_search) <= 2 * (4 * k + 3))%Z.
Proof.
  destruct sample_search_result as (r & Hr & _).
  destruct (@provider_calls_of_a_search runtime grid_api _ _ _ _ _ _ _ _ _ r Hr)
    as (k & _ & H0 & H).
  exists k. split; [exact H0|exact H].
Defined.

Lemma clustering_threshold_rule_witness :
  @find_optimal_point runtime grid_api 100 two_towns (Some [1; 1])
    (PyStr "kmeans") (PyInt 7) 3 100 "total_cost" = sample_search.
Proof.
  destruct (@clustering_threshold_rule runtime grid_api 100 two_towns
              (Some [1; 1]) 100 "total_cost") as [H _].
  destruct H as [H _]; [unfold two_towns, cluster_threshold; cbn [length]; lia|].
  apply H.
Defined.

Lemma clusters_partition_locations_witness :
  exists clusters,
    @_perform_clustering runtime three_towns [1; 1; 3] "kmeans" 2 = Value clusters /\
    clusters <> [] /\
    Forall proper_cluster clusters /\
    Permutation (flat_map members clusters) (combine three_towns [1; 1; 3]).
Proof.
  apply (@clusters_partition_locations runtime three_towns [1; 1; 3] "kmeans" 2).
  - discriminate.
  - reflexivity.
  - intros k. reflexivity.
  - intros k. reflexivity.
Defined.

(** Two locations without weight, in one cluster. *)
Lemma weightless_cluster_rejected_witness :
  @find_optimal_point_with_clustering runtime (constant_api 60) 20
    [(0, 0); (2, 2)] (Some [0; 0]) "hdbscan" 5 100 "total_cost" =
  ([], Raise ambiguous_truth_value).
Proof.
  apply (@weightless_cluster_rejected runtime (constant_api 60) 20
           [(0, 0); (2, 2)] [0; 0] "hdbscan" 5 100 "total_cost"
           [([(0, 0); (2, 2)], [0; 0])]).
  - reflexivity.
  - reflexivity.
  - constructor. split; [split; [discriminate|reflexivity]|reflexivity].
Defined.

Lemma direct_report_witness :
  exists r, outcome sample_search = Ok (Some r) /\
            map coordinates (individual_times r) = two_towns /\
            map point_index (individual_times r) = [0; 1]%nat.
Proof.
  destruct sample_search_result as (r & Hr & _).
  exists r. split; [rewrite Hr; reflexivity|].
  destruct (@direct_report runtime grid_api _ _ _ _ _ _ _ _ _ r Hr)
    as (H1 & H2 & _).
  split; [exact H1|exact H2].
Defined.

Lemma silent_provider_gives_centroid_witness :
  exists r,
    outcome silent_search = Ok (Some r) /\
    @calculate_centroid runtime two_towns (Some [1; 1]) = Centroid (optimal_point r) /\
    total_time r = 0%Z.
Proof.
  assert (H : exists r, outcome silent_search = Ok (Some r))
    by (vm_compute; eexists; reflexivity).
  destruct H as (r & Hr). exists r. split; [exact Hr|].
  destruct (@silent_provider_gives_centroid runtime silent_api 100 two_towns
              (Some [1; 1]) PyNone (PyInt 5) 10 100 "total_cost"
              (trace silent_search) r)
    as (_ & Hc & Ht & _).
  - intros o d. reflexivity.
  - rewrite <- Hr. apply M_eta.
  - split; [apply Hc; unfold cluster_threshold; cbn; lia|exact Ht].
Defined.

Lemma step_below_the_floor_witness :
  exists r,
    outcome short_search = Ok (Some r) /\
    In (LogIterations 0) (calculation_logs r).
Proof.
  assert (H : exists r, outcome short_search = Ok (Some r))
    by (vm_compute; eexists; reflexivity).
  destruct H as (r & Hr). exists r. split; [exact Hr|].
  destruct (@step_below_the_floor runtime grid_api 100 two_towns
              (Some [1; 1]) PyNone (PyInt 5) 10 10 "total_cost"
              (trace short_search) r)
    as (Hi & _).
  - lia.
  - rewrite <- Hr. apply M_eta.
  - exact Hi.
Defined.

(** Five towns and a maximum of two to a cluster: K-Means is asked for two
    clusters, and one of them has three towns. *)
Lemma cluster_size_is_not_bounded_witness :
  exists clusters,
    @_perform_clustering runtime five_towns [1; 1; 1; 1; 1] "KMeans" 2 = Value clusters /\
    (Z.of_nat (length clusters) <= 2)%Z /\
    Exists (fun cl => (2 < Z.of_nat (length (fst cl)))%Z) clusters.
Proof.
  apply (@cluster_size_is_not_bounded runtime five_towns [1; 1; 1; 1; 1] "KMeans" 2).
  - reflexivity.
  - lia.
  - reflexivity.
  - cbn. lia.
  - cbn. discriminate.
  - reflexivity.
  - vm_compute. repeat constructor; discriminate.
Defined.

End FinderRuns.

Section ProviderRuns.
Import map_api map_api.MapAPI.

Lemma retry_budget_witness :
  exists t w' self' out,
    _handle_api_request (fun e => e) (AmapAPI.__init__ amap_key) busy_twice 0%nat
      = (t, w', self', out) /\
    api_call_count self' = 1 /\ out <> OutOfFuel.
Proof.
  eexists _, _, _, _. split; [vm_compute; reflexivity|].
  destruct (retry_budget (fun e : string => e) busy_twice
              (AmapAPI.__init__ amap_key) 0%nat _ _ _ _
              ltac:(cbn; lia) eq_refl) as (H1 & _ & _ & H2 & _).
  split; [exact H1|exact H2].
Defined.

Lemma retry_outcome_witness :
  exists k : nat,
    [Requested; Slept 1; Requested; Slept 1; Requested] = retried 1 k /\
    3%nat = fst (attempt busy_twice k 0%nat).
Proof.
  destruct (retry_outcome (fun e : string => e) busy_twice
              (AmapAPI.__init__ amap_key) 0%nat 3%nat
              [Requested; Slept 1; Requested; Slept 1; Requested]
              (counted (AmapAPI.__init__ amap_key)) (Return (Some 1800))
              ltac:(cbn; lia) eq_refl) as (k & H1 & _ & H2 & _).
  exists k. split; [exact H1|exact H2].
Defined.

(** A failure to connect is taken for a rate limit, for the word
    [exceeded] in its text: the handler tries four times. *)
Example unreachable_service :
  _handle_api_request (fun e => e) (AmapAPI.__init__ amap_key) unreachable 0%nat =
  (retried 1 3, 4%nat, counted (AmapAPI.__init__ amap_key),
   Raise "Max retries exceeded with url: /v3/direction/driving"%string).
Proof. vm_compute. reflexivity. Qed.

Example keys :
  AmapAPI.validate_api_key amap_key = (true, ""%string) /\
  TencentMapAPI.validate_api_key (codes "ABCDE-FGHIJ-KLMN4-OPQ2R-STUVW-S7Y6Z")
    = (true, ""%string) /\
  fst (BaiduMapAPI.validate_api_key (codes "0123456789abcdef0123456789abcdefg")) = false /\
  create_map_api "AMap" amap_key = Value (AmapAPI.__init__ amap_key).
Proof. repeat split; vm_compute; reflexivity. Qed.

(** An address with full-width parentheses and an ideographic space. *)
Example address :
  _preprocess_address ([32; 21271; 20140; 65288; 26397; 38451; 65289; 12288; 12288]%N
                       ++ codes "A(1)  ")
  = [21271; 20140; 32; 26397; 38451; 32; 65; 32; 49]%N.
Proof. vm_compute. reflexivity. Qed.

(** Three addresses: one that is found, one that raises and one that has no
    coordinates. *)
Example batch_of_three :
  batch_geocode one_address [codes "Main St 5"; codes "?"; codes "Nowhere"] "" 0%nat =
  ([Geocoded (codes "Main St 5"); Paused 0.2; Geocoded (codes "?"); Paused 1.0;
    Geocoded (codes "Nowhere"); Paused 0.2],
   3%nat,
   [Some (40, -73)%float; None; None]).
Proof. vm_compute. reflexivity. Qed.

Lemma preprocess_address_idempotent_witness :
  _preprocess_address (codes "Main St 5") = codes "Main St 5".
Proof.
  apply (proj1 (preprocess_address_idempotent (codes "Main St 5"))).
  repeat split.
  - repeat (constructor; [split; [reflexivity|]; vm_compute; congruence|]).
    constructor.
  - intros l1 l2 H.
    repeat (destruct l1 as [|? l1]; [discriminate H|injection H as _ H]).
    destruct l1; discriminate H.
  - intros l H. discriminate H.
  - intros l H. apply (f_equal (@rev N)) in H. rewrite rev_app_distr in H.
    discriminate H.
Defined.

End ProviderRuns.

Section ThreadRuns.
Import Reference main.CalculationThread.
Local Open Scope float_scope.



(** A calculation over the two towns: the four steps of the progress bar
    and forty-two provider calls behind them. *)
Example calculation_over_two_towns :
  progress (fst (sample_run (plain_thread two_towns 50 "min_max_time")))
  = [10; 40; 70; 100]%Z /\
  lookups (searched (fst (sample_run (plain_thread two_towns 50 "min_max_time"))))
  = 42%Z.
Proof. split; vm_compute; reflexivity. Qed.

Lemma thread_ignores_step_and_objective_witness :
  sample_run (plain_thread two_towns 50 "min_max_time") =
  sample_run (plain_thread two_towns 100 "total_cost").
Proof.
  apply (@thread_ignores_step_and_objective runtime grid_api (option string)
           no_address 0 1.5 12%Z 100
           (plain_thread two_towns 50 "min_max_time")
           (plain_thread two_towns 100 "total_cost"));
    try reflexivity.
  unfold cluster_threshold. cbn. lia.
Defined.

Lemma thread_fails_above_threshold_witness :
  sample_run (plain_thread (repeat (40, -73) 21) 100 "total_cost") =
  ([progress_update 10; sleep 0.3; progress_update 40;
    calculation_error AttributeError], Ok tt).
Proof.
  apply (@thread_fails_above_threshold runtime grid_api (option string)
           no_address 0 1.5 12%Z 100
           (plain_thread (repeat (40, -73) 21) 100 "total_cost")).
  - reflexivity.
  - unfold cluster_threshold. cbn. lia.
  - discriminate.
Defined.

End ThreadRuns.
